(** * Agentic_Codegen

    A shallow embedding of the phase-driven agent of [agentic_codegen]:
    the action parser ([parsing.py]), the prompt builder ([prompts.py]),
    the checks tool ([actions.py]) and the orchestrator loop ([agent.py]),
    followed by the properties established about them.

    Conventions.  Python [str] is [string]; a character stands for the code
    point of the same number, so the texts covered are those whose code
    points are below 256.  Python [int] is [Z].  A function that may raise
    returns a [Result]; an object with mutable state (the generating model,
    the tool collaborators) is a function over an explicit world state. *)

From Stdlib Require Import String Ascii List ZArith Lia Bool DecimalString.
Import ListNotations.
Open Scope string_scope.

(* ================================================================== *)
(** ** Python values, strings and exceptions *)
(* ================================================================== *)

Module Py.

(** The line feed and the double quote, which a literal cannot hold. *)
Definition nl : string := String "010"%char EmptyString.
Definition dq : string := String "034"%char EmptyString.

(** [str.isspace] on one character, which is also what [\s] matches in a
    [str] pattern: TAB..CR, FS..US, SPACE, NEL and NBSP below 256. *)
Definition isspace (c : ascii) : bool :=
  let n := N_of_ascii c in
  (((9 <=? n) && (n <=? 13)) || ((28 <=? n) && (n <=? 32))
   || (n =? 133) || (n =? 160))%N.

(** Lower-casing of one character, as IGNORECASE compares a pattern letter
    of [a-z] with a subject character below 256. *)
Definition lower (c : ascii) : ascii :=
  let n := N_of_ascii c in
  if ((65 <=? n) && (n <=? 90))%N then ascii_of_N (n + 32) else c.

Fixpoint lstrip (s : string) : string :=
  match s with
  | String c s' => if isspace c then lstrip s' else s
  | EmptyString => EmptyString
  end.

Fixpoint rstrip (s : string) : string :=
  match s with
  | String c s' =>
      match rstrip s' with
      | EmptyString => if isspace c then EmptyString else String c EmptyString
      | r => String c r
      end
  | EmptyString => EmptyString
  end.

(** [s.strip()] *)
Definition strip (s : string) : string := rstrip (lstrip s).

(** The longest prefix of characters satisfying [p], and what follows. *)
Fixpoint span (p : ascii -> bool) (s : string) : string * string :=
  match s with
  | String c s' =>
      if p c then let (a, b) := span p s' in (String c a, b)
      else (EmptyString, s)
  | EmptyString => (EmptyString, EmptyString)
  end.

(** [s[n:]] for [0 <= n]. *)
Fixpoint drop (n : nat) (s : string) : string :=
  match n, s with
  | S n', String _ s' => drop n' s'
  | _, _ => s
  end.

(** Truth value of a [str]: non-empty. *)
Definition truthy_str (s : string) : bool :=
  match s with EmptyString => false | String _ _ => true end.

(** [sub in s] *)
Fixpoint contains (sub s : string) : bool :=
  prefix sub s
  || match s with
     | String _ s' => contains sub s'
     | EmptyString => false
     end.

(** [sep.join(parts)] *)
Definition join (sep : string) (parts : list string) : string :=
  String.concat sep parts.

(** [xs.append(x)] *)
Definition push {A : Type} (xs : list A) (x : A) : list A := (xs ++ [x])%list.

(** [str(n)] for an [int]. *)
Definition str_of_int (n : Z) : string := NilZero.string_of_int (Z.to_int n).

(** [s[:n]] for [0 <= n]. *)
Definition take (n : nat) (s : string) : string := substring 0 n s.

(** An exception instance: [type(e).__name__] and [str(e)].  Only
    subclasses of [Exception] are modelled. *)
Record Exn : Type := mkExn { exn_type : string; exn_msg : string }.

Inductive Result (A : Type) : Type :=
| Ok (a : A)
| Raise (e : Exn).
Arguments Ok {A} a.
Arguments Raise {A} e.

(** The values a JSON document or a specification is made of. *)
#[local] Unset Elimination Schemes.
Inductive PyVal : Type :=
| PyNone
| PyBool (b : bool)
| PyInt (n : Z)
| PyStr (s : string)
| PyList (items : list PyVal)
| PyDict (items : list (string * PyVal)).
#[local] Set Elimination Schemes.

(** [d.get(k)] on the items of a dict, [None] standing for Python's. *)
Fixpoint lookup (k : string) (d : list (string * PyVal)) : option PyVal :=
  match d with
  | [] => None
  | (k', v) :: d' => if String.eqb k k' then Some v else lookup k d'
  end.

(** [d.get(k, default)] *)
Definition get (d : list (string * PyVal)) (k : string) (default : PyVal) : PyVal :=
  match lookup k d with Some v => v | None => default end.

(** [d[k] = v], keeping the position of a key already present. *)
Fixpoint setitem (k : string) (v : PyVal) (d : list (string * PyVal))
  : list (string * PyVal) :=
  match d with
  | [] => [(k, v)]
  | (k', v') :: d' =>
      if String.eqb k k' then (k', v) :: d' else (k', v') :: setitem k v d'
  end.

(** [bool(v)] *)
Definition truthy (v : PyVal) : bool :=
  match v with
  | PyNone => false
  | PyBool b => b
  | PyInt n => negb (n =? 0)%Z
  | PyStr s => truthy_str s
  | PyList l => match l with [] => false | _ => true end
  | PyDict d => match d with [] => false | _ => true end
  end.

(** *** Effects

    A computation that may change a state [S] (the world outside, or a
    mutable local) and may raise. *)
Section Effects.
Context {S : Type}.

Definition M (A : Type) : Type := S -> Result A * S.

Definition ret {A : Type} (a : A) : M A := fun s => (Ok a, s).

Definition raise {A : Type} (e : Exn) : M A := fun s => (Raise e, s).

Definition lift {A : Type} (r : Result A) : M A := fun s => (r, s).

Definition bind {A B : Type} (m : M A) (k : A -> M B) : M B :=
  fun s =>
    match m s with
    | (Ok a, s') => k a s'
    | (Raise e, s') => (Raise e, s')
    end.

(** [try: m  except Exception as e: h e] *)
Definition try_except {A : Type} (m : M A) (h : Exn -> M A) : M A :=
  fun s =>
    match m s with
    | (Ok a, s') => (Ok a, s')
    | (Raise e, s') => h e s'
    end.
End Effects.
Arguments M : clear implicits.

Declare Scope py_scope.
Delimit Scope py_scope with py.
Notation "x <- m ;; k" := (bind m (fun x => k))
  (at level 61, m at next level, right associativity) : py_scope.

End Py.

Import Py.

(* ================================================================== *)
(** ** parsing.py *)
(* ================================================================== *)

Module parsing.

(** *** The pattern [ACTION_FENCE_RE]

    [```action\s*(?P<body>[\s\S]*?)\s*```] with IGNORECASE, as a
    backtracking matcher: each piece takes the rest of the pattern as a
    continuation and tries its alternatives in the engine's order. *)

Section Pieces.
Context {A : Type}.

(** A literal, compared case-insensitively. *)
Fixpoint lit_ci (p : string) (k : string -> option A) (s : string) : option A :=
  match p with
  | EmptyString => k s
  | String a p' =>
      match s with
      | String c s' =>
          if Ascii.eqb (lower a) (lower c) then lit_ci p' k s' else None
      | EmptyString => None
      end
  end.

(** [\s*], greedy: the longest run first, then shorter ones. *)
Fixpoint ws_star (k : string -> option A) (s : string) : option A :=
  match s with
  | String c s' =>
      if isspace c
      then match ws_star k s' with
           | Some r => Some r
           | None => k s
           end
      else k s
  | EmptyString => k s
  end.

(** [([\s\S]*?)], lazy and capturing: the shortest body first. *)
Fixpoint any_lazy (k : string -> option A) (s : string) : option (string * A) :=
  match k s with
  | Some r => Some (EmptyString, r)
  | None =>
      match s with
      | String c s' =>
          match any_lazy k s' with
          | Some (b, r) => Some (String c b, r)
          | None => None
          end
      | EmptyString => None
      end
  end.
End Pieces.

(** The closing part [\s*```] of the pattern. *)
Definition fence_close (s : string) : option unit :=
  ws_star (lit_ci "```" (fun _ => Some tt)) s.

(** A match of the whole pattern starting at the head of [s]: the body. *)
Definition ACTION_FENCE_match (s : string) : option string :=
  match lit_ci "```action" (ws_star (any_lazy fence_close)) s with
  | Some (body, _) => Some body
  | None => None
  end.

(** [ACTION_FENCE_RE.search(text)]: the leftmost match; [m.group("body")]. *)
Fixpoint ACTION_FENCE_search (text : string) : option string :=
  match ACTION_FENCE_match text with
  | Some body => Some body
  | None =>
      match text with
      | String _ text' => ACTION_FENCE_search text'
      | EmptyString => None
      end
  end.

Definition ActionParseError (msg : string) : Exn := mkExn "ActionParseError" msg.

Definition is_ActionParseError (e : Exn) : bool :=
  String.eqb (exn_type e) "ActionParseError".

Record Action : Type := mkAction {
  tool_name : string;
  args : list (string * PyVal)
}.

(** [text] is a [str] here, so the test [isinstance(text, str)] holds. *)
Definition extract_action_block (text : string) : Result string :=
  if negb (truthy_str (strip text)) then
    Raise (ActionParseError "Empty model response; expected an ```action``` block.")
  else
    match ACTION_FENCE_search text with
    | None => Raise (ActionParseError "No ```action``` block found in model response.")
    | Some body =>
        if negb (truthy_str body) || negb (truthy_str (strip body)) then
          Raise (ActionParseError "Found ```action``` block but it was empty.")
        else Ok (strip body)
    end.

(** What [json.loads] gives on a [str]: the decoded value, a
    [JSONDecodeError] whose [str(e)] is the message, or one of the two
    other exceptions of the decoder: the [ValueError] of [int] on an
    integer literal of more digits than it converts, and the
    [RecursionError] of a nesting too deep. *)
Inductive JsonOutcome : Type :=
| Decoded (v : PyVal)
| JSONDecodeError (msg : string)
| ValueError (msg : string)
| RecursionError (msg : string).

Section WithJson.
(** [json.loads], of the Python library. *)
Variable json_loads : string -> JsonOutcome.

Definition parse_action_json (block_body : string)
  : Result (list (string * PyVal)) :=
  match json_loads block_body with
  | JSONDecodeError e =>
      Raise (ActionParseError ("Invalid JSON inside action block: " ++ e))
  | ValueError msg => Raise (mkExn "ValueError" msg)
  | RecursionError msg => Raise (mkExn "RecursionError" msg)
  | Decoded obj =>
      match obj with
      | PyDict d => Ok d
      | _ => Raise (ActionParseError "Action JSON must be a JSON object (dict).")
      end
  end.

Definition validate_action_obj (obj : list (string * PyVal)) : Result Action :=
  let tool_name := get obj "tool_name" PyNone in
  let args := get obj "args" PyNone in
  match tool_name with
  | PyStr name =>
      if negb (truthy_str (strip name)) then
        Raise (ActionParseError "Action JSON missing valid 'tool_name' (string).")
      else
        let args := match args with PyNone => PyDict [] | _ => args end in
        match args with
        | PyDict a => Ok (mkAction (strip name) a)
        | _ => Raise (ActionParseError "Action JSON 'args' must be an object/dict.")
        end
  | _ => Raise (ActionParseError "Action JSON missing valid 'tool_name' (string).")
  end.

Definition parse_action (text : string) : Result Action :=
  match extract_action_block text with
  | Raise e => Raise e
  | Ok body =>
      match parse_action_json body with
      | Raise e => Raise e
      | Ok obj => validate_action_obj obj
      end
  end.

(** [try: return parse_action(text), None
     except ActionParseError as e: return None, str(e)]:
    any other exception passes through, those of the decoder that
    [parse_action_json] does not catch included. *)
Definition safe_parse_action (text : string)
  : Result (option Action * option string) :=
  match parse_action text with
  | Ok a => Ok (Some a, None)
  | Raise e =>
      if is_ActionParseError e then Ok (None, Some (exn_msg e)) else Raise e
  end.
End WithJson.

End parsing.

(* ================================================================== *)
(** ** Reference builtins

    [json.loads] and [repr] belong to the Python library and are
    parameters of the development.  The instances below, a decoder for the
    JSON subset without floats and unicode escapes (with abbreviated
    messages, and with the limit of 4300 digits that [int] puts on an
    integer literal) and [repr] on [PyVal], are what the examples run
    with. *)
(* ================================================================== *)

Module Ref.
Import parsing.

Definition json_space (c : ascii) : bool :=
  let n := N_of_ascii c in ((n =? 32) || (n =? 9) || (n =? 10) || (n =? 13))%N.

Fixpoint json_ws (s : string) : string :=
  match s with
  | String c s' => if json_space c then json_ws s' else s
  | EmptyString => EmptyString
  end.

Definition is_digit (c : ascii) : bool :=
  let n := N_of_ascii c in ((48 <=? n) && (n <=? 57))%N.

(** The digits at the head of [s]: their value and their number. *)
Fixpoint json_digits (acc : Z) (count : N) (s : string) : option (Z * N * string) :=
  match s with
  | String c s' =>
      if is_digit c
      then json_digits (10 * acc + Z.of_N (N_of_ascii c) - 48)%Z (count + 1)%N s'
      else if (0 <? count)%N then Some (acc, count, s) else None
  | EmptyString => if (0 <? count)%N then Some (acc, count, s) else None
  end.

(** What scanning a value gives: the value and the rest of the text, no
    value, or an integer literal of more digits than [int] converts. *)
Inductive Scan : Type :=
| Got (v : PyVal) (rest : string)
| Bad
| TooLong (digits : N).

(** [sys.get_int_max_str_digits()] *)
Definition int_max_str_digits : N := 4300.

(** An integer literal, converted by [int]. *)
Definition json_int (negative : bool) (s : string) : Scan :=
  match json_digits 0 0 s with
  | Some (z, n, rest) =>
      if (int_max_str_digits <? n)%N then TooLong n
      else Got (PyInt (if negative then - z else z)) rest
  | None => Bad
  end.

Definition json_unescape (c : ascii) : option ascii :=
  let n := N_of_ascii c in
  if (n =? 34)%N then Some c
  else if (n =? 92)%N then Some c
  else if (n =? 47)%N then Some c
  else if (n =? 110)%N then Some "010"%char
  else if (n =? 116)%N then Some "009"%char
  else if (n =? 114)%N then Some "013"%char
  else if (n =? 98)%N then Some "008"%char
  else if (n =? 102)%N then Some "012"%char
  else None.

(** The characters of a string literal after its opening quote. *)
Fixpoint json_string (s : string) : option (string * string) :=
  match s with
  | EmptyString => None
  | String c r =>
      if (N_of_ascii c =? 34)%N then Some (EmptyString, r)
      else if (N_of_ascii c =? 92)%N then
        match r with
        | String e r' =>
            match json_unescape e, json_string r' with
            | Some ch, Some (body, rest) => Some (String ch body, rest)
            | _, _ => None
            end
        | EmptyString => None
        end
      else if (N_of_ascii c <? 32)%N then None
      else
        match json_string r with
        | Some (body, rest) => Some (String c body, rest)
        | None => None
        end
  end.

Fixpoint json_value (fuel : nat) (s : string) {struct fuel} : Scan :=
  match fuel with
  | O => Bad
  | S f =>
      let s := json_ws s in
      if prefix "null" s then Got PyNone (drop 4 s)
      else if prefix "true" s then Got (PyBool true) (drop 4 s)
      else if prefix "false" s then Got (PyBool false) (drop 5 s)
      else
        match s with
        | EmptyString => Bad
        | String c r =>
            let n := N_of_ascii c in
            if (n =? 123)%N then
              match json_ws r with
              | String c' r' =>
                  if (N_of_ascii c' =? 125)%N then Got (PyDict []) r'
                  else json_members f r []
              | EmptyString => Bad
              end
            else if (n =? 91)%N then
              match json_ws r with
              | String c' r' =>
                  if (N_of_ascii c' =? 93)%N then Got (PyList []) r'
                  else json_elements f r []
              | EmptyString => Bad
              end
            else if (n =? 34)%N then
              match json_string r with
              | Some (body, rest) => Got (PyStr body) rest
              | None => Bad
              end
            else if (n =? 45)%N then json_int true r
            else json_int false s
        end
  end
with json_members (fuel : nat) (s : string) (acc : list (string * PyVal))
  {struct fuel} : Scan :=
  match fuel with
  | O => Bad
  | S f =>
      match json_ws s with
      | String q r =>
          if (N_of_ascii q =? 34)%N then
            match json_string r with
            | Some (k, r1) =>
                match json_ws r1 with
                | String colon r2 =>
                    if (N_of_ascii colon =? 58)%N then
                      match json_value f r2 with
                      | Got v r3 =>
                          match json_ws r3 with
                          | String d r4 =>
                              if (N_of_ascii d =? 44)%N
                              then json_members f r4 (setitem k v acc)
                              else if (N_of_ascii d =? 125)%N
                              then Got (PyDict (setitem k v acc)) r4
                              else Bad
                          | EmptyString => Bad
                          end
                      | Bad => Bad
                      | TooLong n => TooLong n
                      end
                    else Bad
                | EmptyString => Bad
                end
            | None => Bad
            end
          else Bad
      | EmptyString => Bad
      end
  end
with json_elements (fuel : nat) (s : string) (acc : list PyVal)
  {struct fuel} : Scan :=
  match fuel with
  | O => Bad
  | S f =>
      match json_value f s with
      | Got v r =>
          match json_ws r with
          | String d r' =>
              if (N_of_ascii d =? 44)%N then json_elements f r' (acc ++ [v])%list
              else if (N_of_ascii d =? 93)%N then Got (PyList (acc ++ [v])%list) r'
              else Bad
          | EmptyString => Bad
          end
      | Bad => Bad
      | TooLong n => TooLong n
      end
  end.

(** The message of the [ValueError] of [int] on a literal of [n] digits. *)
Definition int_limit_message (n : N) : string :=
  "Exceeds the limit (4300 digits) for integer string conversion: value has "
    ++ str_of_int (Z.of_N n)
    ++ " digits; use sys.set_int_max_str_digits() to increase the limit".

Definition json_loads (s : string) : JsonOutcome :=
  match json_value (2 * String.length s + 2) s with
  | Got v rest =>
      match json_ws rest with
      | EmptyString => Decoded v
      | _ => JSONDecodeError "Extra data"
      end
  | Bad => JSONDecodeError "Expecting value"
  | TooLong n => ValueError (int_limit_message n)
  end.

Definition hex_digit (n : N) : ascii :=
  if (n <? 10)%N then ascii_of_N (48 + n) else ascii_of_N (87 + n).

Definition repr_char (quote : ascii) (c : ascii) : string :=
  let n := N_of_ascii c in
  let bs := String "092"%char EmptyString in
  if Ascii.eqb c quote || (n =? 92)%N then bs ++ String c EmptyString
  else if (n =? 10)%N then bs ++ "n"
  else if (n =? 13)%N then bs ++ "r"
  else if (n =? 9)%N then bs ++ "t"
  else if (n <? 32)%N || (n =? 127)%N || ((128 <=? n) && (n <=? 160))%N || (n =? 173)%N
  then bs ++ "x" ++ String (hex_digit (n / 16)) (String (hex_digit (n mod 16)) EmptyString)
  else String c EmptyString.

Fixpoint repr_chars (quote : ascii) (s : string) : string :=
  match s with
  | String c s' => repr_char quote c ++ repr_chars quote s'
  | EmptyString => EmptyString
  end.

Definition repr_str (s : string) : string :=
  let quote := if contains "'" s && negb (contains dq s) then "034"%char else "'"%char in
  String quote (repr_chars quote s) ++ String quote EmptyString.

Fixpoint py_repr (v : PyVal) : string :=
  match v with
  | PyNone => "None"
  | PyBool true => "True"
  | PyBool false => "False"
  | PyInt n => str_of_int n
  | PyStr s => repr_str s
  | PyList l => "[" ++ join ", " (map py_repr l) ++ "]"
  | PyDict d =>
      "{" ++ join ", " (map (fun kv => repr_str (fst kv) ++ ": " ++ py_repr (snd kv)) d) ++ "}"
  end.

End Ref.

(* ================================================================== *)
(** ** prompts.py *)
(* ================================================================== *)

Module prompts.

Inductive Phase : Type := IMPLEMENT | DOCS | TESTS | EVALUATE | EXPORT | FIX.

(** [phase.value] *)
Definition value (p : Phase) : string :=
  match p with
  | IMPLEMENT => "implement"
  | DOCS => "docs"
  | TESTS => "tests"
  | EVALUATE => "evaluate"
  | EXPORT => "export"
  | FIX => "fix"
  end.

Definition Phase_eqb (p q : Phase) : bool :=
  match p, q with
  | IMPLEMENT, IMPLEMENT | DOCS, DOCS | TESTS, TESTS
  | EVALUATE, EVALUATE | EXPORT, EXPORT | FIX, FIX => true
  | _, _ => false
  end.

(** A triple-quoted text: every line ends with a line feed. *)
Definition text_of_lines (ls : list string) : string :=
  String.concat EmptyString (map (fun l => l ++ nl) ls).

Definition AGENT_RULES : string :=
  text_of_lines
    [ "You are an agentic code generation assistant.";
      EmptyString;
      "NON-NEGOTIABLE OUTPUT RULES:";
      "1) You MUST output exactly one fenced block of type ```action``` containing valid JSON.";
      "2) The JSON object MUST contain:";
      "   - " ++ dq ++ "tool_name" ++ dq ++ ": string";
      "   - " ++ dq ++ "args" ++ dq ++ ": object (can be empty)";
      "3) Do NOT include additional code blocks besides the single ```action``` block.";
      EmptyString;
      "QUALITY & SAFETY:";
      "- Prefer Python standard library only if spec.stdlib_only is true.";
      "- Produce deterministic, testable code.";
      "- If prior checks failed, prioritize fixing those failures." ].

Record MemorySnapshot : Type := mkMemorySnapshot {
  phase : Phase;
  spec : PyVal;
  code : string;
  tests : string;
  last_checks : option (list string);
  iteration : Z;
  phase_retries : Z
}.

Section WithRepr.
(** [str] of a value that is not a [str]: its [repr]. *)
Variable py_repr : PyVal -> string.

Definition _compact_spec (spec : PyVal) (max_chars : nat) : string :=
  let s := py_repr spec in
  if (max_chars <? String.length s)%nat
  then take (max_chars - 3) s ++ "..."
  else s.

Definition instruction (what tool : string) : string :=
  text_of_lines
    [ "Task: Choose the next tool to " ++ what;
      EmptyString;
      "Return an action:";
      "- tool_name: " ++ dq ++ tool ++ dq;
      "- args: {}" ].

Definition _phase_instruction (snapshot : MemorySnapshot) : string :=
  if Phase_eqb (phase snapshot) IMPLEMENT then
    instruction "generate code." "write_code"
  else if Phase_eqb (phase snapshot) DOCS then
    instruction "add docstrings." "write_docs"
  else if Phase_eqb (phase snapshot) TESTS then
    instruction "generate unittest tests." "write_tests"
  else if Phase_eqb (phase snapshot) EVALUATE then
    instruction "run checks." "run_checks"
  else if Phase_eqb (phase snapshot) EXPORT then
    instruction "save files." "save_file"
  else
    instruction "fix failures described in LAST_CHECKS." "write_code".

Definition build_prompt (snapshot : MemorySnapshot) : string :=
  let lines := [] in
  let lines := push lines (AGENT_RULES) in
  let lines := push lines (nl ++ "---" ++ nl) in
  let lines := push lines ("PHASE: " ++ value (phase snapshot)) in
  let lines := push lines ("ITERATION: " ++ str_of_int (iteration snapshot)) in
  let lines := push lines ("PHASE_RETRIES: " ++ str_of_int (phase_retries snapshot)) in
  let lines := push lines (nl ++ "SPEC:" ++ nl ++ _compact_spec (spec snapshot) 4000) in
  let lines :=
    if truthy_str (strip (code snapshot))
    then push lines (nl ++ "CURRENT_CODE:" ++ nl ++ code snapshot)
    else lines in
  let lines :=
    if truthy_str (strip (tests snapshot))
    then push lines (nl ++ "CURRENT_TESTS:" ++ nl ++ tests snapshot)
    else lines in
  let lines :=
    match last_checks snapshot with
    | Some (c :: cs) =>
        let joined := join nl (map (fun c => "- " ++ c) (firstn 10 (c :: cs))) in
        push lines (nl ++ "LAST_CHECKS:" ++ nl ++ joined)
    | Some [] | None => lines
    end in
  let lines := push lines (nl ++ "---" ++ nl) in
  let lines := push lines (_phase_instruction snapshot) in
  join nl lines.
End WithRepr.

End prompts.

(* ================================================================== *)
(** ** agent.py *)
(* ================================================================== *)

Module agent.
Import parsing prompts.

Record AgentConfig : Type := mkAgentConfig {
  max_iterations : Z;
  max_phase_retries : Z;
  strict : bool;
  out_dir : string
}.

(** [AgentConfig()] *)
Definition default_config : AgentConfig := mkAgentConfig 8 2 true "generated".

Record AgentResult : Type := mkAgentResult {
  ok : bool;
  summary : string;
  file_paths : option (list (string * string));
  iterations : Z
}.

(** The dict a tool returns, by the keys the loop reads: a key that is
    absent is [None] here; ["ok"] holds its truth value.  The values are
    of the types the tools of [Actions] return and the loop expects: a
    dict that holds another kind of value under one of these keys (a
    null under ["checks"], say) is not one of these records, and what the
    loop does with it is not described here. *)
Record ToolDict : Type := mkToolDict {
  d_code : option string;
  d_tests : option string;
  d_ok : option bool;
  d_checks : option (list string);
  d_file_paths : option (list (string * string));
  d_summary : option PyVal
}.

Definition empty_dict : ToolDict := mkToolDict None None None None None None.

(** [result[key]] *)
Definition getitem {A : Type} (key : string) (field : option A) : Result A :=
  match field with
  | Some v => Ok v
  | None => Raise (mkExn "KeyError" ("'" ++ key ++ "'"))
  end.

(** [result.get(key, default)] *)
Definition get_default {A : Type} (field : option A) (default : A) : A :=
  match field with Some v => v | None => default end.

(** The local variables of [run]. *)
Record Locals : Type := mkLocals {
  st_phase : Phase;
  st_iteration : Z;
  st_phase_retries : Z;
  st_code : string;
  st_tests : string;
  st_last_checks : list string
}.

(** What one pass of the loop obtained from the collaborators. *)
Inductive Outcome : Type :=
| ParseFailure (err : string)
| ToolRaised (tool_name : string) (e : Exn)
| ToolReturned (tool_name : string) (result : ToolDict).

(** How one pass of the loop ends: [continue] or fall through to the next
    pass, or [return]. *)
Inductive Ctl : Type :=
| Continue (st : Locals)
| Return (r : AgentResult).

(** How a call of [run] ends. *)
Inductive RunEnd : Type :=
| Returned (r : AgentResult)
| Raised (e : Exn)
| OutOfFuel.

Section WithWorld.
(** The state of everything outside the agent. *)
Context {W : Type}.

(** The [LLM] protocol. *)
Record LLM : Type := mkLLM {
  generate : string -> M W string
}.

(** The methods of the [actions] object that [_dispatch] calls. *)
Record Tools : Type := mkTools {
  write_code : PyVal -> string -> list string -> list (string * PyVal) -> M W ToolDict;
  write_docs : PyVal -> string -> list (string * PyVal) -> M W ToolDict;
  write_tests : PyVal -> string -> list (string * PyVal) -> M W ToolDict;
  run_checks : PyVal -> string -> string -> bool -> list (string * PyVal) -> M W ToolDict;
  save_file : PyVal -> string -> string -> string -> list (string * PyVal) -> M W ToolDict
}.
End WithWorld.
Arguments LLM : clear implicits.
Arguments Tools : clear implicits.

Section Agent.
Context {W : Type}.
Variable json_loads : string -> JsonOutcome.
Variable py_repr : PyVal -> string.
Variable llm : LLM W.
Variable actions : Tools W.
Variable config : AgentConfig.

Local Open Scope py_scope.

(** [str(v)] *)
Definition py_str (v : PyVal) : string :=
  match v with
  | PyStr s => s
  | _ => py_repr v
  end.

Definition _dispatch (tool_name : string) (args : list (string * PyVal))
    (spec : PyVal) (code tests : string) (last_checks : list string)
  : M W ToolDict :=
  if tool_name =? "write_code" then
    write_code actions spec code last_checks args
  else if tool_name =? "write_docs" then
    write_docs actions spec code args
  else if tool_name =? "write_tests" then
    write_tests actions spec code args
  else if tool_name =? "run_checks" then
    run_checks actions spec code tests (strict config) args
  else if tool_name =? "save_file" then
    save_file actions spec code tests (out_dir config) args
  else if tool_name =? "terminate" then
    ret (mkToolDict None None (Some true) None None
           (Some (get args "summary" (PyStr "Terminated."))))
  else
    raise (mkExn "ValueError" ("Unknown tool_name: " ++ tool_name)).

(** The snapshot built at the head of a pass. *)
Definition snapshot_of (spec : PyVal) (st : Locals) : MemorySnapshot :=
  mkMemorySnapshot
    (st_phase st) spec (st_code st) (st_tests st)
    (match st_last_checks st with [] => None | l => Some l end)
    (st_iteration st) (st_phase_retries st).

(** A pass up to the end of the [try]: prompt, generation, parsing and
    dispatch.  A fault of [generate] is not caught. *)
Definition attempt_action (spec : PyVal) (st : Locals) : M W Outcome :=
  let snapshot := snapshot_of spec st in
  let prompt := build_prompt py_repr snapshot in
  model_text <- generate llm prompt ;;
  parsed <- lift (safe_parse_action json_loads model_text) ;;
  match parsed with
  | (None, err) =>
      ret (ParseFailure (match err with Some m => m | None => "None" end))
  | (Some action, _) =>
      let tool_name := tool_name action in
      try_except
        (result <- _dispatch tool_name (args action) spec
                     (st_code st) (st_tests st) (st_last_checks st) ;;
         ret (ToolReturned tool_name result))
        (fun e => ret (ToolRaised tool_name e))
  end.

Definition retry_or_fail (st : Locals) (last_checks : list string)
    (failure : string) : Ctl :=
  let phase_retries := (st_phase_retries st + 1)%Z in
  if (phase_retries >? max_phase_retries config)%Z then
    Return (mkAgentResult false failure None (st_iteration st + 1))
  else
    Continue (mkLocals (st_phase st) (st_iteration st + 1) phase_retries
                (st_code st) (st_tests st) last_checks).

(** The rest of the pass: the branches of [run] on what was obtained. *)
Definition apply_outcome (st : Locals) (o : Outcome) : Result Ctl :=
  match o with
  | ParseFailure err =>
      let last_checks := ["ActionParseError: " ++ err] in
      Ok (retry_or_fail st last_checks
            ("Failed to parse action after retries. Last error: " ++ err))
  | ToolRaised tool_name e =>
      let last_checks :=
        ["ToolExecutionError in " ++ tool_name ++ ": "
           ++ exn_type e ++ ": " ++ exn_msg e] in
      Ok (retry_or_fail st last_checks
            ("Tool execution failed after retries." ++ nl ++ join nl last_checks))
  | ToolReturned tool_name result =>
      if tool_name =? "write_code" then
        match getitem "code" (d_code result) with
        | Raise e => Raise e
        | Ok code =>
            Ok (Continue (mkLocals DOCS (st_iteration st + 1) 0
                            code (st_tests st) []))
        end
      else if tool_name =? "write_docs" then
        match getitem "code" (d_code result) with
        | Raise e => Raise e
        | Ok code =>
            Ok (Continue (mkLocals TESTS (st_iteration st + 1) 0
                            code (st_tests st) []))
        end
      else if tool_name =? "write_tests" then
        match getitem "tests" (d_tests result) with
        | Raise e => Raise e
        | Ok tests =>
            Ok (Continue (mkLocals EVALUATE (st_iteration st + 1) 0
                            (st_code st) tests []))
        end
      else if tool_name =? "run_checks" then
        match getitem "ok" (d_ok result) with
        | Raise e => Raise e
        | Ok ok =>
            let last_checks := get_default (d_checks result) [] in
            if ok then
              Ok (Continue (mkLocals EXPORT (st_iteration st + 1) 0
                              (st_code st) (st_tests st) last_checks))
            else
              Ok (Continue (mkLocals FIX (st_iteration st + 1) 0
                              (st_code st) (st_tests st) last_checks))
        end
      else if tool_name =? "save_file" then
        match getitem "file_paths" (d_file_paths result) with
        | Raise e => Raise e
        | Ok paths =>
            Ok (Return (mkAgentResult true "Generated code and tests successfully."
                          (Some paths) (st_iteration st + 1)))
        end
      else if tool_name =? "terminate" then
        Ok (Return (mkAgentResult
                      (get_default (d_ok result) false)
                      (py_str (get_default (d_summary result) (PyStr EmptyString)))
                      None (st_iteration st + 1)))
      else
        let last_checks := ["Unknown tool_name: " ++ tool_name] in
        Ok (retry_or_fail st last_checks
              ("Unknown tool repeated. " ++ join nl last_checks))
  end.

(** One pass of the loop body. *)
Definition loop_body (spec : PyVal) (st : Locals) : M W (Outcome * Ctl) :=
  o <- attempt_action spec st ;;
  c <- lift (apply_outcome st o) ;;
  ret (o, c).

(** The record of a call of [run]: what each completed pass obtained,
    the number of passes entered, how the call ended and the world it
    left.  The first two are observations only. *)
Record Run : Type := mkRun {
  trace : list Outcome;
  passes : nat;
  finish : RunEnd;
  world : W
}.

Definition pass_done (o : Outcome) (r : Run) : Run :=
  mkRun (o :: trace r) (S (passes r)) (finish r) (world r).

Definition exceeded (st : Locals) : AgentResult :=
  mkAgentResult false
    ("Exceeded max_iterations=" ++ str_of_int (max_iterations config) ++ ".")
    None (st_iteration st).

(** [while iteration < self.config.max_iterations: ...] and the
    [return] after it. *)
Fixpoint run_loop (fuel : nat) (spec : PyVal) (st : Locals) (w : W) : Run :=
  if (st_iteration st <? max_iterations config)%Z then
    match fuel with
    | O => mkRun [] 0 OutOfFuel w
    | S fuel' =>
        match loop_body spec st w with
        | (Raise e, w1) => mkRun [] 1 (Raised e) w1
        | (Ok (o, Return r), w1) => mkRun [o] 1 (Returned r) w1
        | (Ok (o, Continue st'), w1) => pass_done o (run_loop fuel' spec st' w1)
        end
    end
  else mkRun [] 0 (Returned (exceeded st)) w.

Definition initial : Locals := mkLocals IMPLEMENT 0 0 EmptyString EmptyString [].

(** [Agent.run]; the loop is entered at most [max_iterations] times. *)
Definition run (spec : PyVal) (w : W) : Run :=
  run_loop (Z.to_nat (max_iterations config)) spec initial w.
End Agent.

End agent.

(* ================================================================== *)
(** ** actions.py *)
(* ================================================================== *)

Module actions.

Definition in_range (lo hi : N) (c : ascii) : bool :=
  let n := N_of_ascii c in ((lo <=? n) && (n <=? hi))%N.

Definition is_char (x : ascii) (c : ascii) : bool := Ascii.eqb x c.

(** [type(v).__name__] *)
Definition type_name (v : PyVal) : string :=
  match v with
  | PyNone => "NoneType"
  | PyBool _ => "bool"
  | PyInt _ => "int"
  | PyStr _ => "str"
  | PyList _ => "list"
  | PyDict _ => "dict"
  end.

(** [v.get(key, default)], which only a dict has. *)
Definition dict_get (v : PyVal) (key : string) (default : PyVal) : Result PyVal :=
  match v with
  | PyDict d => Ok (get d key default)
  | _ => Raise (mkExn "AttributeError"
                  ("'" ++ type_name v ++ "' object has no attribute 'get'"))
  end.

(** [v or default] *)
Definition or_else (v default : PyVal) : PyVal := if truthy v then v else default.

(** [s.lower()] below 256. *)
Definition py_lower_char (c : ascii) : ascii :=
  let n := N_of_ascii c in
  if in_range 65 90 c || (in_range 192 222 c && negb (n =? 215)%N)
  then ascii_of_N (n + 32) else c.

Fixpoint py_lower (s : string) : string :=
  match s with
  | String c s' => String (py_lower_char c) (py_lower s')
  | EmptyString => EmptyString
  end.

(** [re.sub(cls+, "_", s)] where [cls] is the complement of [keep]. *)
Fixpoint sub_runs (keep : ascii -> bool) (in_run : bool) (s : string) : string :=
  match s with
  | String c s' =>
      if keep c then String c (sub_runs keep false s')
      else if in_run then sub_runs keep true s'
      else String "_"%char (sub_runs keep true s')
  | EmptyString => EmptyString
  end.

Fixpoint lstrip_char (x : ascii) (s : string) : string :=
  match s with
  | String c s' => if Ascii.eqb c x then lstrip_char x s' else s
  | EmptyString => EmptyString
  end.

Fixpoint rstrip_char (x : ascii) (s : string) : string :=
  match s with
  | String c s' =>
      match rstrip_char x s' with
      | EmptyString => if Ascii.eqb c x then EmptyString else String c EmptyString
      | r => String c r
      end
  | EmptyString => EmptyString
  end.

Definition is_name_char (c : ascii) : bool :=
  in_range 97 122 c || in_range 48 57 c || is_char "_" c.

Definition _sanitize_module_name (name : string) : string :=
  let name := py_lower (strip name) in
  let name := sub_runs is_name_char false name in
  let name := rstrip_char "_" (lstrip_char "_" (sub_runs (fun c => negb (is_char "_" c)) false name)) in
  match name with
  | EmptyString => "generated_module"
  | String c _ => if in_range 48 57 c then "m_" ++ name else name
  end.

(** *** [_STD_IMPORT_RE.findall]

    [^\s*(?:from|import)\s+([a-zA-Z0-9_\.]+)] with MULTILINE.  None of
    its pieces can give back characters to a later one. *)

Definition is_module_char (c : ascii) : bool :=
  in_range 97 122 c || in_range 65 90 c || in_range 48 57 c
  || is_char "_" c || is_char "." c.

(** A match at the head of [s], a line start: the group and the length of
    the match. *)
Definition import_match (s : string) : option (string * nat) :=
  let s1 := lstrip s in
  let after :=
    if prefix "from" s1 then Some (drop 4 s1)
    else if prefix "import" s1 then Some (drop 6 s1)
    else None in
  match after with
  | None => None
  | Some s2 =>
      let (gap, s3) := span isspace s2 in
      let (group, s4) := span is_module_char s3 in
      if truthy_str gap && truthy_str group
      then Some (group, (String.length s - String.length s4)%nat)
      else None
  end.

(** The scan of [findall]: [skip] characters still belong to the last
    match; [bol] tells whether the position follows a line feed or is the
    start of the text. *)
Fixpoint import_scan (skip : nat) (bol : bool) (s : string) : list string :=
  match s with
  | EmptyString => []
  | String c s' =>
      let bol' := is_char "010" c in
      match skip with
      | S k => import_scan k bol' s'
      | O =>
          match (if bol then import_match s else None) with
          | Some (group, len) => group :: import_scan (len - 1) bol' s'
          | None => import_scan 0 bol' s'
          end
      end
  end.

Definition _STD_IMPORT_RE_findall (code : string) : list string :=
  import_scan 0 true code.

(** [len(re.findall(r"def\s+test_", tests))] *)
Definition test_def_match (s : string) : option nat :=
  if prefix "def" s then
    let (gap, s1) := span isspace (drop 3 s) in
    if truthy_str gap && prefix "test_" s1
    then Some (3 + String.length gap + 5)%nat
    else None
  else None.

Fixpoint count_test_defs (skip : nat) (s : string) : Z :=
  match s with
  | EmptyString => 0
  | String c s' =>
      match skip with
      | S k => count_test_defs k s'
      | O =>
          match test_def_match s with
          | Some len => 1 + count_test_defs (len - 1) s'
          | None => count_test_defs 0 s'
          end
      end
  end.

(** [mod.split(".", 1)[0]] *)
Definition top_module (m : string) : string :=
  fst (span (fun c => negb (is_char "." c)) m).

Definition stdlib_allow : list string :=
  [ "typing"; "types"; "dataclasses"; "enum";
    "re"; "math"; "json"; "statistics"; "random";
    "collections"; "itertools"; "functools"; "operator";
    "datetime"; "time";
    "pathlib"; "os"; "sys"; "subprocess"; "tempfile";
    "logging"; "traceback";
    "unittest";
    "hashlib"; "hmac"; "secrets";
    "urllib"; "http";
    "csv"; "sqlite3";
    "decimal"; "fractions" ].

Definition mem (x : string) (xs : list string) : bool := existsb (String.eqb x) xs.

Definition _detect_nonstdlib_imports (code : string) (local_modules : list string)
  : list string :=
  fold_left
    (fun bad m =>
       let top := top_module m in
       if mem top local_modules then bad
       else if mem top stdlib_allow then bad
       else push bad m)
    (_STD_IMPORT_RE_findall code) [].

(** [sorted(set(xs))] *)
Fixpoint insert_sorted (x : string) (xs : list string) : list string :=
  match xs with
  | [] => [x]
  | y :: ys =>
      if String.eqb x y then xs
      else if String.ltb x y then x :: xs
      else y :: insert_sorted x ys
  end.

Definition sorted_set (xs : list string) : list string :=
  fold_right insert_sorted [] xs.

(** [int(s)] for a [str]: blanks around, a sign, digits with single
    underscores between them. *)
Fixpoint int_digits (acc : Z) (prev_digit : bool) (s : string) : option Z :=
  match s with
  | EmptyString => if prev_digit then Some acc else None
  | String c s' =>
      if in_range 48 57 c
      then int_digits (10 * acc + Z.of_N (N_of_ascii c) - 48) true s'
      else if is_char "_" c && prev_digit
      then match s' with
           | String d _ => if in_range 48 57 d then int_digits acc false s' else None
           | EmptyString => None
           end
      else None
  end.

Definition int_of_str (s : string) : option Z :=
  match strip s with
  | String c s' =>
      if is_char "-" c then option_map Z.opp (int_digits 0 false s')
      else if is_char "+" c then int_digits 0 false s'
      else int_digits 0 false (String c s')
  | EmptyString => None
  end.

(** What [subprocess.run(..., capture_output=True, text=True)] returns. *)
Record CompletedProcess : Type := mkCompletedProcess {
  returncode : Z;
  stdout : string;
  stderr : string
}.

(** [a or b] on [str] *)
Definition or_str (a b : string) : string := if truthy_str a then a else b.

(** The operating system, as [run_checks] uses it. *)
Record OS (W : Type) : Type := mkOS {
  tempdir_enter : M W string;
  tempdir_exit : string -> M W unit;
  path_join : string -> string -> string;
  write_text : string -> string -> M W unit;
  subprocess_run : list string -> option string -> M W CompletedProcess
}.
Arguments tempdir_enter {W} _.
Arguments tempdir_exit {W} _.
Arguments path_join {W} _.
Arguments write_text {W} _.
Arguments subprocess_run {W} _.

(** The dict [run_checks] returns. *)
Record ChecksDict : Type := mkChecksDict {
  ok : bool;
  checks : list string
}.

Section Actions.
Context {W : Type}.
Variable py_repr : PyVal -> string.
Variable os : OS W.

Local Open Scope py_scope.

Definition py_str (v : PyVal) : string :=
  match v with
  | PyStr s => s
  | _ => py_repr v
  end.

(** [int(v)] *)
Definition py_int (v : PyVal) : Result Z :=
  match v with
  | PyInt n => Ok n
  | PyBool b => Ok (if b then 1 else 0)%Z
  | PyStr s =>
      match int_of_str s with
      | Some n => Ok n
      | None => Raise (mkExn "ValueError"
                         ("invalid literal for int() with base 10: " ++ py_repr v))
      end
  | _ => Raise (mkExn "TypeError"
                  ("int() argument must be a string, a bytes-like object or a real number, not '"
                     ++ type_name v ++ "'"))
  end.

Definition _spec_get_function_name (spec : PyVal) : Result string :=
  let fallback :=
    match dict_get spec "id" (PyStr "generated_function") with
    | Raise e => Raise e
    | Ok id => Ok (py_str id)
    end in
  match dict_get spec "function" (PyDict []) with
  | Raise e => Raise e
  | Ok f =>
      match dict_get f "name" PyNone with
      | Raise e => Raise e
      | Ok fn =>
          match fn with
          | PyStr s => if truthy_str (strip s) then Ok (strip s) else fallback
          | _ => fallback
          end
      end
  end.

(** The state of [run_checks]: the world and the list [checks]. *)
Definition St : Type := (W * list string)%type.

(** [checks.append(c)] *)
Definition append_check (c : string) : M St unit :=
  fun s => (Ok tt, (fst s, push (snd s) c)).

(** A call into the operating system. *)
Definition sys {A : Type} (m : M W A) : M St A :=
  fun s => let (r, w) := m (fst s) in (r, (w, snd s)).

Definition when (b : bool) (m : M St unit) : M St unit :=
  if b then m else ret tt.

(** [with tempfile.TemporaryDirectory() as td: body]: the directory is
    removed on the way out, also when [body] raised. *)
Definition with_TemporaryDirectory {A : Type} (body : string -> M St A) : M St A :=
  td <- sys (tempdir_enter os) ;;
  fun s =>
    match body td s with
    | (Ok a, s1) =>
        match sys (tempdir_exit os td) s1 with
        | (Ok _, s2) => (Ok a, s2)
        | (Raise e, s2) => (Raise e, s2)
        end
    | (Raise e, s1) =>
        match sys (tempdir_exit os td) s1 with
        | (Ok _, s2) => (Raise e, s2)
        | (Raise e', s2) => (Raise e', s2)
        end
    end.

Definition run_checks_body (spec : PyVal) (code tests : string) : M St unit :=
  fn_name <- lift (_spec_get_function_name spec) ;;
  _ <- when (negb (contains ("def " ++ fn_name ++ "(") code))
         (append_check ("Function definition not found: def " ++ fn_name ++ "(...).")) ;;
  stdlib_only <- lift (dict_get spec "stdlib_only" (PyBool false)) ;;
  _ <- when (truthy stdlib_only)
         (let local_mods := [_sanitize_module_name fn_name] in
          let bad := _detect_nonstdlib_imports (code ++ nl ++ tests) local_mods in
          when (match bad with [] => false | _ => true end)
            (append_check ("Non-stdlib imports detected: "
                             ++ py_repr (PyList (map PyStr (sorted_set bad)))))) ;;
  q <- lift (dict_get spec "quality" (PyDict [])) ;;
  let quality := or_else q (PyDict []) in
  m <- lift (dict_get quality "min_tests" (PyInt 3)) ;;
  min_tests <- lift (py_int (or_else m (PyInt 3))) ;;
  let test_methods := count_test_defs 0 tests in
  _ <- when (test_methods <? min_tests)%Z
         (append_check ("Not enough tests: found " ++ str_of_int test_methods
                          ++ ", expected >= " ++ str_of_int min_tests ++ ".")) ;;
  let module_name := _sanitize_module_name fn_name in
  try_except
    (with_TemporaryDirectory (fun td =>
       let td_path := td in
       let mod_path := path_join os td_path (module_name ++ ".py") in
       let test_path := path_join os td_path "test_generated.py" in
       _ <- sys (write_text os mod_path code) ;;
       _ <- sys (write_text os test_path tests) ;;
       proc_compile <- sys (subprocess_run os ["python"; "-m"; "py_compile"; mod_path] None) ;;
       _ <- when (negb (returncode proc_compile =? 0)%Z)
              (let err := strip (or_str (stderr proc_compile)
                                   (or_str (stdout proc_compile) EmptyString)) in
               append_check ("py_compile failed: " ++ or_str err "unknown compile error")) ;;
       proc_test <- sys (subprocess_run os ["python"; "-m"; "unittest"; "-q"] (Some td_path)) ;;
       when (negb (returncode proc_test =? 0)%Z)
         (let msg := strip (or_str (stdout proc_test) EmptyString ++ nl
                              ++ or_str (stderr proc_test) EmptyString) in
          append_check ("unittest failed: " ++ or_str msg "unknown unittest error"))))
    (fun e => append_check ("Exception during checks: " ++ exn_type e ++ ": " ++ exn_msg e)).

(** [Actions.run_checks]: [checks] starts empty, and [ok] is
    [len(checks) == 0]. *)
Definition run_checks (spec : PyVal) (code tests : string) (strict : bool)
    (user_args : list (string * PyVal)) : M W ChecksDict :=
  fun w =>
    match run_checks_body spec code tests (w, []) with
    | (Ok _, (w', checks)) =>
        let ok := (List.length checks =? 0)%nat in
        (Ok (mkChecksDict ok checks), w')
    | (Raise e, (w', _)) => (Raise e, w')
    end.
End Actions.

(** *** The tools backed by the generating model, and [save_file] *)

(** [(?:python)?]: the word first, then without it. *)
Definition opt_ci {A : Type} (p : string) (k : string -> option A) (s : string)
  : option A :=
  match parsing.lit_ci p k s with
  | Some r => Some r
  | None => k s
  end.

(** A match of [```(?:python)?\s*([\s\S]*?)\s*```], IGNORECASE, at the
    head of [s]: group 1. *)
Definition CODE_FENCE_match (s : string) : option string :=
  match parsing.lit_ci "```"
          (opt_ci "python"
             (parsing.ws_star (parsing.any_lazy parsing.fence_close))) s with
  | Some (body, _) => Some body
  | None => None
  end.

(** [re.search] with that pattern: the leftmost match. *)
Fixpoint CODE_FENCE_search (text : string) : option string :=
  match CODE_FENCE_match text with
  | Some body => Some body
  | None =>
      match text with
      | String _ text' => CODE_FENCE_search text'
      | EmptyString => None
      end
  end.

Definition _strip_code_fences (text : string) : string :=
  let t := strip text in
  match CODE_FENCE_search t with
  | Some body => strip body
  | None => t
  end.

Section Tools.
Context {W : Type}.
Variable py_repr : PyVal -> string.
Variable os : OS W.
(** [Path.mkdir(parents=True, exist_ok=True)] *)
Variable mkdir : string -> M W unit.
Variable llm : agent.LLM W.

Local Open Scope py_scope.

Definition _render_spec_compact (spec : PyVal) (limit : nat) : string :=
  let s := py_repr spec in
  if (String.length s <=? limit)%nat then s else take (limit - 3) s ++ "...".

(** [{"code": code}] and the like. *)
Definition code_result (code : string) : agent.ToolDict :=
  agent.mkToolDict (Some code) None None None None None.

Definition tests_result (tests : string) : agent.ToolDict :=
  agent.mkToolDict None (Some tests) None None None None.

Definition paths_result (paths : list (string * string)) : agent.ToolDict :=
  agent.mkToolDict None None None None (Some paths) None.

Definition write_code (spec : PyVal) (previous_code : string)
    (failed_checks : list string) (user_args : list (string * PyVal))
  : M W agent.ToolDict :=
  let prompt :=
    prompts.text_of_lines
      [ "You are generating Python module code.";
        EmptyString;
        "SPEC:";
        _render_spec_compact spec 3500;
        EmptyString;
        "CURRENT_CODE (may be empty):";
        previous_code;
        EmptyString;
        "FAILED_CHECKS (if any):";
        py_repr (PyList (map PyStr failed_checks));
        EmptyString;
        "Requirements:";
        "- Output ONLY the Python module content. No markdown. No explanations.";
        "- Implement exactly one primary function as described in SPEC.function.";
        "- Keep code deterministic and testable.";
        "- If FAILED_CHECKS mention errors, fix them.";
        EmptyString;
        "Now output the full updated module content:" ] in
  text <- agent.generate llm prompt ;;
  let code := _strip_code_fences text in
  ret (code_result code).

Definition write_docs (spec : PyVal) (code : string)
    (user_args : list (string * PyVal)) : M W agent.ToolDict :=
  q <- lift (dict_get spec "quality" (PyDict [])) ;;
  style <- lift (dict_get (or_else q (PyDict [])) "docstring_style" (PyStr "google")) ;;
  let prompt :=
    prompts.text_of_lines
      [ "You are adding a docstring to an existing Python function.";
        EmptyString;
        "DOCSTRING_STYLE: " ++ py_str py_repr style;
        EmptyString;
        "SPEC:";
        _render_spec_compact spec 3500;
        EmptyString;
        "CURRENT_CODE:";
        code;
        EmptyString;
        "Requirements:";
        "- Output ONLY the full updated Python module content. No markdown. No explanations.";
        "- Add or improve a docstring for the main function." ] in
  text <- agent.generate llm prompt ;;
  let updated := _strip_code_fences text in
  ret (code_result updated).

Definition write_tests (spec : PyVal) (code : string)
    (user_args : list (string * PyVal)) : M W agent.ToolDict :=
  fn_name <- lift (_spec_get_function_name py_repr spec) ;;
  let module_name := _sanitize_module_name fn_name in
  q <- lift (dict_get spec "quality" (PyDict [])) ;;
  m <- lift (dict_get (or_else q (PyDict [])) "min_tests" (PyInt 3)) ;;
  min_tests <- lift (py_int py_repr m) ;;
  let prompt :=
    prompts.text_of_lines
      [ "You are generating unittest tests for a Python function.";
        EmptyString;
        "MODULE_NAME: " ++ module_name;
        "FUNCTION_NAME: " ++ fn_name;
        "MIN_TESTS: " ++ str_of_int min_tests;
        EmptyString;
        "SPEC:";
        _render_spec_compact spec 3500;
        EmptyString;
        "CURRENT_CODE:";
        code;
        EmptyString;
        "Requirements:";
        "- Output ONLY the test file content. No markdown. No explanations.";
        "- Use Python unittest.";
        "- Import as: from " ++ module_name ++ " import " ++ fn_name ] in
  text <- agent.generate llm prompt ;;
  let tests := _strip_code_fences text in
  ret (tests_result tests).

Definition save_file (spec : PyVal) (code tests out_dir : string)
    (user_args : list (string * PyVal)) : M W agent.ToolDict :=
  fn_name <- lift (_spec_get_function_name py_repr spec) ;;
  let module_name := _sanitize_module_name fn_name in
  let out_path := out_dir in
  _ <- mkdir out_path ;;
  let module_file := path_join os out_path (module_name ++ ".py") in
  let tests_file := path_join os out_path ("test_" ++ module_name ++ ".py") in
  _ <- write_text os module_file code ;;
  _ <- write_text os tests_file tests ;;
  ret (paths_result [("module", module_file); ("tests", tests_file)]).

(** The [Actions] object as the agent's collaborator, sharing the model
    with it. *)
Definition as_tools : agent.Tools W :=
  agent.mkTools
    write_code
    write_docs
    write_tests
    (fun spec code tests strict user_args =>
       r <- run_checks py_repr os spec code tests strict user_args ;;
       ret (agent.mkToolDict None None (Some (ok r)) (Some (checks r)) None None))
    save_file.
End Tools.

End actions.

(* ================================================================== *)
(** ** cli.py *)
(* ================================================================== *)

Module cli.

(** What [parser.parse_args(argv)] returns.  The parser of
    [build_parser] requires a command and knows [run] only: for every
    other command line it leaves with [SystemExit(2)] and returns
    nothing, so that [cmd] is ["run"] in every namespace [main] goes on
    with. *)
Record Namespace : Type := mkNamespace {
  cmd : string;
  spec : option string;
  prompt : option string;
  name : string;
  no_stdlib_only : bool;
  out : string;
  max_iters : Z;
  max_phase_retries : Z;
  strict : bool;
  no_strict : bool
}.

(** [bool(x)] for an optional [str]. *)
Definition given (x : option string) : bool :=
  match x with
  | Some s => truthy_str s
  | None => false
  end.

(** An optional [str] as a value. *)
Definition str_or_none (x : option string) : PyVal :=
  match x with
  | Some s => PyStr s
  | None => PyNone
  end.

Definition _spec_from_prompt (prompt : option string) (name : string)
    (stdlib_only : bool) : PyVal :=
  PyDict
    [ ("id", PyStr (name ++ "_v1"));
      ("language", PyStr "python");
      ("stdlib_only", PyBool stdlib_only);
      ("function",
        PyDict [ ("name", PyStr name);
                 ("args", PyList []);
                 ("returns", PyStr "Any") ]);
      ("behavior",
        PyDict [ ("description", str_or_none prompt);
                 ("constraints", PyList []) ]);
      ("examples", PyList []);
      ("edge_cases", PyList []);
      ("quality",
        PyDict [ ("docstring_style", PyStr "google");
                 ("min_tests", PyInt 4);
                 ("must_include_edge_case_test", PyBool true) ]) ].

(** The files and the two output streams. *)
Record Host (W : Type) : Type := mkHost {
  path_exists : string -> M W bool;
  read_text : string -> M W string;
  print_out : string -> M W unit;
  print_err : string -> M W unit
}.
Arguments path_exists {W} _.
Arguments read_text {W} _.
Arguments print_out {W} _.
Arguments print_err {W} _.

Section Main.
Context {W : Type}.
Variable json_loads : string -> parsing.JsonOutcome.
Variable py_repr : PyVal -> string.
Variable os : actions.OS W.
Variable mkdir : string -> M W unit.
Variable host : Host W.
(** [OpenAILLM()] *)
Variable llm : agent.LLM W.

Local Open Scope py_scope.

Definition _load_spec (path : string) : M W PyVal :=
  found <- path_exists host path ;;
  if negb found then
    raise (mkExn "FileNotFoundError" ("Spec file not found: " ++ path))
  else
    text <- read_text host path ;;
    match json_loads text with
    | parsing.Decoded v => ret v
    | parsing.JSONDecodeError msg => raise (mkExn "JSONDecodeError" msg)
    | parsing.ValueError msg => raise (mkExn "ValueError" msg)
    | parsing.RecursionError msg => raise (mkExn "RecursionError" msg)
    end.

(** [agent.run(spec)] as a computation. *)
Definition agent_run (config : agent.AgentConfig) (spec : PyVal)
  : M W agent.AgentResult :=
  fun w =>
    let r := agent.run json_loads py_repr llm
               (actions.as_tools py_repr os mkdir llm) config spec w in
    match agent.finish r with
    | agent.Returned result => (Ok result, agent.world r)
    | agent.Raised e => (Raise e, agent.world r)
    | agent.OutOfFuel => (Raise (mkExn "OutOfFuel" EmptyString), agent.world r)
    end.

(** [for k, v in items: print(f"  {k}: {v}")] *)
Fixpoint print_paths (items : list (string * string)) : M W unit :=
  match items with
  | [] => ret tt
  | (k, v) :: rest =>
      _ <- print_out host ("  " ++ k ++ ": " ++ v) ;;
      print_paths rest
  end.

(** [main], from the parsed arguments on.  The last branch, [return 0]
    for another command than [run], is written as the source has it; the
    parser lets no such command through. *)
Definition main (args : Namespace) : M W Z :=
  if cmd args =? "run" then
    if Bool.eqb (given (spec args)) (given (prompt args)) then
      _ <- print_err host "Error: provide exactly one of --spec or --prompt." ;;
      ret 2%Z
    else
      spec <- (if given (spec args)
               then _load_spec (match spec args with Some p => p | None => EmptyString end)
               else
                 let stdlib_only := negb (no_stdlib_only args) in
                 ret (_spec_from_prompt (prompt args) (name args) stdlib_only)) ;;
      (* strict = True, then set by --no-strict or --strict *)
      let strict :=
        if no_strict args then false
        else if strict args then true
        else true in
      let config :=
        agent.mkAgentConfig (max_iters args) (max_phase_retries args) strict (out args) in
      result <- agent_run config spec ;;
      if agent.ok result then
        _ <- print_out host ("OK: " ++ agent.summary result) ;;
        _ <- match agent.file_paths result with
             | Some (item :: items) =>
                 _ <- print_out host "Files:" ;;
                 print_paths (item :: items)
             | Some [] | None => ret tt
             end ;;
        ret 0%Z
      else
        _ <- print_err host ("FAILED: " ++ agent.summary result) ;;
        ret 1%Z
  else ret 0%Z.
End Main.

End cli.

(* ================================================================== *)
(** ** Scenarios

    Collaborators and texts the examples below run with.  The world is
    the number of calls made to the generating model. *)
(* ================================================================== *)

Module Scenarios.
Import parsing prompts agent.

(** A response holding one action block that names [tool], with [args]
    given as JSON text. *)
Definition action_json (tool args : string) : string :=
  "{" ++ dq ++ "tool_name" ++ dq ++ ":" ++ dq ++ tool ++ dq ++ ","
      ++ dq ++ "args" ++ dq ++ ":" ++ args ++ "}".

Definition action_text (tool : string) : string :=
  "```action" ++ nl ++ action_json tool "{}" ++ nl ++ "```".

Definition answer (text : string) : M nat string := fun calls => (Ok text, S calls).

(** The model of the end-to-end test: the tool of the phase it reads in
    the prompt. *)
Definition FakeLLM : LLM nat :=
  mkLLM (fun prompt =>
    answer (if contains "PHASE: implement" prompt then action_text "write_code"
            else if contains "PHASE: docs" prompt then action_text "write_docs"
            else if contains "PHASE: tests" prompt then action_text "write_tests"
            else if contains "PHASE: evaluate" prompt then action_text "run_checks"
            else if contains "PHASE: export" prompt then action_text "save_file"
            else "```action" ++ nl
                   ++ action_json "terminate"
                        ("{" ++ dq ++ "summary" ++ dq ++ ":" ++ dq ++ "Unknown phase" ++ dq ++ "}")
                   ++ nl ++ "```")).


(** A model that always names a tool that does not exist. *)
Definition DeployLLM : LLM nat := mkLLM (fun _ => answer (action_text "deploy")).

(** A model that always asks to terminate. *)
Definition QuitLLM : LLM nat :=
  mkLLM (fun _ =>
    answer ("```action" ++ nl
              ++ action_json "terminate"
                   ("{" ++ dq ++ "summary" ++ dq ++ ":" ++ dq ++ "giving up" ++ dq ++ "}")
              ++ nl ++ "```")).


Definition code_dict (code : string) : ToolDict :=
  mkToolDict (Some code) None None None None None.

Definition tests_dict (tests : string) : ToolDict :=
  mkToolDict None (Some tests) None None None None.

Definition checks_dict (ok : bool) (checks : list string) : ToolDict :=
  mkToolDict None None (Some ok) (Some checks) None None.

Definition paths_dict (paths : list (string * string)) : ToolDict :=
  mkToolDict None None None None (Some paths) None.

(** Deterministic tools; [verdict] is what [run_checks] reports. *)
Definition StubTools (verdict : ToolDict) : Tools nat :=
  mkTools
    (fun _ _ _ _ => ret (code_dict "def f(): return 1"))
    (fun _ code _ => ret (code_dict code))
    (fun _ _ _ => ret (tests_dict "def test_f(): assert f() == 1"))
    (fun _ _ _ _ _ => ret verdict)
    (fun _ _ _ out _ =>
       ret (paths_dict [("module", out ++ "/f.py"); ("tests", out ++ "/test_f.py")])).

Definition PassingTools : Tools nat := StubTools (checks_dict true []).

(** A fenced action block around [body]. *)
Definition block (body : string) : string :=
  "```action" ++ nl ++ body ++ nl ++ "```".

(** Prose, then a first block that asks for [write_code] with an
    argument. *)
Definition first_part : string :=
  "Plan:" ++ nl
    ++ block (action_json "write_code" ("{" ++ dq ++ "x" ++ dq ++ ":1}")).

(** A later block that asks for [save_file]. *)
Definition later_part : string := nl ++ block (action_json "save_file" "{}").


Definition demo_spec : PyVal :=
  PyDict [("id", PyStr "f_v1"); ("function", PyDict [("name", PyStr "f")])].

(** Tools whose verification fails with two diagnostics. *)
Definition FailingTools : Tools nat := StubTools (checks_dict false ["c1"; "c2"]).

(** The locals on entering phase Evaluate in the fourth pass. *)
Definition evaluate_state : Locals :=
  mkLocals EVALUATE 3 0 "def f(): return 1" "def test_f(): assert f() == 1" [].

(** The locals in phase Fix, with a diagnostic of the last verification. *)
Definition fix_state : Locals :=
  mkLocals FIX 4 0 "def f(): return 1" "def test_f(): assert f() == 1" ["c1"].


(** A tool name that is not recognized, and a model that names it. *)
Definition crafted_name : string := "write_code: RuntimeError: boom".

Definition CraftedLLM : LLM nat := mkLLM (fun _ => answer (action_text crafted_name)).

(** Tools whose [write_code] raises. *)
Definition BoomTools : Tools nat :=
  mkTools
    (fun _ _ _ _ =>
       raise (mkExn "RuntimeError"
                ("boom: ValueError: Unknown tool_name: " ++ crafted_name)))
    (fun _ code _ => ret (code_dict code))
    (fun _ _ _ => ret (tests_dict "def test_f(): assert f() == 1"))
    (fun _ _ _ _ _ => ret (checks_dict true []))
    (fun _ _ _ _ _ => ret (paths_dict [])).

(** Eleven check messages, [m01] the first appended and [m11] the last. *)
Definition eleven_checks : list string :=
  ["m01"; "m02"; "m03"; "m04"; "m05"; "m06"; "m07"; "m08"; "m09"; "m10"; "m11"].

Definition eleven_snapshot : MemorySnapshot :=
  mkMemorySnapshot FIX demo_spec "def f(): return 1" EmptyString
    (Some eleven_checks) 4 0.

(** An operating system in which everything succeeds, the module
    compiles and the tests fail. *)
Definition StubOS : actions.OS nat :=
  actions.mkOS nat
    (ret "/tmp/td")
    (fun _ => ret tt)
    (fun dir name => dir ++ "/" ++ name)
    (fun _ _ => ret tt)
    (fun argv cwd =>
       match cwd with
       | None => ret (actions.mkCompletedProcess 0 EmptyString EmptyString)
       | Some _ => ret (actions.mkCompletedProcess 1 EmptyString "FAILED (failures=1)")
       end).

(** The specification of the checks test that passes. *)
Definition foo_spec : PyVal :=
  PyDict [("id", PyStr "x"); ("stdlib_only", PyBool true);
          ("function", PyDict [("name", PyStr "foo"); ("args", PyList []);
                               ("returns", PyStr "int")]);
          ("quality", PyDict [("min_tests", PyInt 1)])].

(** A model that follows the instruction: it reads the phase line, which
    comes right after the rules, and names the tool of that phase. *)
Definition HeaderLLM : LLM nat :=
  mkLLM (fun prompt =>
    let rest := drop (String.length (AGENT_RULES ++ nl ++ nl ++ "---" ++ nl ++ nl)) prompt in
    answer (if prefix ("PHASE: implement" ++ nl) rest then action_text "write_code"
            else if prefix ("PHASE: docs" ++ nl) rest then action_text "write_docs"
            else if prefix ("PHASE: tests" ++ nl) rest then action_text "write_tests"
            else if prefix ("PHASE: evaluate" ++ nl) rest then action_text "run_checks"
            else if prefix ("PHASE: export" ++ nl) rest then action_text "save_file"
            else action_text "write_code")).

(** A model that asks for [save_file] at once. *)
Definition EagerLLM : LLM nat := mkLLM (fun _ => answer (action_text "save_file")).

(** The decimal literal of [n] digits 1. *)
Fixpoint ones (n : nat) : string :=
  match n with
  | O => EmptyString
  | S k => String "1" (ones k)
  end.

(** An action block whose arguments hold an integer of 4301 digits. *)
Definition long_int_text : string :=
  "```action" ++ nl
    ++ action_json "write_code" ("{" ++ dq ++ "n" ++ dq ++ ":" ++ ones 4301 ++ "}")
    ++ nl ++ "```".

(** A model that answers with that block. *)
Definition LongIntLLM : LLM nat := mkLLM (fun _ => answer long_int_text).

(** Tools whose [write_code] returns a dict without its key. *)
Definition KeylessTools : Tools nat :=
  mkTools
    (fun _ _ _ _ => ret empty_dict)
    (fun _ code _ => ret (code_dict code))
    (fun _ _ _ => ret (tests_dict "def test_f(): assert f() == 1"))
    (fun _ _ _ _ _ => ret (checks_dict true []))
    (fun _ _ _ _ _ => ret (paths_dict [])).

(** A model for the tools: it answers with fenced code. *)
Definition CoderLLM : LLM nat :=
  mkLLM (fun _ => answer ("```python" ++ nl ++ "def foo(): return 1" ++ nl ++ "```")).

(** A specification whose function entry is null. *)
Definition null_function_spec : PyVal :=
  PyDict [("id", PyStr "x"); ("function", PyNone); ("quality", PyNone)].

(** A host without files, whose streams accept everything. *)
Definition StubHost : cli.Host nat :=
  cli.mkHost nat
    (fun _ => ret false)
    (fun _ => ret EmptyString)
    (fun _ => ret tt)
    (fun _ => ret tt).

Definition no_mkdir : string -> M nat unit := fun _ => ret tt.

(** An operating system in which everything succeeds, the tests too. *)
Definition PassingOS : actions.OS nat :=
  actions.mkOS nat
    (ret "/tmp/td")
    (fun _ => ret tt)
    (fun dir name => dir ++ "/" ++ name)
    (fun _ _ => ret tt)
    (fun _ _ => ret (actions.mkCompletedProcess 0 EmptyString EmptyString)).


(** [run --prompt "swap" --name swap_dict] and [run] with neither
    [--spec] nor [--prompt]. *)
Definition prompt_args : cli.Namespace :=
  cli.mkNamespace "run" None (Some "swap") "swap_dict" false "generated" 8 2 false false.

Definition bare_args : cli.Namespace :=
  cli.mkNamespace "run" None None "generated_function" false "generated" 8 2 false false.

End Scenarios.

(* ================================================================== *)
(** ** Notions used in the statements *)
(* ================================================================== *)

Module Notions.
Import parsing prompts agent.

(** Every character of [s] satisfies [p]. *)
Fixpoint every (p : ascii -> bool) (s : string) : bool :=
  match s with
  | String c s' => p c && every p s'
  | EmptyString => true
  end.

Definition is_backtick (c : ascii) : bool := Ascii.eqb "`" c.

Definition not_backtick (c : ascii) : bool := negb (is_backtick c).

(** [s] starts with three backticks. *)
Definition starts3 (s : string) : bool :=
  match s with
  | String a (String b (String c _)) => is_backtick a && is_backtick b && is_backtick c
  | _ => false
  end.

(** Three backticks in a row occur in [s]. *)
Fixpoint has3 (s : string) : bool :=
  starts3 s
  || match s with
     | String _ s' => has3 s'
     | EmptyString => false
     end.

Fixpoint lower_str (s : string) : string :=
  match s with
  | String c s' => String (lower c) (lower_str s')
  | EmptyString => EmptyString
  end.

(** [text] holds a fenced block of the action type: an opening marker,
    in any letter case, and a closing fence after it. *)
Definition has_action_fence (text : string) : Prop :=
  exists pre opener inner post,
    text = pre ++ opener ++ inner ++ "```" ++ post
    /\ lower_str opener = "```action".

(** The body a successful match of the lazy group captured. *)
Definition body_of (r : option (string * unit)) : option string :=
  match r with Some (b, _) => Some b | None => None end.

(** [snapshot] with another list of checks. *)
Definition with_checks (snapshot : MemorySnapshot) (checks : option (list string))
  : MemorySnapshot :=
  mkMemorySnapshot (phase snapshot) (spec snapshot) (code snapshot) (tests snapshot)
    checks (iteration snapshot) (phase_retries snapshot).

(** The entry of the checks section for the message [c]. *)
Definition check_entry (c : string) : string := "- " ++ c.

(** A specification on which [run_checks] reads what it expects: a dict
    whose ["function"] entry, if any, is a dict, and whose ["quality"]
    entry, if any, is false or a dict with ["min_tests"] absent, false
    or an [int]. *)
Definition well_formed_spec (spec : PyVal) : bool :=
  match spec with
  | PyDict d =>
      match lookup "function" d with
      | None | Some (PyDict _) => true
      | Some _ => false
      end
      && match lookup "quality" d with
         | None => true
         | Some q =>
             negb (truthy q)
             || match q with
                | PyDict qd =>
                    match lookup "min_tests" qd with
                    | None => true
                    | Some m =>
                        negb (truthy m)
                        || match m with PyInt _ | PyBool _ => true | _ => false end
                    end
                | _ => false
                end
         end
  | _ => false
  end.


(** The tools [_dispatch] knows. *)
Definition recognized (name : string) : bool :=
  (name =? "write_code") || (name =? "write_docs") || (name =? "write_tests")
  || (name =? "run_checks") || (name =? "save_file") || (name =? "terminate").


(** A pass that obtained a fault: of the protocol, of a tool, or a tool
    name without a branch. *)
Definition fault_pass (o : Outcome) : bool :=
  match o with
  | ParseFailure _ => true
  | ToolRaised _ _ => true
  | ToolReturned name _ => negb (recognized name)
  end.



(** The exception of the decoder that [parse_action_json] does not catch,
    if the outcome is one. *)
Definition decoder_fault (o : JsonOutcome) : option Exn :=
  match o with
  | ValueError msg => Some (mkExn "ValueError" msg)
  | RecursionError msg => Some (mkExn "RecursionError" msg)
  | Decoded _ | JSONDecodeError _ => None
  end.


(** The heads of the passes of a run: [reaches ... spec st w st' w'] when
    the loop entered with the locals [st] in the world [w] comes, after
    some passes that all went on, to the loop test with the locals [st']
    in the world [w']. *)
Inductive reaches {W : Type} (json_loads : string -> JsonOutcome)
    (py_repr : PyVal -> string) (llm : LLM W) (tools : Tools W)
    (config : AgentConfig) (spec : PyVal)
  : Locals -> W -> Locals -> W -> Prop :=
| reaches_here (st : Locals) (w : W) :
    reaches json_loads py_repr llm tools config spec st w st w
| reaches_next (st : Locals) (w : W) (o : Outcome) (st1 : Locals) (w1 : W)
    (st' : Locals) (w' : W) :
    (st_iteration st < max_iterations config)%Z ->
    loop_body json_loads py_repr llm tools config spec st w
    = (Ok (o, Continue st1), w1) ->
    reaches json_loads py_repr llm tools config spec st1 w1 st' w' ->
    reaches json_loads py_repr llm tools config spec st w st' w'.




(** The tool the instruction of a phase asks for. *)
Definition expected_tool (p : Phase) : string :=
  match p with
  | IMPLEMENT | FIX => "write_code"
  | DOCS => "write_docs"
  | TESTS => "write_tests"
  | EVALUATE => "run_checks"
  | EXPORT => "save_file"
  end.


(** The least number of passes from a phase to a successful export. *)
Definition passes_to_export (p : Phase) : Z :=
  match p with
  | IMPLEMENT | FIX => 5
  | DOCS => 4
  | TESTS => 3
  | EVALUATE => 2
  | EXPORT => 1
  end.

(** The generating model follows the instruction: it always answers with
    an action that names the tool of the phase. *)
Definition obedient {W : Type} (json_loads : string -> JsonOutcome)
    (py_repr : PyVal -> string) (llm : LLM W) : Prop :=
  forall spec st w, exists text w' a,
    generate llm (build_prompt py_repr (snapshot_of spec st)) w = (Ok text, w')
    /\ safe_parse_action json_loads text = Ok (Some a, None)
    /\ tool_name a = expected_tool (st_phase st).


(** A computation on the checks of [run_checks] that only appends, and
    at most [k] messages, however it ends. *)
Definition appends_at_most {W A : Type} (k : nat)
    (m : M (W * list string) A) : Prop :=
  forall s r s', m s = (r, s') ->
    exists added, snd s' = (snd s ++ added)%list /\ (List.length added <= k)%nat.

(** A name a Python module can have: not empty, made of [a-z0-9_], not
    starting with a digit. *)
Definition module_name_ok (s : string) : bool :=
  match s with
  | EmptyString => false
  | String c _ => negb (actions.in_range 48 57 c) && every actions.is_name_char s
  end.

(** The messages [safe_parse_action] fails with, apart from the one that
    carries the decoder's message. *)
Definition fixed_parse_failures : list string :=
  [ "Empty model response; expected an ```action``` block.";
    "No ```action``` block found in model response.";
    "Found ```action``` block but it was empty.";
    "Action JSON must be a JSON object (dict).";
    "Action JSON missing valid 'tool_name' (string).";
    "Action JSON 'args' must be an object/dict." ].

(** [snapshot] with other artifacts. *)
Definition with_artifacts (snapshot : MemorySnapshot) (code tests : string)
  : MemorySnapshot :=
  mkMemorySnapshot (phase snapshot) (spec snapshot) code tests
    (last_checks snapshot) (iteration snapshot) (phase_retries snapshot).

(** The parsed arguments with other [--strict] and [--no-strict] flags. *)
Definition set_strict (args : cli.Namespace) (s ns : bool) : cli.Namespace :=
  cli.mkNamespace (cli.cmd args) (cli.spec args) (cli.prompt args) (cli.name args)
    (cli.no_stdlib_only args) (cli.out args) (cli.max_iters args)
    (cli.max_phase_retries args) s ns.

(** The specification [main] runs the agent on: read from the file of
    [--spec], or built from [--prompt]. *)
Definition spec_of_args {W : Type} (json_loads : string -> JsonOutcome)
    (host : cli.Host W) (args : cli.Namespace) : M W PyVal :=
  if cli.given (cli.spec args)
  then cli._load_spec json_loads host
         (match cli.spec args with Some p => p | None => EmptyString end)
  else ret (cli._spec_from_prompt (cli.prompt args) (cli.name args)
              (negb (cli.no_stdlib_only args))).

(** The configuration [main] gives the agent. *)
Definition config_of_args (args : cli.Namespace) : AgentConfig :=
  mkAgentConfig (cli.max_iters args) (cli.max_phase_retries args)
    (if cli.no_strict args then false else if cli.strict args then true else true)
    (cli.out args).

(** The generating model fails on every call, with [e], leaving the
    world as it is. *)
Definition always_raises {W : Type} (llm : LLM W) (e : Exn) : Prop :=
  forall prompt w, generate llm prompt w = (Raise e, w).


(** What comes before the phase line in every prompt. *)
Definition prompt_head : string := AGENT_RULES ++ nl ++ nl ++ "---" ++ nl ++ nl.

End Notions.

(* ================================================================== *)
(** ** Facts about strings *)
(* ================================================================== *)

Module StrFacts.
Import Notions.

Lemma app_assoc (a b c : string) : (a ++ b) ++ c = a ++ b ++ c.
Proof. induction a as [|x a IH]; simpl; [reflexivity | now rewrite IH]. Qed.

Lemma app_nil_r (a : string) : a ++ EmptyString = a.
Proof. induction a as [|x a IH]; simpl; [reflexivity | now rewrite IH]. Qed.

Lemma length_app (a b : string) :
  String.length (a ++ b) = (String.length a + String.length b)%nat.
Proof. induction a as [|x a IH]; simpl; [reflexivity | now rewrite IH]. Qed.


(** A string at least [n] long splits after its first [n] characters. *)
Lemma split_at (n : nat) (s : string) :
  (n <= String.length s)%nat ->
  exists x y, s = x ++ y /\ String.length x = n.
Proof.
  revert s; induction n as [|n IH]; intros s Hn.
  - exists EmptyString, s; split; reflexivity.
  - destruct s as [|c s]; simpl in Hn; [lia|].
    destruct (IH s) as (x & y & -> & Hx); [lia|].
    exists (String c x), y; split; simpl; [reflexivity | now rewrite Hx].
Qed.

Lemma lower_backtick (c : ascii) : is_backtick (lower c) = is_backtick c.
Proof. destruct c as [[] [] [] [] [] [] [] []]; reflexivity. Qed.

Lemma space_not_backtick (c : ascii) : isspace c = true -> is_backtick c = false.
Proof. destruct c as [[] [] [] [] [] [] [] []]; simpl; intros H; try reflexivity; discriminate H. Qed.

Lemma lstrip_length (s : string) : (String.length (lstrip s) <= String.length s)%nat.
Proof.
  induction s as [|c s IH]; simpl; [lia|].
  destruct (isspace c); simpl; lia.
Qed.


Lemma lstrip_idem (s : string) : lstrip (lstrip s) = lstrip s.
Proof.
  induction s as [|c s IH]; simpl; [reflexivity|].
  destruct (isspace c) eqn:E; [exact IH | simpl; now rewrite E].
Qed.

Lemma starts3_app (s r : string) : starts3 s = true -> starts3 (s ++ r) = true.
Proof.
  destruct s as [|a [|b [|c s]]]; simpl; try discriminate; auto.
Qed.



Lemma starts3_head (c : ascii) (s : string) :
  starts3 (String c s) = true -> is_backtick c = true.
Proof.
  destruct s as [|b [|d s]]; simpl; try discriminate.
  destruct (is_backtick c); [reflexivity | discriminate].
Qed.

Lemma starts3_lstrip (s : string) : starts3 s = true -> lstrip s = s.
Proof.
  destruct s as [|c s]; [reflexivity|]; intros H; simpl.
  apply starts3_head in H.
  destruct (isspace c) eqn:E; [|reflexivity].
  apply space_not_backtick in E; congruence.
Qed.

Lemma has3_cons (c : ascii) (s : string) :
  has3 (String c s) = starts3 (String c s) || has3 s.
Proof. reflexivity. Qed.

Lemma has3_app_l (s r : string) : has3 s = true -> has3 (s ++ r) = true.
Proof.
  induction s as [|c s IH]; intros H.
  - discriminate.
  - rewrite has3_cons in H. change (String c s ++ r) with (String c (s ++ r)).
    rewrite has3_cons. apply orb_true_iff in H as [H|H].
    + apply (starts3_app _ r) in H. change (String c s ++ r) with (String c (s ++ r)) in H.
      rewrite H; reflexivity.
    + rewrite (IH H); apply orb_true_r.
Qed.



Lemma has3_lstrip (s : string) : has3 (lstrip s) = has3 s.
Proof.
  induction s as [|c s IH]; [reflexivity|].
  simpl lstrip. destruct (isspace c) eqn:E; [|reflexivity].
  rewrite IH. change (has3 (String c s)) with (starts3 (String c s) || has3 s).
  destruct (starts3 (String c s)) eqn:S3; [|reflexivity].
  apply starts3_head in S3. apply space_not_backtick in E; congruence.
Qed.

Lemma every_app (p : ascii -> bool) (a b : string) :
  every p (a ++ b) = every p a && every p b.
Proof.
  induction a as [|c a IH]; simpl; [reflexivity|].
  rewrite IH; apply andb_assoc.
Qed.

Lemma prefix_app (u v : string) : prefix u (u ++ v) = true.
Proof.
  induction u as [|x u IH]; cbn; [now destruct v|].
  destruct (ascii_dec x x); [exact IH | congruence].
Qed.

Lemma contains_prefix (u s : string) : prefix u s = true -> contains u s = true.
Proof. intros H. destruct s; cbn [contains]; now rewrite H. Qed.

(** A text contains each of its parts. *)
Lemma contains_app (t p q : string) : contains t (p ++ t ++ q) = true.
Proof.
  induction p as [|c p IH]; cbn [append].
  - apply contains_prefix, prefix_app.
  - cbn [contains]. rewrite IH. apply orb_true_r.
Qed.

End StrFacts.

(* ================================================================== *)
(** ** Facts about the pattern [ACTION_FENCE_RE] *)
(* ================================================================== *)

Module RegexFacts.
Import parsing Notions StrFacts.

Lemma eqb_lower_backtick (c : ascii) :
  Ascii.eqb (lower "`") (lower c) = is_backtick c.
Proof. change (lower "`") with "`"%char. apply lower_backtick. Qed.

Lemma lit3_starts3 (s : string) :
  lit_ci "```" (fun _ => Some tt) s = if starts3 s then Some tt else None.
Proof.
  destruct s as [|a [|b [|c s]]]; cbn [lit_ci starts3];
    try reflexivity; rewrite ?eqb_lower_backtick;
    repeat match goal with |- context [is_backtick ?x] => destruct (is_backtick x) end;
    reflexivity.
Qed.

(** The closing part succeeds exactly when the fence follows the blanks. *)
Lemma fence_close_spec (s : string) :
  fence_close s = if starts3 (lstrip s) then Some tt else None.
Proof.
  unfold fence_close.
  induction s as [|c s IH]; cbn [ws_star lstrip].
  - apply lit3_starts3.
  - destruct (isspace c) eqn:E.
    + rewrite IH. destruct (starts3 (lstrip s)); [reflexivity|].
      rewrite lit3_starts3.
      destruct (starts3 (String c s)) eqn:S3; [|reflexivity].
      apply starts3_head in S3. apply space_not_backtick in E. congruence.
    + apply lit3_starts3.
Qed.

Lemma fence_close_has3 (s : string) : fence_close s = Some tt -> has3 s = true.
Proof.
  rewrite fence_close_spec. destruct (starts3 (lstrip s)) eqn:S3; [|discriminate].
  intros _. rewrite <- has3_lstrip.
  destruct (lstrip s); [discriminate|]. rewrite has3_cons, S3. reflexivity.
Qed.

Lemma fence_close_none (s : string) : has3 s = false -> fence_close s = None.
Proof.
  intros H. destruct (fence_close s) as [[]|] eqn:F; [|reflexivity].
  apply fence_close_has3 in F. congruence.
Qed.

(** The lazy body finds a closing fence exactly when three backticks
    occur in what remains. *)
Lemma any_lazy_none (u : string) :
  any_lazy fence_close u = None <-> has3 u = false.
Proof.
  induction u as [|c u IH]; cbn [any_lazy].
  - rewrite fence_close_spec. simpl. split; reflexivity.
  - destruct (fence_close (String c u)) as [[]|] eqn:F.
    + apply fence_close_has3 in F. rewrite F. split; discriminate.
    + rewrite has3_cons.
      assert (S3 : starts3 (String c u) = false).
      { destruct (starts3 (String c u)) eqn:S3; [|reflexivity].
        rewrite fence_close_spec, (starts3_lstrip _ S3), S3 in F. discriminate. }
      rewrite S3. simpl orb.
      destruct (any_lazy fence_close u) as [[b []]|].
      * split; [discriminate|]. intros H. apply IH in H. discriminate.
      * split; [intros _; now apply IH | reflexivity].
Qed.




(** The blanks after the marker never have to be given back. *)
Lemma ws_any_lazy (s : string) :
  ws_star (any_lazy fence_close) s = any_lazy fence_close (lstrip s).
Proof.
  induction s as [|c s IH]; cbn [ws_star lstrip]; [reflexivity|].
  destruct (isspace c) eqn:E; [|reflexivity].
  rewrite IH.
  destruct (any_lazy fence_close (lstrip s)) as [[b []]|] eqn:A; [reflexivity|].
  apply any_lazy_none. rewrite has3_cons.
  apply any_lazy_none in A. rewrite has3_lstrip in A. rewrite A, orb_false_r.
  destruct (starts3 (String c s)) eqn:S3; [|reflexivity].
  apply starts3_head in S3. apply space_not_backtick in E. congruence.
Qed.

Section Literal.
Context {A : Type}.

Lemma lit_ci_split (p : string) (k : string -> option A) (x y : string) :
  String.length x = String.length p ->
  lit_ci p k (x ++ y) = if lower_str x =? lower_str p then k y else None.
Proof.
  revert x; induction p as [|a p IH]; intros [|c x] L; simpl in L; try discriminate.
  - reflexivity.
  - cbn [lit_ci lower_str append]. cbn [String.eqb].
    rewrite (Ascii.eqb_sym (lower c) (lower a)).
    destruct (Ascii.eqb (lower a) (lower c)); [|reflexivity].
    apply IH. now injection L.
Qed.

Lemma lit_ci_short (p : string) (k : string -> option A) (s : string) :
  (String.length s < String.length p)%nat -> lit_ci p k s = None.
Proof.
  revert s; induction p as [|a p IH]; intros s L; simpl in L; [lia|].
  destruct s as [|c s]; cbn [lit_ci]; [reflexivity|].
  destruct (Ascii.eqb (lower a) (lower c)); [|reflexivity].
  apply IH. simpl in L. lia.
Qed.
End Literal.

Lemma match_split (x y : string) :
  String.length x = 9%nat ->
  ACTION_FENCE_match (x ++ y)
  = if lower_str x =? "```action"
    then body_of (any_lazy fence_close (lstrip y))
    else None.
Proof.
  intros L. unfold ACTION_FENCE_match.
  rewrite (lit_ci_split "```action" _ x y L).
  change (lower_str "```action") with "```action".
  destruct (lower_str x =? "```action"); [|reflexivity].
  rewrite ws_any_lazy. reflexivity.
Qed.

Lemma match_short (s : string) :
  (String.length s < 9)%nat -> ACTION_FENCE_match s = None.
Proof.
  intros L. unfold ACTION_FENCE_match.
  rewrite lit_ci_short; [reflexivity | exact L].
Qed.

(** A match at the head of [s]: the marker, then three backticks
    somewhere in the rest. *)
Lemma match_inv (s b : string) :
  ACTION_FENCE_match s = Some b ->
  exists x y, s = x ++ y /\ lower_str x = "```action"
              /\ any_lazy fence_close (lstrip y) = Some (b, tt).
Proof.
  intros H.
  destruct (Nat.lt_ge_cases (String.length s) 9) as [L|L].
  - rewrite match_short in H by exact L. discriminate.
  - destruct (split_at 9 s L) as (x & y & -> & Lx).
    rewrite (match_split x y Lx) in H.
    destruct (String.eqb_spec (lower_str x) "```action") as [E|E]; [|discriminate].
    exists x, y. split; [reflexivity|]. split; [exact E|].
    destruct (any_lazy fence_close (lstrip y)) as [[b0 []]|]; simpl in H; congruence.
Qed.

Lemma search_inv (t b : string) :
  ACTION_FENCE_search t = Some b ->
  exists pre x y, t = pre ++ x ++ y /\ lower_str x = "```action"
                  /\ any_lazy fence_close (lstrip y) = Some (b, tt).
Proof.
  induction t as [|c t IH]; cbn [ACTION_FENCE_search]; intros H.
  - rewrite match_short in H by (simpl; lia). discriminate.
  - destruct (ACTION_FENCE_match (String c t)) as [b0|] eqn:Ma.
    + injection H as ->. destruct (match_inv _ _ Ma) as (x & y & E & Hx & Hy).
      exists EmptyString, x, y. auto.
    + destruct (IH H) as (pre & x & y & -> & Hx & Hy).
      exists (String c pre), x, y. auto.
Qed.






Lemma rstrip_empty (u : string) : rstrip u = EmptyString <-> every isspace u = true.
Proof.
  induction u as [|c u IH]; simpl; [split; reflexivity|].
  destruct (rstrip u) eqn:R.
  - destruct (isspace c); simpl.
    + split; [intros _; now apply IH | reflexivity].
    + split; discriminate.
  - split; [discriminate|]. intros H. apply andb_true_iff in H as [_ H].
    apply IH in H. discriminate.
Qed.

Lemma lstrip_empty (u : string) : lstrip u = EmptyString <-> every isspace u = true.
Proof.
  induction u as [|c u IH]; simpl; [split; reflexivity|].
  destruct (isspace c); simpl; [exact IH | split; discriminate].
Qed.


Lemma every_space_lstrip (u : string) :
  every isspace (lstrip u) = every isspace u.
Proof.
  induction u as [|c u IH]; simpl; [reflexivity|].
  destruct (isspace c) eqn:E; simpl; [exact IH | now rewrite E].
Qed.

Lemma strip_empty (u : string) : strip u = EmptyString <-> every isspace u = true.
Proof. unfold strip. now rewrite rstrip_empty, every_space_lstrip. Qed.




Lemma rstrip_idem (u : string) : rstrip (rstrip u) = rstrip u.
Proof.
  induction u as [|c u IH]; [reflexivity|].
  cbn [rstrip]. destruct (rstrip u) as [|d r] eqn:R.
  - destruct (isspace c) eqn:E; [reflexivity|]. simpl. now rewrite E.
  - cbn [rstrip]. cbn [rstrip] in IH. now rewrite IH.
Qed.

Lemma lstrip_rstrip (u : string) : lstrip (rstrip (lstrip u)) = rstrip (lstrip u).
Proof.
  destruct (lstrip u) as [|c v] eqn:L; [reflexivity|].
  assert (E : isspace c = false).
  { pose proof (lstrip_idem u) as I. rewrite L in I. simpl in I.
    destruct (isspace c) eqn:E; [|reflexivity].
    pose proof (lstrip_length v) as Lv. rewrite I in Lv. simpl in Lv. lia. }
  cbn [rstrip]. destruct (rstrip v); rewrite ?E; simpl; now rewrite E.
Qed.

Lemma strip_idem (u : string) : strip (strip u) = strip u.
Proof. unfold strip. now rewrite lstrip_rstrip, rstrip_idem. Qed.

Lemma has3_split (y : string) :
  has3 y = true -> exists inner post, y = inner ++ "```" ++ post.
Proof.
  induction y as [|c y IH]; intros H; [discriminate|].
  rewrite has3_cons in H. apply orb_true_iff in H as [H|H].
  - destruct y as [|b [|d y]]; try discriminate.
    unfold starts3 in H. apply andb_true_iff in H as [H Hd].
    apply andb_true_iff in H as [Hc Hb].
    unfold is_backtick in Hc, Hb, Hd.
    apply Ascii.eqb_eq in Hc, Hb, Hd. subst.
    exists EmptyString, y. reflexivity.
  - destruct (IH H) as (inner & post & ->).
    exists (String c inner), post. reflexivity.
Qed.

(** A block found by the search is a fenced block of the text. *)
Lemma search_fence (t b : string) :
  ACTION_FENCE_search t = Some b -> has_action_fence t.
Proof.
  intros H. destruct (search_inv _ _ H) as (pre & x & y & -> & Hx & Hy).
  assert (Hy3 : has3 y = true).
  { rewrite <- has3_lstrip. destruct (has3 (lstrip y)) eqn:E; [reflexivity|].
    apply any_lazy_none in E. congruence. }
  destruct (has3_split _ Hy3) as (inner & post & ->).
  exists pre, x, inner, post. auto.
Qed.

End RegexFacts.

(* ================================================================== *)
(** ** The action parser *)
(* ================================================================== *)

Module ParsingSpec.
Import parsing Notions StrFacts RegexFacts Scenarios.

Section WithJson.
Variable json_loads : string -> JsonOutcome.

(** The extraction and the validation raise nothing but
    [ActionParseError]. *)
Lemma extract_raises (text : string) (e : Exn) :
  extract_action_block text = Raise e -> is_ActionParseError e = true.
Proof.
  unfold extract_action_block.
  destruct (negb (truthy_str (strip text))).
  - intros H; injection H as <-; reflexivity.
  - destruct (ACTION_FENCE_search text) as [body|].
    + destruct (negb (truthy_str body) || negb (truthy_str (strip body)));
        intros H; [injection H as <-; reflexivity | discriminate].
    + intros H; injection H as <-; reflexivity.
Qed.

Lemma decoder_fault_not_parse_error (o : JsonOutcome) (e : Exn) :
  decoder_fault o = Some e -> is_ActionParseError e = false.
Proof.
  destruct o; intros H; try discriminate H; injection H as <-; reflexivity.
Qed.

(** [parse_action_json] raises an [ActionParseError] of its own, or lets
    through what the decoder raised. *)
Lemma parse_action_json_raises (body : string) (e : Exn) :
  parse_action_json json_loads body = Raise e ->
  is_ActionParseError e = true \/ decoder_fault (json_loads body) = Some e.
Proof.
  unfold parse_action_json.
  destruct (json_loads body) as [[| | | | |]|msg|msg|msg];
    intros H; try discriminate H; injection H as <-; cbn; auto.
Qed.

Lemma parse_action_json_fault (body : string) (e : Exn) :
  decoder_fault (json_loads body) = Some e ->
  parse_action_json json_loads body = Raise e.
Proof.
  unfold parse_action_json.
  destruct (json_loads body); intros H; try discriminate H;
    injection H as <-; reflexivity.
Qed.

Lemma validate_raises (obj : list (string * PyVal)) (e : Exn) :
  validate_action_obj obj = Raise e -> is_ActionParseError e = true.
Proof.
  unfold validate_action_obj.
  destruct (get obj "tool_name" PyNone) as [| | |name| |];
    try (intros H; injection H as <-; reflexivity).
  destruct (negb (truthy_str (strip name)));
    [intros H; injection H as <-; reflexivity|].
  destruct (get obj "args" PyNone);
    intros H; try discriminate H; injection H as <-; reflexivity.
Qed.

(** Whatever [parse_action] raises is an [ActionParseError], or what the
    decoder raised on the block extracted. *)
Lemma parse_action_raises (text : string) (e : Exn) :
  parse_action json_loads text = Raise e ->
  is_ActionParseError e = true
  \/ exists body,
      extract_action_block text = Ok body
      /\ decoder_fault (json_loads body) = Some e.
Proof.
  unfold parse_action.
  destruct (extract_action_block text) as [body|e1] eqn:X.
  - destruct (parse_action_json json_loads body) as [obj|e2] eqn:J.
    + intros H. left. now apply (validate_raises obj).
    + intros H; injection H as <-.
      destruct (parse_action_json_raises body e2 J) as [A|D]; [now left|].
      right. now exists body.
  - intros H; injection H as <-. left. now apply (extract_raises text).
Qed.

(** What [safe_parse_action] does on a text: it returns an action, it
    returns a message, or it raises what the decoder raised on the
    block. *)
Lemma safe_parse_action_cases (text : string) :
  (exists a, safe_parse_action json_loads text = Ok (Some a, None))
  \/ (exists msg, safe_parse_action json_loads text = Ok (None, Some msg))
  \/ (exists body e,
        extract_action_block text = Ok body
        /\ decoder_fault (json_loads body) = Some e
        /\ safe_parse_action json_loads text = Raise e).
Proof.
  unfold safe_parse_action.
  destruct (parse_action json_loads text) as [a|e] eqn:P.
  - left. now exists a.
  - destruct (parse_action_raises _ _ P) as [A|(body & X & D)].
    + right; left. rewrite A. now exists (exn_msg e).
    + right; right. rewrite (decoder_fault_not_parse_error _ _ D).
      now exists body, e.
Qed.

(** A failure message comes with an [ActionParseError] of the parser. *)
Lemma safe_parse_failure_inv (text msg : string) (x : option Action) :
  safe_parse_action json_loads text = Ok (x, Some msg) ->
  x = None
  /\ exists e,
      parse_action json_loads text = Raise e
      /\ is_ActionParseError e = true /\ exn_msg e = msg.
Proof.
  unfold safe_parse_action.
  destruct (parse_action json_loads text) as [a|e] eqn:P; [discriminate|].
  destruct (is_ActionParseError e) eqn:A; [|discriminate].
  intros H. injection H as <- <-. split; [reflexivity|]. now exists e.
Qed.

Lemma extract_blank (text : string) :
  every isspace text = true ->
  extract_action_block text
  = Raise (ActionParseError "Empty model response; expected an ```action``` block.").
Proof.
  intros H. unfold extract_action_block.
  apply strip_empty in H. now rewrite H.
Qed.

Lemma safe_parse_of_extract_raise (text msg : string) :
  extract_action_block text = Raise (ActionParseError msg) ->
  safe_parse_action json_loads text = Ok (None, Some msg).
Proof.
  intros H. unfold safe_parse_action, parse_action. now rewrite H.
Qed.

Lemma extract_no_block (text : string) :
  ACTION_FENCE_search text = None ->
  exists msg, extract_action_block text = Raise (ActionParseError msg).
Proof.
  intros H. unfold extract_action_block. rewrite H.
  destruct (negb (truthy_str (strip text))); eauto.
Qed.

End WithJson.

(** C7, as the code has it.  [safe_parse_action] raises exactly when a
    block was extracted and the decoder raised on it one of its
    exceptions other than [JSONDecodeError]: [parse_action_json] catches
    only that one, [safe_parse_action] only [ActionParseError], and the
    exception of the decoder leaves both.  In every other case it returns
    either a validated action or a failure message.  On a text made of
    blanks only, and on a text that holds no fenced block of the action
    type in any letter case, it returns a failure and no action. *)
Theorem safe_parse_action_decoder_faults (json_loads : string -> JsonOutcome)
    (text : string) :
  (forall e,
      safe_parse_action json_loads text = Raise e
      <-> exists body,
          extract_action_block text = Ok body
          /\ decoder_fault (json_loads body) = Some e)
  /\ ((forall body,
          extract_action_block text = Ok body ->
          decoder_fault (json_loads body) = None) ->
      (exists a, safe_parse_action json_loads text = Ok (Some a, None))
      \/ (exists msg, safe_parse_action json_loads text = Ok (None, Some msg)))
  /\ (every isspace text = true ->
      safe_parse_action json_loads text
      = Ok (None, Some "Empty model response; expected an ```action``` block."))
  /\ (~ has_action_fence text ->
      exists msg, safe_parse_action json_loads text = Ok (None, Some msg)).
Proof.
  split; [|split; [|split]].
  - intros e. split.
    + intros H.
      destruct (safe_parse_action_cases json_loads text)
        as [(a & E)|[(msg & E)|(body & e' & X & D & E)]];
        rewrite E in H; try discriminate H.
      injection H as <-. now exists body.
    + intros (body & X & D).
      unfold safe_parse_action, parse_action.
      rewrite X, (parse_action_json_fault json_loads body e D).
      now rewrite (decoder_fault_not_parse_error _ _ D).
  - intros N.
    destruct (safe_parse_action_cases json_loads text)
      as [A|[M|(body & e & X & D & _)]]; [now left | now right|].
    rewrite (N body X) in D. discriminate.
  - intros H. apply safe_parse_of_extract_raise. now apply extract_blank.
  - intros H.
    destruct (ACTION_FENCE_search text) as [b|] eqn:S.
    + exfalso. apply H. now apply (search_fence _ b).
    + destruct (extract_no_block _ S) as (msg & E).
      exists msg. now apply safe_parse_of_extract_raise.
Qed.

Lemma no_fence_in_prose : ~ has_action_fence "no action here".
Proof.
  intros (pre & opener & inner & post & E & H).
  assert (B : every not_backtick "no action here" = true) by reflexivity.
  rewrite E in B. rewrite !every_app in B.
  destruct opener as [|c opener]; [discriminate|].
  simpl in H. injection H as Hc _.
  simpl in B. apply andb_true_iff in B as [_ B].
  apply andb_true_iff in B as [B _]. apply andb_true_iff in B as [B _].
  assert (Bc : is_backtick c = true).
  { rewrite <- lower_backtick, Hc. reflexivity. }
  unfold not_backtick in B. rewrite Bc in B. discriminate.
Qed.

(** On a block whose arguments hold an integer of 4301 digits, the
    [ValueError] of the decoder leaves [safe_parse_action]; blanks and
    prose give a failure. *)
Lemma safe_parse_action_decoder_faults_witness :
  safe_parse_action Ref.json_loads long_int_text
  = Raise (mkExn "ValueError" (Ref.int_limit_message 4301))
  /\ safe_parse_action Ref.json_loads ("  " ++ nl)
     = Ok (None, Some "Empty model response; expected an ```action``` block.")
  /\ exists msg, safe_parse_action Ref.json_loads "no action here" = Ok (None, Some msg).
Proof.
  split; [|split].
  - apply (safe_parse_action_decoder_faults Ref.json_loads long_int_text).
    exists (action_json "write_code" ("{" ++ dq ++ "n" ++ dq ++ ":" ++ ones 4301 ++ "}")).
    split; vm_compute; reflexivity.
  - apply (safe_parse_action_decoder_faults Ref.json_loads ("  " ++ nl)). reflexivity.
  - apply (safe_parse_action_decoder_faults Ref.json_loads "no action here").
    exact no_fence_in_prose.
Defined.



End ParsingSpec.

(* ================================================================== *)
(** ** The prompt builder *)
(* ================================================================== *)

Module PromptSpec.
Import prompts Notions Scenarios.

Lemma firstn_le {A : Type} (n : nat) (l : list A) : (List.length (firstn n l) <= n)%nat.
Proof. rewrite length_firstn. lia. Qed.

(** C9, as the code has it.  The prompts of one snapshot under all lists
    of checks share their lines before and after the checks section.  A
    non-empty list adds one section, headed [LAST_CHECKS:], whose entries
    are the first ten messages of the list, in the order of the list, each
    behind the marker ["- "]: at most ten entries, and a message after the
    tenth is left out.  An empty or absent list adds nothing. *)
Theorem checks_section_first_ten (py_repr : PyVal -> string) (s : MemorySnapshot) :
  exists before after : list string,
    (forall c cs,
        build_prompt py_repr (with_checks s (Some (c :: cs)))
        = join nl (before
                     ++ [(nl ++ "LAST_CHECKS:" ++ nl
                            ++ join nl (map check_entry (firstn 10 (c :: cs))))%string]
                     ++ after)%list
        /\ (List.length (map check_entry (firstn 10 (c :: cs))) <= 10)%nat)
    /\ build_prompt py_repr (with_checks s (Some [])) = join nl (before ++ after)%list
    /\ build_prompt py_repr (with_checks s None) = join nl (before ++ after)%list.
Proof.
  exists (List.app
            [AGENT_RULES;
             nl ++ "---" ++ nl;
             "PHASE: " ++ value (phase s);
             "ITERATION: " ++ str_of_int (iteration s);
             "PHASE_RETRIES: " ++ str_of_int (phase_retries s);
             nl ++ "SPEC:" ++ nl ++ _compact_spec py_repr (spec s) 4000]
            (List.app
               (if truthy_str (strip (code s))
                then [nl ++ "CURRENT_CODE:" ++ nl ++ code s] else [])
               (if truthy_str (strip (tests s))
                then [nl ++ "CURRENT_TESTS:" ++ nl ++ tests s] else []))).
  exists [nl ++ "---" ++ nl; _phase_instruction s].
  assert (I : forall x, _phase_instruction (with_checks s x) = _phase_instruction s)
    by reflexivity.
  unfold build_prompt. rewrite !I. unfold with_checks, push.
  cbn [phase spec code tests last_checks iteration phase_retries].
  split; [intros c cs; split|split].
  2: { rewrite length_map. apply firstn_le. }
  all: destruct (truthy_str (strip (code s))), (truthy_str (strip (tests s)));
    apply f_equal; reflexivity.
Qed.

(** The claim is false as stated: of eleven messages, the prompt shows
    the first ten and leaves out the eleventh, the most recent one. *)
Lemma most_recent_check_left_out :
  last eleven_checks EmptyString = "m11"
  /\ contains "m11" (build_prompt Ref.py_repr eleven_snapshot) = false
  /\ contains (nl ++ "LAST_CHECKS:" ++ nl ++ "- m01" ++ nl ++ "- m02")
       (build_prompt Ref.py_repr eleven_snapshot) = true
  /\ contains ("- m10" ++ nl ++ nl ++ "---")
       (build_prompt Ref.py_repr eleven_snapshot) = true.
Proof. vm_compute. repeat split. Qed.

End PromptSpec.

(* ================================================================== *)
(** ** The checks tool *)
(* ================================================================== *)

Module ActionsSpec.
Import actions Notions Scenarios.

Section WithOS.
Context {W : Type}.
Variable py_repr : PyVal -> string.
Variable os : OS W.








End WithOS.



End ActionsSpec.

(* ================================================================== *)
(** ** The orchestrator loop *)
(* ================================================================== *)

Module AgentSpec.
Import parsing prompts agent Notions Scenarios.

Section Run.
Context {W : Type}.
Variable json_loads : string -> JsonOutcome.
Variable py_repr : PyVal -> string.
Variable llm : LLM W.
Variable tools : Tools W.
Variable config : AgentConfig.

Local Notation "'the_prompt' spec st" :=
  (build_prompt py_repr (snapshot_of spec st))
    (at level 10, spec at level 9, st at level 9).
Local Notation "'the_dispatch' a spec st" :=
  (_dispatch tools config (tool_name a) (args a) spec
     (st_code st) (st_tests st) (st_last_checks st))
    (at level 10, a at level 9, spec at level 9, st at level 9).
Local Notation "'the_attempt'" := (attempt_action json_loads py_repr llm tools config).
Local Notation "'the_body'" := (loop_body json_loads py_repr llm tools config).
Local Notation "'the_loop'" := (run_loop json_loads py_repr llm tools config).
Local Notation "'the_run'" := (run json_loads py_repr llm tools config).
Local Notation "'the_reach'" := (reaches json_loads py_repr llm tools config).
Local Notation "'apply'' st o" := (apply_outcome py_repr config st o)
    (at level 10, st at level 9, o at level 9).
Local Notation "'retry'" := (retry_or_fail config).
Local Notation "'max_it'" := (max_iterations config).
Local Notation "'max_re'" := (max_phase_retries config).

(** *** One pass *)


(** The parser is called outside any [try]: what it raises leaves the
    pass. *)
Lemma attempt_parse_raises spec st w text w1 e :
  generate llm (the_prompt spec st) w = (Ok text, w1) ->
  safe_parse_action json_loads text = Raise e ->
  the_attempt spec st w = (Raise e, w1).
Proof. intros H P. unfold attempt_action, bind, lift. now rewrite H, P. Qed.


Lemma attempt_dispatch spec st w text w1 a x :
  generate llm (the_prompt spec st) w = (Ok text, w1) ->
  safe_parse_action json_loads text = Ok (Some a, x) ->
  the_attempt spec st w
  = match the_dispatch a spec st w1 with
    | (Ok d, w2) => (Ok (ToolReturned (tool_name a) d), w2)
    | (Raise e, w2) => (Ok (ToolRaised (tool_name a) e), w2)
    end.
Proof.
  intros H P. unfold attempt_action, bind, lift, try_except, ret.
  rewrite H, P.
  destruct (the_dispatch a spec st w1) as [[d|e] w2]; reflexivity.
Qed.


Lemma recognized_false (t : string) :
  recognized t = false ->
  (t =? "write_code") = false /\ (t =? "write_docs") = false
  /\ (t =? "write_tests") = false /\ (t =? "run_checks") = false
  /\ (t =? "save_file") = false /\ (t =? "terminate") = false.
Proof.
  unfold recognized. intros H.
  repeat (apply orb_false_iff in H as [H ?]). auto 10.
Qed.

Lemma dispatch_unknown t a spec code tests checks w :
  recognized t = false ->
  _dispatch tools config t a spec code tests checks w
  = (Raise (mkExn "ValueError" ("Unknown tool_name: " ++ t)), w).
Proof.
  intros H. destruct (recognized_false t H) as (A & B & C & D & E & F).
  unfold _dispatch. now rewrite A, B, C, D, E, F.
Qed.


Lemma retry_cases st checks failure :
  (st_phase_retries st + 1 <= max_re
   /\ retry st checks failure
      = Continue (mkLocals (st_phase st) (st_iteration st + 1)
                    (st_phase_retries st + 1) (st_code st) (st_tests st) checks))%Z
  \/ (st_phase_retries st + 1 > max_re
      /\ retry st checks failure
         = Return (mkAgentResult false failure None (st_iteration st + 1)))%Z.
Proof.
  unfold retry_or_fail.
  destruct (st_phase_retries st + 1 >? max_re)%Z eqn:E.
  - right. split; [lia | reflexivity].
  - left. split; [lia | reflexivity].
Qed.

Lemma apply_continue st o st' :
  apply' st o = Ok (Continue st') ->
  st_iteration st' = (st_iteration st + 1)%Z.
Proof.
  destruct o as [err|t e|t d]; cbn [apply_outcome].
  - destruct (retry_cases st ["ActionParseError: " ++ err]
                ("Failed to parse action after retries. Last error: " ++ err))
      as [[_ ->]|[_ ->]]; intros H; [injection H as <-; reflexivity | discriminate].
  - match goal with
    | |- Ok (retry st ?c ?f) = _ -> _ =>
        destruct (retry_cases st c f) as [[_ ->]|[_ ->]]
    end; intros H; [injection H as <-; reflexivity | discriminate].
  - repeat match goal with
           | |- (if ?b then _ else _) = _ -> _ => destruct b
           | |- match getitem ?k ?f with _ => _ end = _ -> _ => destruct f; cbn [getitem]
           end;
      try (intros H; discriminate H);
      try (intros H; injection H as <-; reflexivity).
    match goal with
    | |- Ok (retry st ?c ?f) = _ -> _ =>
        destruct (retry_cases st c f) as [[_ ->]|[_ ->]]
    end; intros H; [injection H as <-; reflexivity | discriminate].
Qed.


Lemma body_inv spec st w o c w1 :
  the_body spec st w = (Ok (o, c), w1) ->
  the_attempt spec st w = (Ok o, w1) /\ apply' st o = Ok c.
Proof.
  unfold loop_body, bind, lift, ret.
  destruct (the_attempt spec st w) as [[o'|e] w'] eqn:A; [|discriminate].
  destruct (apply' st o') as [c'|e] eqn:C; [|discriminate].
  intros H. injection H as <- <- <-. auto.
Qed.

Lemma body_of_attempt spec st w o w1 c :
  the_attempt spec st w = (Ok o, w1) -> apply' st o = Ok c ->
  the_body spec st w = (Ok (o, c), w1).
Proof. intros A C. unfold loop_body, bind, lift, ret. now rewrite A, C. Qed.



(** *** The loop *)

Lemma body_continue spec st w o st' w1 :
  the_body spec st w = (Ok (o, Continue st'), w1) ->
  st_iteration st' = (st_iteration st + 1)%Z.
Proof. intros B. apply body_inv in B as [_ C]. now apply apply_continue in C. Qed.

(** Induction along the passes of the loop, for any fuel that covers
    the iterations left. *)
Lemma run_loop_ind (spec : PyVal) (P : Locals -> W -> Run -> Prop) :
  (forall st w,
      (st_iteration st <? max_it)%Z = false ->
      P st w (mkRun [] 0 (Returned (exceeded config st)) w)) ->
  (forall st w e w1,
      (st_iteration st < max_it)%Z ->
      the_body spec st w = (Raise e, w1) ->
      P st w (mkRun [] 1 (Raised e) w1)) ->
  (forall st w o r w1,
      (st_iteration st < max_it)%Z ->
      the_body spec st w = (Ok (o, Return r), w1) ->
      P st w (mkRun [o] 1 (Returned r) w1)) ->
  (forall st w o st' w1 R,
      (st_iteration st < max_it)%Z ->
      the_body spec st w = (Ok (o, Continue st'), w1) ->
      P st' w1 R -> P st w (pass_done o R)) ->
  forall fuel st w,
    (Z.to_nat (max_it - st_iteration st) <= fuel)%nat ->
    P st w (the_loop fuel spec st w).
Proof.
  intros Hexit Hraise Hret Hcont.
  induction fuel as [|fuel IH]; intros st w F; cbn [run_loop];
    destruct (st_iteration st <? max_it)%Z eqn:E;
    try (now apply Hexit); apply Z.ltb_lt in E.
  - lia.
  - destruct (the_body spec st w) as [[[o [st'|r]]|e] w1] eqn:B.
    + apply (Hcont st w o st' w1); [exact E | exact B|].
      apply IH. apply body_continue in B. lia.
    + now apply Hret.
    + now apply Hraise.
Qed.






(** *** Verification outcomes *)

(** C2.  In phase Evaluate, when [run_checks] returns normally, the
    pass goes on to Export if [ok] is true and to Fix if it is false;
    in both cases the retry counter is reset to 0, and the returned
    list of checks becomes the list of the next pass, which its
    snapshot holds as it is (an empty list as no list). *)
Theorem verify_outcome_transition spec st w text w1 a d w2 b :
  st_phase st = EVALUATE ->
  generate llm (the_prompt spec st) w = (Ok text, w1) ->
  safe_parse_action json_loads text = Ok (Some a, None) ->
  tool_name a = "run_checks" ->
  run_checks tools spec (st_code st) (st_tests st) (strict config) (args a) w1
  = (Ok d, w2) ->
  d_ok d = Some b ->
  exists st',
    the_body spec st w = (Ok (ToolReturned "run_checks" d, Continue st'), w2)
    /\ st_phase st' = (if b then EXPORT else FIX)
    /\ st_phase_retries st' = 0%Z
    /\ st_last_checks st' = get_default (d_checks d) []
    /\ st_iteration st' = (st_iteration st + 1)%Z
    /\ st_code st' = st_code st /\ st_tests st' = st_tests st
    /\ last_checks (snapshot_of spec st')
       = match get_default (d_checks d) [] with
         | [] => None
         | c :: cs => Some (c :: cs)
         end.
Proof.
  intros _ G P T D B.
  pose proof (attempt_dispatch spec st w text w1 a None G P) as A.
  rewrite T in A. change (_dispatch tools config "run_checks" (args a) spec
                            (st_code st) (st_tests st) (st_last_checks st) w1)
    with (run_checks tools spec (st_code st) (st_tests st) (strict config) (args a) w1)
    in A.
  rewrite D in A.
  exists (mkLocals (if b then EXPORT else FIX) (st_iteration st + 1) 0
            (st_code st) (st_tests st) (get_default (d_checks d) [])).
  split.
  - eapply body_of_attempt; [exact A|].
    cbn [apply_outcome]. change ("run_checks" =? "write_code") with false.
    change ("run_checks" =? "write_docs") with false.
    change ("run_checks" =? "write_tests") with false.
    change ("run_checks" =? "run_checks") with true. cbv iota.
    rewrite B. cbn [getitem]. destruct b; reflexivity.
  - cbn. repeat split; reflexivity.
Qed.

(** *** Unknown tools *)

(** C3, as the code has it.  An action that names no recognized tool
    makes [_dispatch] raise a [ValueError], which the loop handles as
    it handles a tool that raised: the diagnostic is the one of a tool
    execution fault, it holds the tool name, the phase is kept and the
    retry counter incremented, or the run fails with the summary of a
    tool execution failure.  The branch written for unknown tools is
    not the one taken. *)
Theorem unknown_tool_is_tool_fault spec st w text w1 a :
  generate llm (the_prompt spec st) w = (Ok text, w1) ->
  safe_parse_action json_loads text = Ok (Some a, None) ->
  recognized (tool_name a) = false ->
  let t := tool_name a in
  let diagnostic := "ToolExecutionError in " ++ t ++ ": ValueError: Unknown tool_name: " ++ t in
  the_body spec st w
  = (Ok (ToolRaised t (mkExn "ValueError" ("Unknown tool_name: " ++ t)),
         retry st [diagnostic]
           ("Tool execution failed after retries." ++ nl ++ diagnostic)), w1)
  /\ apply' st (ToolRaised t (mkExn "ValueError" ("Unknown tool_name: " ++ t)))
     <> apply' st (ToolReturned t empty_dict)
  /\ contains t diagnostic = true.
Proof.
  intros G P R t diagnostic. subst t diagnostic.
  pose proof (attempt_dispatch spec st w text w1 a None G P) as A.
  rewrite (dispatch_unknown _ _ _ _ _ _ _ R) in A.
  generalize dependent (tool_name a). intros t R A.
  split; [|split].
  - eapply body_of_attempt; [exact A | reflexivity].
  - destruct (recognized_false _ R) as (E1 & E2 & E3 & E4 & E5 & E6).
    cbn [apply_outcome]. rewrite E1, E2, E3, E4, E5, E6.
    unfold retry_or_fail.
    destruct (st_phase_retries st + 1 >? max_re)%Z; intros H; injection H as H;
      discriminate H.
  - apply (StrFacts.contains_app t "ToolExecutionError in "
             (": ValueError: Unknown tool_name: " ++ t)).
Qed.

(** *** Parse failures *)





(** *** Terminate *)

(** C5.  In every phase, a parsed [terminate] action ends the run in
    that pass: the result carries the [ok] flag of what [terminate]
    returned, which is true, the text of its summary, which is the
    summary of the arguments or ["Terminated."], and the number of the
    pass. *)
Theorem terminate_ends_run spec st w text w1 a :
  generate llm (the_prompt spec st) w = (Ok text, w1) ->
  safe_parse_action json_loads text = Ok (Some a, None) ->
  tool_name a = "terminate" ->
  exists d r,
    the_body spec st w = (Ok (ToolReturned "terminate" d, Return r), w1)
    /\ d_ok d = Some true
    /\ d_summary d = Some (get (args a) "summary" (PyStr "Terminated."))
    /\ ok r = get_default (d_ok d) false
    /\ summary r = py_str py_repr (get_default (d_summary d) (PyStr EmptyString))
    /\ iterations r = (st_iteration st + 1)%Z
    /\ ((st_iteration st < max_it)%Z ->
        forall fuel,
          finish (the_loop (S fuel) spec st w) = Returned r
          /\ passes (the_loop (S fuel) spec st w) = 1%nat).
Proof.
  intros G P T.
  pose proof (attempt_dispatch spec st w text w1 a None G P) as A.
  rewrite T in A. cbn in A.
  eexists; eexists.
  assert (B : the_body spec st w
              = (Ok (ToolReturned "terminate"
                       (mkToolDict None None (Some true) None None
                          (Some (get (args a) "summary" (PyStr "Terminated.")))),
                     Return (mkAgentResult true
                               (py_str py_repr (get (args a) "summary" (PyStr "Terminated.")))
                               None (st_iteration st + 1))), w1)).
  { eapply body_of_attempt; [exact A | reflexivity]. }
  split; [exact B|]. do 5 (split; [reflexivity|]).
  intros L fuel. cbn [run_loop].
  apply Z.ltb_lt in L. rewrite L, B. split; reflexivity.
Qed.

(** *** Budgets *)


(** *** Faults *)


(** What the parser raises leaves the loop as well. *)
Lemma parser_fault_leaves_loop spec st w0 text w1 e fuel :
  (st_iteration st < max_it)%Z ->
  generate llm (the_prompt spec st) w0 = (Ok text, w1) ->
  safe_parse_action json_loads text = Raise e ->
  the_loop (S fuel) spec st w0 = mkRun [] 1 (Raised e) w1.
Proof.
  intros L G P. cbn [run_loop]. apply Z.ltb_lt in L. rewrite L.
  unfold loop_body, bind. now rewrite (attempt_parse_raises spec st w0 text w1 e G P).
Qed.

End Run.

(** *** Instances *)








Lemma verify_outcome_transition_witness :
  exists st',
    loop_body Ref.json_loads Ref.py_repr FakeLLM FailingTools default_config
      demo_spec evaluate_state 3%nat
    = (Ok (ToolReturned "run_checks" (checks_dict false ["c1"; "c2"]), Continue st'),
       4%nat)
    /\ st_phase st' = FIX
    /\ st_phase_retries st' = 0%Z
    /\ st_last_checks st' = ["c1"; "c2"]
    /\ st_iteration st' = 4%Z
    /\ st_code st' = st_code evaluate_state /\ st_tests st' = st_tests evaluate_state
    /\ last_checks (snapshot_of demo_spec st') = Some ["c1"; "c2"].
Proof.
  apply (verify_outcome_transition Ref.json_loads Ref.py_repr FakeLLM FailingTools
           default_config demo_spec evaluate_state 3%nat
           (action_text "run_checks") 4%nat (mkAction "run_checks" [])
           (checks_dict false ["c1"; "c2"]) 4%nat false);
    vm_compute; reflexivity.
Defined.

Lemma unknown_tool_is_tool_fault_witness :
  loop_body Ref.json_loads Ref.py_repr DeployLLM PassingTools default_config
    demo_spec initial 0%nat
  = (Ok (ToolRaised "deploy" (mkExn "ValueError" "Unknown tool_name: deploy"),
         Continue (mkLocals IMPLEMENT 1 1 EmptyString EmptyString
                     ["ToolExecutionError in deploy: ValueError: Unknown tool_name: deploy"])),
     1%nat).
Proof.
  apply (unknown_tool_is_tool_fault Ref.json_loads Ref.py_repr DeployLLM PassingTools
           default_config demo_spec initial 0%nat (action_text "deploy") 1%nat
           (mkAction "deploy" []));
    vm_compute; reflexivity.
Defined.

(** The diagnostic and the locals after an unknown tool name are, for a
    suitable name, those after [write_code] raising: the two faults
    cannot be told apart from what the loop keeps. *)
Lemma unknown_tool_indistinguishable :
  exists st' e1 e2,
    loop_body Ref.json_loads Ref.py_repr CraftedLLM PassingTools default_config
      demo_spec initial 0%nat
    = (Ok (ToolRaised crafted_name e1, Continue st'), 1%nat)
    /\ loop_body Ref.json_loads Ref.py_repr FakeLLM BoomTools default_config
         demo_spec initial 0%nat
       = (Ok (ToolRaised "write_code" e2, Continue st'), 1%nat)
    /\ recognized crafted_name = false
    /\ recognized "write_code" = true.
Proof. do 3 eexists. vm_compute. repeat split. Qed.

(** Three unknown tool names in a row end the run with the summary of a
    tool execution failure, not with the one written for unknown tools. *)
Lemma unknown_tool_run :
  finish (run Ref.json_loads Ref.py_repr DeployLLM PassingTools default_config
            demo_spec 0%nat)
  = Returned (mkAgentResult false
                ("Tool execution failed after retries." ++ nl
                   ++ "ToolExecutionError in deploy: ValueError: Unknown tool_name: deploy")
                None 3).
Proof. vm_compute. reflexivity. Qed.



Lemma terminate_ends_run_witness :
  exists d r,
    loop_body Ref.json_loads Ref.py_repr QuitLLM PassingTools default_config
      demo_spec fix_state 4%nat
    = (Ok (ToolReturned "terminate" d, Return r), 5%nat)
    /\ ok r = true
    /\ summary r = "giving up"
    /\ iterations r = 5%Z.
Proof.
  destruct (terminate_ends_run Ref.json_loads Ref.py_repr QuitLLM PassingTools
              default_config demo_spec fix_state 4%nat
              ("```action" ++ nl
                 ++ action_json "terminate"
                      ("{" ++ dq ++ "summary" ++ dq ++ ":" ++ dq ++ "giving up" ++ dq ++ "}")
                 ++ nl ++ "```") 5%nat
              (mkAction "terminate" [("summary", PyStr "giving up")]))
    as (d & r & B & Dok & Dsum & Rok & Rsum & Rit & _);
    [vm_compute; reflexivity .. |].
  exists d, r. split; [exact B|].
  rewrite Dok in Rok. rewrite Dsum in Rsum.
  split; [exact Rok|]. split; [exact Rsum | exact Rit].
Defined.





(** A model whose action holds an integer of 4301 digits: the
    [ValueError] of the decoder leaves the parser, the loop and [run]. *)
Example long_int_run :
  finish (run Ref.json_loads Ref.py_repr LongIntLLM PassingTools default_config
            demo_spec 0%nat)
  = Raised (mkExn "ValueError" (Ref.int_limit_message 4301)).
Proof. vm_compute. reflexivity. Qed.

(** The end-to-end test: five passes, success, two files. *)
Example end_to_end :
  finish (run Ref.json_loads Ref.py_repr FakeLLM PassingTools default_config
            demo_spec 0%nat)
  = Returned (mkAgentResult true "Generated code and tests successfully."
                (Some [("module", "generated/f.py"); ("tests", "generated/test_f.py")])
                5).
Proof. vm_compute. reflexivity. Qed.

End AgentSpec.

(* ================================================================== *)
(** ** More on the action parser *)
(* ================================================================== *)

Module ParsingMore.
Import parsing Notions StrFacts RegexFacts Scenarios.

Lemma any_lazy_prefix {A : Type} (k : string -> option A) (u b : string) (r : A) :
  any_lazy k u = Some (b, r) -> exists rest, u = b ++ rest.
Proof.
  revert b; induction u as [|c u IH]; intros b; cbn [any_lazy].
  - destruct (k EmptyString); intros H; [|discriminate].
    injection H as <- _. now exists EmptyString.
  - destruct (k (String c u)).
    + intros H. injection H as <- _. now exists (String c u).
    + destruct (any_lazy k u) as [[b0 r0]|]; [|discriminate].
      intros H. injection H as <- ->.
      destruct (IH b0 eq_refl) as (rest & ->). now exists rest.
Qed.

(** The body captured before the closing fence holds no fence. *)
Lemma lazy_body_no_fence (u b : string) :
  any_lazy fence_close u = Some (b, tt) -> has3 b = false.
Proof.
  revert b; induction u as [|c u IH]; intros b; cbn [any_lazy].
  - destruct (fence_close EmptyString); intros H; [|discriminate].
    now injection H as <-.
  - destruct (fence_close (String c u)) as [[]|] eqn:F.
    + intros H. now injection H as <-.
    + destruct (any_lazy fence_close u) as [[b0 []]|] eqn:A; [|discriminate].
      intros H. injection H as <-.
      rewrite has3_cons, (IH b0 eq_refl), orb_false_r.
      destruct (starts3 (String c b0)) eqn:S3; [|reflexivity].
      destruct (any_lazy_prefix _ _ _ _ A) as (rest & ->).
      apply (starts3_app _ rest) in S3.
      change (String c b0 ++ rest) with (String c (b0 ++ rest)) in S3.
      rewrite fence_close_spec, (starts3_lstrip _ S3), S3 in F. discriminate.
Qed.

Lemma rstrip_prefix (b : string) : exists w, b = rstrip b ++ w.
Proof.
  induction b as [|c b (w & IH)]; [now exists EmptyString|].
  cbn [rstrip]. destruct (rstrip b) as [|d r] eqn:R.
  - destruct (isspace c).
    + now exists (String c b).
    + exists w. cbn [append] in *. now rewrite <- IH.
  - exists w. cbn [append] in *. now rewrite <- IH.
Qed.

Lemma has3_strip (b : string) : has3 b = false -> has3 (strip b) = false.
Proof.
  intros H. unfold strip.
  destruct (has3 (rstrip (lstrip b))) eqn:E; [|reflexivity].
  destruct (rstrip_prefix (lstrip b)) as (w & P).
  apply (has3_app_l _ w) in E. rewrite <- P, has3_lstrip in E. congruence.
Qed.

Lemma search_body_no_fence (t b : string) :
  ACTION_FENCE_search t = Some b -> has3 b = false.
Proof.
  intros H. destruct (search_inv _ _ H) as (pre & x & y & _ & _ & A).
  now apply lazy_body_no_fence in A.
Qed.

(** X1.  A block that [extract_action_block] returns is not empty, has
    no blank at either end and holds no fence of three backticks; the
    text it came from holds a fenced action block. *)
Theorem extracted_block_shape (text body : string) :
  extract_action_block text = Ok body ->
  body <> EmptyString
  /\ strip body = body
  /\ has3 body = false
  /\ has_action_fence text.
Proof.
  unfold extract_action_block.
  destruct (negb (truthy_str (strip text))); [discriminate|].
  destruct (ACTION_FENCE_search text) as [b|] eqn:S; [|discriminate].
  destruct (negb (truthy_str b) || negb (truthy_str (strip b))) eqn:E; [discriminate|].
  intros H. injection H as <-.
  apply orb_false_iff in E as [_ E].
  split; [|split; [|split]].
  - intros Z. rewrite Z in E. discriminate.
  - apply strip_idem.
  - apply has3_strip. now apply (search_body_no_fence text).
  - now apply (search_fence text b).
Qed.

Lemma extracted_block_shape_witness :
  strip (action_json "write_code" ("{" ++ dq ++ "x" ++ dq ++ ":1}"))
  = action_json "write_code" ("{" ++ dq ++ "x" ++ dq ++ ":1}")
  /\ has_action_fence (first_part ++ later_part).
Proof.
  destruct (extracted_block_shape (first_part ++ later_part)
              (action_json "write_code" ("{" ++ dq ++ "x" ++ dq ++ ":1}")))
    as (_ & S & _ & F); [vm_compute; reflexivity|].
  split; [exact S | exact F].
Defined.

Section WithJson.
Variable json_loads : string -> JsonOutcome.

Lemma validate_inv (obj : list (string * PyVal)) (a : Action) :
  validate_action_obj obj = Ok a ->
  exists name,
    lookup "tool_name" obj = Some (PyStr name)
    /\ strip name <> EmptyString
    /\ tool_name a = strip name
    /\ (((lookup "args" obj = None \/ lookup "args" obj = Some PyNone) /\ args a = [])
        \/ lookup "args" obj = Some (PyDict (args a))).
Proof.
  unfold validate_action_obj, get.
  destruct (lookup "tool_name" obj) as [[| | |name| |]|]; try discriminate.
  destruct (strip name) as [|c n] eqn:Sn; [discriminate|]. cbn [truthy_str negb].
  destruct (lookup "args" obj) as [[| | | | |d]|]; try discriminate;
    intros H; injection H as <-; exists name; rewrite Sn; cbn;
    (split; [reflexivity|]); (split; [discriminate|]); (split; [reflexivity|]); auto.
Qed.

Lemma safe_parse_inv (text : string) (a : Action) (x : option string) :
  safe_parse_action json_loads text = Ok (Some a, x) ->
  exists body obj,
    extract_action_block text = Ok body
    /\ json_loads body = Decoded (PyDict obj)
    /\ validate_action_obj obj = Ok a.
Proof.
  unfold safe_parse_action, parse_action, parse_action_json.
  destruct (extract_action_block text) as [body|e] eqn:X.
  - destruct (json_loads body) as [[| | | | |obj]|msg|msg|msg] eqn:J;
      try (cbn; intros H; discriminate H).
    destruct (validate_action_obj obj) as [a'|e] eqn:V.
    + intros H. injection H as <- _. now exists body, obj.
    + destruct (is_ActionParseError e); intros H; discriminate H.
  - destruct (is_ActionParseError e); intros H; discriminate H.
Qed.
End WithJson.

(** X2.  An action that [safe_parse_action] returns names a tool that
    is not empty and has no blank at either end. *)
Theorem parsed_tool_name_trimmed (json_loads : string -> JsonOutcome)
    (text : string) (a : Action) (x : option string) :
  safe_parse_action json_loads text = Ok (Some a, x) ->
  tool_name a <> EmptyString
  /\ strip (tool_name a) = tool_name a
  /\ every isspace (tool_name a) = false.
Proof.
  intros H. destruct (safe_parse_inv _ _ _ _ H) as (body & obj & _ & _ & V).
  destruct (validate_inv _ _ V) as (name & _ & N & T & _).
  rewrite T. split; [exact N|]. split; [apply strip_idem|].
  destruct (every isspace (strip name)) eqn:E; [|reflexivity].
  apply strip_empty in E. rewrite strip_idem in E. congruence.
Qed.

Lemma parsed_tool_name_trimmed_witness :
  strip "write_code" = "write_code".
Proof.
  apply (parsed_tool_name_trimmed Ref.json_loads (first_part ++ later_part)
           (mkAction "write_code" [("x", PyInt 1)]) None).
  vm_compute. reflexivity.
Defined.

(** X3.  [validate_action_obj] accepts an object exactly when its
    [tool_name] is a string that is not blank and its [args] is absent,
    null or an object; the action then carries the name stripped, and the
    empty mapping for absent or null [args]. *)
Theorem validate_action_obj_accepts (obj : list (string * PyVal)) (a : Action) :
  validate_action_obj obj = Ok a
  <-> exists name,
      lookup "tool_name" obj = Some (PyStr name)
      /\ strip name <> EmptyString
      /\ tool_name a = strip name
      /\ (((lookup "args" obj = None \/ lookup "args" obj = Some PyNone) /\ args a = [])
          \/ lookup "args" obj = Some (PyDict (args a))).
Proof.
  split; [apply validate_inv|].
  intros (name & T & N & Ta & A). destruct a as [t ar]. cbn in Ta, A. subst t.
  unfold validate_action_obj, get. rewrite T.
  destruct (strip name) eqn:Sn; [congruence|]. cbn [truthy_str negb].
  destruct A as [[[A|A] ->]| ->]; rewrite ?A; reflexivity.
Qed.

Lemma parse_failure_cases_aux (json_loads : string -> JsonOutcome) (text : string)
    (e : Exn) :
  parse_action json_loads text = Raise e ->
  is_ActionParseError e = true ->
  In (exn_msg e) fixed_parse_failures
  \/ exists body err,
      extract_action_block text = Ok body
      /\ json_loads body = JSONDecodeError err
      /\ exn_msg e = "Invalid JSON inside action block: " ++ err.
Proof.
  unfold parse_action, extract_action_block, fixed_parse_failures.
  destruct (negb (truthy_str (strip text))).
  { intros H _. injection H as <-. left. cbn. auto. }
  destruct (ACTION_FENCE_search text) as [b|].
  2: { intros H _. injection H as <-. left. cbn. auto. }
  destruct (negb (truthy_str b) || negb (truthy_str (strip b))).
  { intros H _. injection H as <-. left. cbn. auto. }
  unfold parse_action_json.
  destruct (json_loads (strip b)) as [[| | | | |obj]|err|err|err] eqn:J;
    try solve [intros H _; injection H as <-; left; cbn; auto 10].
  - unfold validate_action_obj.
    destruct (get obj "tool_name" PyNone) as [| | |name| |];
      try solve [intros H _; injection H as <-; left; cbn; auto 10].
    destruct (negb (truthy_str (strip name)));
      [intros H _; injection H as <-; left; cbn; auto 10|].
    destruct (get obj "args" PyNone);
      intros H _; try discriminate H; injection H as <-; left; cbn; auto 10.
  - intros H _. injection H as <-. right. exists (strip b), err. auto.
  - intros H A. injection H as <-. discriminate A.
  - intros H A. injection H as <-. discriminate A.
Qed.

(** X4.  The message of a failed parse is one of six fixed messages, or
    the decoder's own message behind the words
    ["Invalid JSON inside action block: "]. *)
Theorem parse_failure_messages (json_loads : string -> JsonOutcome)
    (text msg : string) (x : option Action) :
  safe_parse_action json_loads text = Ok (x, Some msg) ->
  x = None
  /\ (In msg fixed_parse_failures
      \/ exists body err,
          extract_action_block text = Ok body
          /\ json_loads body = JSONDecodeError err
          /\ msg = "Invalid JSON inside action block: " ++ err).
Proof.
  intros H.
  destruct (ParsingSpec.safe_parse_failure_inv json_loads text msg x H)
    as (-> & e & P & A & <-).
  split; [reflexivity|].
  now apply (parse_failure_cases_aux json_loads text).
Qed.

Lemma parse_failure_messages_witness :
  In "No ```action``` block found in model response." fixed_parse_failures
  \/ exists body err,
      extract_action_block "no action here" = Ok body
      /\ Ref.json_loads body = JSONDecodeError err
      /\ "No ```action``` block found in model response."
         = "Invalid JSON inside action block: " ++ err.
Proof.
  apply (parse_failure_messages Ref.json_loads "no action here"
           "No ```action``` block found in model response." None).
  vm_compute. reflexivity.
Defined.

End ParsingMore.

(* ================================================================== *)
(** ** More on the prompt builder *)
(* ================================================================== *)

Module PromptMore.
Import prompts Notions StrFacts Scenarios.

Lemma take_length (n : nat) (s : string) :
  String.length (take n s) = Nat.min n (String.length s).
Proof.
  unfold take. revert s; induction n as [|n IH]; intros [|c s]; cbn; auto.
Qed.

Lemma take_prefix (n : nat) (s : string) : exists rest, s = take n s ++ rest.
Proof.
  unfold take. revert s; induction n as [|n IH]; intros [|c s]; cbn.
  - now exists EmptyString.
  - now exists (String c s).
  - now exists EmptyString.
  - destruct (IH s) as (rest & E). exists rest. now rewrite <- E.
Qed.

Lemma truncation (r : string) (n : nat) :
  (3 <= n)%nat -> (n < String.length r)%nat ->
  String.length (take (n - 3) r ++ "...") = n.
Proof. intros H L. rewrite length_app, take_length. cbn. lia. Qed.

(** X5.  For a ceiling of at least 3, the compact rendering of a
    specification is the rendering itself when it fits, and otherwise its
    first [ceiling - 3] characters followed by three dots, exactly
    [ceiling] characters long; it never exceeds the ceiling.  This holds
    for [_compact_spec] of the prompt builder and [_render_spec_compact]
    of the tools alike. *)
Theorem compact_rendering_bounded (py_repr : PyVal -> string) (spec : PyVal)
    (ceiling : nat) :
  (3 <= ceiling)%nat ->
  let r := py_repr spec in
  let c := _compact_spec py_repr spec ceiling in
  (String.length c <= ceiling)%nat
  /\ ((String.length r <= ceiling)%nat -> c = r)
  /\ ((ceiling < String.length r)%nat ->
      c = take (ceiling - 3) r ++ "..." /\ String.length c = ceiling)
  /\ actions._render_spec_compact py_repr spec ceiling = c.
Proof.
  intros H r c. subst r c. unfold _compact_spec, actions._render_spec_compact.
  destruct (Nat.ltb_spec ceiling (String.length (py_repr spec))) as [L|L];
    destruct (Nat.leb_spec (String.length (py_repr spec)) ceiling) as [L'|L'];
    try lia.
  - rewrite (truncation _ _ H L). repeat split; try lia; reflexivity.
  - repeat split; try lia; reflexivity.
Qed.

Lemma compact_rendering_bounded_witness :
  _compact_spec Ref.py_repr demo_spec 12 = "{'id': 'f..."
  /\ String.length (_compact_spec Ref.py_repr demo_spec 12) = 12%nat.
Proof.
  destruct (compact_rendering_bounded Ref.py_repr demo_spec 12 ltac:(lia))
    as (_ & _ & T & _).
  apply T. vm_compute. lia.
Defined.

Lemma join_cons2 (sep x y : string) (l : list string) :
  join sep (x :: y :: l) = x ++ sep ++ join sep (y :: l).
Proof. reflexivity. Qed.

Lemma join_snoc2 (sep x y : string) (l : list string) :
  l <> [] -> join sep (l ++ [x; y])%list = join sep l ++ sep ++ x ++ sep ++ y.
Proof.
  induction l as [|a l IH]; intros N; [congruence|].
  destruct l as [|b l].
  - reflexivity.
  - change ((a :: b :: l) ++ [x; y])%list with (a :: (b :: l) ++ [x; y])%list.
    change ((b :: l) ++ [x; y])%list with (b :: (l ++ [x; y]))%list.
    rewrite join_cons2.
    change (b :: (l ++ [x; y]))%list with ((b :: l) ++ [x; y])%list.
    rewrite IH by discriminate. rewrite join_cons2.
    now rewrite !app_assoc.
Qed.

(** The lines of a prompt between the counters and the closing
    separator. *)
Lemma prompt_lines (py_repr : PyVal -> string) (s : MemorySnapshot) :
  exists middle : list string,
    middle <> []
    /\ build_prompt py_repr s
       = join nl (AGENT_RULES
                    :: (nl ++ "---" ++ nl)
                    :: ("PHASE: " ++ value (phase s))
                    :: ("ITERATION: " ++ str_of_int (iteration s))
                    :: ("PHASE_RETRIES: " ++ str_of_int (phase_retries s))
                    :: (middle ++ [(nl ++ "---" ++ nl)%string; _phase_instruction s])%list).
Proof.
  exists (List.app
            [nl ++ "SPEC:" ++ nl ++ _compact_spec py_repr (spec s) 4000]
            (List.app
               (if truthy_str (strip (code s))
                then [nl ++ "CURRENT_CODE:" ++ nl ++ code s] else [])
               (List.app
                  (if truthy_str (strip (tests s))
                   then [nl ++ "CURRENT_TESTS:" ++ nl ++ tests s] else [])
                  (match last_checks s with
                   | Some (c :: cs) =>
                       [nl ++ "LAST_CHECKS:" ++ nl
                           ++ join nl (map (fun c => "- " ++ c) (firstn 10 (c :: cs)))]
                   | _ => []
                   end)))).
  split; [discriminate|].
  unfold build_prompt, push.
  destruct (truthy_str (strip (code s))), (truthy_str (strip (tests s))),
    (last_checks s) as [[|c cs]|];
    apply f_equal; reflexivity.
Qed.

Lemma prompt_head_lines (py_repr : PyVal -> string) (s : MemorySnapshot) :
  exists middle,
    build_prompt py_repr s
    = prompt_head
        ++ "PHASE: " ++ value (phase s) ++ nl
        ++ "ITERATION: " ++ str_of_int (iteration s) ++ nl
        ++ "PHASE_RETRIES: " ++ str_of_int (phase_retries s) ++ nl
        ++ middle ++ nl ++ nl ++ "---" ++ nl ++ nl ++ _phase_instruction s.
Proof.
  destruct (prompt_lines py_repr s) as (middle & N & E).
  exists (join nl middle). rewrite E.
  destruct middle as [|m0 middle]; [congruence|].
  change ((m0 :: middle) ++ [(nl ++ "---" ++ nl)%string; _phase_instruction s])%list
    with (m0 :: (middle ++ [(nl ++ "---" ++ nl)%string; _phase_instruction s]))%list.
  rewrite !join_cons2.
  change (m0 :: (middle ++ [(nl ++ "---" ++ nl)%string; _phase_instruction s]))%list
    with ((m0 :: middle) ++ [(nl ++ "---" ++ nl)%string; _phase_instruction s])%list.
  rewrite join_snoc2 by discriminate.
  unfold prompt_head. now rewrite !app_assoc.
Qed.

(** X6.  Every prompt starts with the rules and a separator, then shows
    the phase, the iteration and the retry counter on three lines, and
    ends with a separator and the instruction of the phase, which names
    exactly the tool expected in that phase. *)
Theorem prompt_layout (py_repr : PyVal -> string) (s : MemorySnapshot) :
  (exists middle,
      build_prompt py_repr s
      = prompt_head
          ++ "PHASE: " ++ value (phase s) ++ nl
          ++ "ITERATION: " ++ str_of_int (iteration s) ++ nl
          ++ "PHASE_RETRIES: " ++ str_of_int (phase_retries s) ++ nl
          ++ middle ++ nl ++ nl ++ "---" ++ nl ++ nl ++ _phase_instruction s)
  /\ contains ("- tool_name: " ++ dq ++ expected_tool (phase s) ++ dq ++ nl)
       (_phase_instruction s) = true
  /\ contains ("PHASE: " ++ value (phase s) ++ nl) (build_prompt py_repr s) = true.
Proof.
  pose proof (prompt_head_lines py_repr s) as L.
  split; [exact L|]. split.
  - unfold _phase_instruction. destruct (phase s); reflexivity.
  - destruct L as (m & ->).
    match goal with
    | |- contains ?t (prompt_head ++ "PHASE: " ++ value (phase s) ++ nl ++ ?q) = true =>
        replace (prompt_head ++ "PHASE: " ++ value (phase s) ++ nl ++ q)
          with (prompt_head ++ t ++ q) by (now rewrite !app_assoc);
          apply contains_app
    end.
Qed.

(** X7.  Code or tests made of blanks only are left out of the prompt
    as if they were empty. *)
Theorem blank_artifacts_left_out (py_repr : PyVal -> string) (s : MemorySnapshot) :
  build_prompt py_repr s
  = build_prompt py_repr
      (with_artifacts s
         (if every isspace (code s) then EmptyString else code s)
         (if every isspace (tests s) then EmptyString else tests s)).
Proof.
  unfold build_prompt, with_artifacts, _phase_instruction, push.
  cbn [phase spec code tests last_checks iteration phase_retries].
  assert (T : forall x, truthy_str (strip x) = negb (every isspace x)).
  { intros x. destruct (every isspace x) eqn:E.
    - apply RegexFacts.strip_empty in E. now rewrite E.
    - destruct (strip x) eqn:S; [|reflexivity].
      apply RegexFacts.strip_empty in S. congruence. }
  rewrite (T (code s)), (T (tests s)).
  destruct (every isspace (code s)) eqn:Ec, (every isspace (tests s)) eqn:Et;
    cbn [negb]; rewrite ?T, ?Ec, ?Et; reflexivity.
Qed.

End PromptMore.

(* ================================================================== *)
(** ** More on the orchestrator loop *)
(* ================================================================== *)

Module AgentMore.
Import parsing prompts agent Notions Scenarios.

Section Run.
Context {W : Type}.
Variable json_loads : string -> JsonOutcome.
Variable py_repr : PyVal -> string.
Variable llm : LLM W.
Variable tools : Tools W.
Variable config : AgentConfig.

Local Notation "'the_prompt' spec st" :=
  (build_prompt py_repr (snapshot_of spec st))
    (at level 10, spec at level 9, st at level 9).
Local Notation "'the_body'" := (loop_body json_loads py_repr llm tools config).
Local Notation "'the_loop'" := (run_loop json_loads py_repr llm tools config).
Local Notation "'the_run'" := (run json_loads py_repr llm tools config).
Local Notation "'the_reach'" := (reaches json_loads py_repr llm tools config).
Local Notation "'apply'' st o" := (apply_outcome py_repr config st o)
    (at level 10, st at level 9, o at level 9).
Local Notation "'max_it'" := (max_iterations config).
Local Notation "'max_re'" := (max_phase_retries config).

Lemma retry_continue st checks failure st' :
  retry_or_fail config st checks failure = Continue st' ->
  st' = mkLocals (st_phase st) (st_iteration st + 1) (st_phase_retries st + 1)
          (st_code st) (st_tests st) checks
  /\ (st_phase_retries st + 1 <= max_re)%Z.
Proof.
  destruct (AgentSpec.retry_cases config st checks failure) as [[L ->]|[L ->]];
    intros H; [injection H as <-; auto | discriminate].
Qed.

(** X8.  A pass after which the loop goes on adds 1 to the iteration
    counter and is of one of two kinds.  After a fault the phase, the code
    and the tests are kept, the retry counter grows by 1 within its
    budget, and one diagnostic replaces the list of checks.  After a tool
    that returned the retry counter is 0, the phase is never Implement,
    the code changes only by [write_code] or [write_docs] and the tests
    only by [write_tests]. *)
Theorem continuing_pass st o st' :
  apply' st o = Ok (Continue st') ->
  st_iteration st' = (st_iteration st + 1)%Z
  /\ ((fault_pass o = true
       /\ st_phase st' = st_phase st
       /\ st_code st' = st_code st /\ st_tests st' = st_tests st
       /\ st_phase_retries st' = (st_phase_retries st + 1)%Z
       /\ (st_phase_retries st' <= max_re)%Z
       /\ exists diagnostic, st_last_checks st' = [diagnostic])
      \/ (exists t d,
            o = ToolReturned t d /\ recognized t = true
            /\ st_phase_retries st' = 0%Z
            /\ st_phase st' <> IMPLEMENT
            /\ (st_code st' <> st_code st -> t = "write_code" \/ t = "write_docs")
            /\ (st_tests st' <> st_tests st -> t = "write_tests"))).
Proof.
  destruct o as [err|t e|t d]; cbn [apply_outcome].
  - intros H. injection H as H. apply retry_continue in H as [-> L].
    cbn. split; [reflexivity|]. left. repeat split; try assumption. eauto.
  - intros H. injection H as H. apply retry_continue in H as [-> L].
    cbn. split; [reflexivity|]. left. repeat split; try assumption. eauto.
  - cbn [fault_pass]. unfold recognized.
    destruct (t =? "write_code") eqn:E1.
    { destruct (d_code d); cbn [getitem]; [|discriminate].
      intros H. injection H as <-. cbn. split; [reflexivity|]. right.
      apply String.eqb_eq in E1. subst t. eexists; exists d.
      repeat split; auto; try discriminate; intros N; congruence. }
    destruct (t =? "write_docs") eqn:E2.
    { destruct (d_code d); cbn [getitem]; [|discriminate].
      intros H. injection H as <-. cbn. split; [reflexivity|]. right.
      apply String.eqb_eq in E2. subst t. eexists; exists d.
      repeat split; auto; try discriminate; intros N; congruence. }
    destruct (t =? "write_tests") eqn:E3.
    { destruct (d_tests d); cbn [getitem]; [|discriminate].
      intros H. injection H as <-. cbn. split; [reflexivity|]. right.
      apply String.eqb_eq in E3. subst t. eexists; exists d.
      repeat split; auto; try discriminate; intros N; congruence. }
    destruct (t =? "run_checks") eqn:E4.
    { apply String.eqb_eq in E4. subst t.
      destruct (d_ok d) as [[]|]; cbn [getitem]; [| |discriminate];
        intros H; injection H as <-; cbn; (split; [reflexivity|]); right;
        eexists; exists d; repeat split; auto; try discriminate; intros N; congruence. }
    destruct (t =? "save_file") eqn:E5.
    { destruct (d_file_paths d); cbn [getitem]; discriminate. }
    destruct (t =? "terminate") eqn:E6; [discriminate|].
    intros H. injection H as H. apply retry_continue in H as [-> L].
    cbn. split; [reflexivity|]. left. repeat split; try assumption. eauto.
Qed.

(** X9.  What the loop does after a recognized tool returned depends on
    the tool and on what it returned, not on the phase, the retry counter
    or the last checks: no tool is refused for being out of phase.  So a
    [save_file] action whose tool returns its paths ends the run with
    success in that pass, in whatever phase it comes. *)
Theorem transition_ignores_phase spec :
  (forall st1 st2 t d,
      recognized t = true ->
      st_iteration st1 = st_iteration st2 ->
      st_code st1 = st_code st2 -> st_tests st1 = st_tests st2 ->
      apply' st1 (ToolReturned t d) = apply' st2 (ToolReturned t d))
  /\ (forall st w text w1 a d w2 paths,
        generate llm (the_prompt spec st) w = (Ok text, w1) ->
        safe_parse_action json_loads text = Ok (Some a, None) ->
        tool_name a = "save_file" ->
        save_file tools spec (st_code st) (st_tests st) (out_dir config) (args a) w1
        = (Ok d, w2) ->
        d_file_paths d = Some paths ->
        the_body spec st w
        = (Ok (ToolReturned "save_file" d,
               Return (mkAgentResult true "Generated code and tests successfully."
                         (Some paths) (st_iteration st + 1))), w2)).
Proof.
  split.
  - intros st1 st2 t d R I C T. cbn [apply_outcome]. unfold recognized in R.
    rewrite I, C, T.
    destruct (t =? "write_code"); [reflexivity|].
    destruct (t =? "write_docs"); [reflexivity|].
    destruct (t =? "write_tests"); [reflexivity|].
    destruct (t =? "run_checks"); [reflexivity|].
    destruct (t =? "save_file"); [reflexivity|].
    destruct (t =? "terminate"); [reflexivity | discriminate].
  - intros st w text w1 a d w2 paths G P T D F.
    pose proof (AgentSpec.attempt_dispatch json_loads py_repr llm tools config
                  spec st w text w1 a None G P) as A.
    rewrite T in A.
    change (_dispatch tools config "save_file" (args a) spec
              (st_code st) (st_tests st) (st_last_checks st) w1)
      with (save_file tools spec (st_code st) (st_tests st) (out_dir config) (args a) w1)
      in A.
    rewrite D in A.
    eapply AgentSpec.body_of_attempt; [exact A|].
    cbn [apply_outcome].
    change ("save_file" =? "write_code") with false.
    change ("save_file" =? "write_docs") with false.
    change ("save_file" =? "write_tests") with false.
    change ("save_file" =? "run_checks") with false.
    change ("save_file" =? "save_file") with true. cbv iota.
    rewrite F. reflexivity.
Qed.

(** X10.  A tool that returns a dict without the key the loop reads
    makes [run] raise: when [write_code] returns without ["code"], the
    [KeyError] of the lookup is raised outside the guarded dispatch and
    leaves the loop. *)
Theorem missing_key_escapes spec st w text w1 a d w2 fuel :
  (st_iteration st < max_it)%Z ->
  generate llm (the_prompt spec st) w = (Ok text, w1) ->
  safe_parse_action json_loads text = Ok (Some a, None) ->
  tool_name a = "write_code" ->
  write_code tools spec (st_code st) (st_last_checks st) (args a) w1 = (Ok d, w2) ->
  d_code d = None ->
  the_loop (S fuel) spec st w = mkRun [] 1 (Raised (mkExn "KeyError" "'code'")) w2.
Proof.
  intros L G P T D K.
  pose proof (AgentSpec.attempt_dispatch json_loads py_repr llm tools config
                spec st w text w1 a None G P) as A.
  rewrite T in A.
  change (_dispatch tools config "write_code" (args a) spec
            (st_code st) (st_tests st) (st_last_checks st) w1)
    with (write_code tools spec (st_code st) (st_last_checks st) (args a) w1) in A.
  rewrite D in A.
  cbn [run_loop]. apply Z.ltb_lt in L. rewrite L.
  unfold loop_body, bind, lift. rewrite A. cbn [apply_outcome].
  change ("write_code" =? "write_code") with true. cbv iota.
  rewrite K. reflexivity.
Qed.

(** *** A model that follows the instructions *)

Lemma obedient_outcome spec st w :
  obedient json_loads py_repr llm ->
  exists w1,
    (exists e, attempt_action json_loads py_repr llm tools config spec st w
               = (Ok (ToolRaised (expected_tool (st_phase st)) e), w1))
    \/ (exists d a w0,
           _dispatch tools config (expected_tool (st_phase st)) a spec
             (st_code st) (st_tests st) (st_last_checks st) w0 = (Ok d, w1)
           /\ attempt_action json_loads py_repr llm tools config spec st w
              = (Ok (ToolReturned (expected_tool (st_phase st)) d), w1)).
Proof.
  intros O. destruct (O spec st w) as (text & w0 & a & G & P & T).
  pose proof (AgentSpec.attempt_dispatch json_loads py_repr llm tools config
                spec st w text w0 a None G P) as A.
  rewrite T in A.
  destruct (_dispatch tools config (expected_tool (st_phase st)) (args a) spec
              (st_code st) (st_tests st) (st_last_checks st) w0) as [[d|e] w1] eqn:D.
  - exists w1. right. exists d, (args a), w0. auto.
  - exists w1. left. now exists e.
Qed.

Lemma expected_continue st d st' :
  apply' st (ToolReturned (expected_tool (st_phase st)) d) = Ok (Continue st') ->
  (passes_to_export (st_phase st) <= 1 + passes_to_export (st_phase st'))%Z.
Proof.
  destruct (st_phase st) eqn:Ph; cbn [expected_tool apply_outcome];
    repeat match goal with
           | |- context [?x =? ?y] =>
               let b := eval vm_compute in (x =? y) in
               change (x =? y) with b; cbv iota
           end.
  all: try (destruct (d_code d); cbn [getitem]; [|discriminate];
            intros H; injection H as <-; cbn; lia).
  - destruct (d_tests d); cbn [getitem]; [|discriminate].
    intros H; injection H as <-; cbn; lia.
  - destruct (d_ok d) as [[]|]; cbn [getitem]; [| |discriminate];
      intros H; injection H as <-; cbn; lia.
  - destruct (d_file_paths d); cbn [getitem]; discriminate.
Qed.

Lemma expected_return st d r :
  apply' st (ToolReturned (expected_tool (st_phase st)) d) = Ok (Return r) ->
  st_phase st = EXPORT.
Proof.
  destruct (st_phase st) eqn:Ph; cbn [expected_tool apply_outcome];
    repeat match goal with
           | |- context [?x =? ?y] =>
               let b := eval vm_compute in (x =? y) in
               change (x =? y) with b; cbv iota
           end;
    try reflexivity.
  all: try (destruct (d_code d); cbn [getitem]; discriminate).
  - destruct (d_tests d); cbn [getitem]; discriminate.
  - destruct (d_ok d) as [[]|]; cbn [getitem]; discriminate.
Qed.

(** X11.  With a model that follows the instruction of each phase, a
    run can only succeed if the iterations left cover the passes from the
    phase to the export: 5 from Implement or Fix, 4 from Docs, 3 from
    Tests, 2 from Evaluate, 1 from Export.  From Fix in the fifth pass or
    later, a budget of 8 iterations is too small. *)
Theorem success_needs_budget spec fuel st w r :
  obedient json_loads py_repr llm ->
  (Z.to_nat (max_it - st_iteration st) <= fuel)%nat ->
  finish (the_loop fuel spec st w) = Returned r ->
  ok r = true ->
  (st_iteration st + passes_to_export (st_phase st) <= max_it)%Z.
Proof.
  intros O F. revert r. pattern st, w, (the_loop fuel spec st w).
  apply AgentSpec.run_loop_ind; [clear fuel st w F.. | exact F].
  - intros st w _ r H. injection H as <-. discriminate.
  - intros st w e w1 _ _ r H. discriminate.
  - intros st w o r w1 L B r' H K. injection H as <-.
    apply AgentSpec.body_inv in B as [A C].
    destruct (obedient_outcome spec st w O) as (w2 & [(e & E)|(d & a & w0 & _ & E)]);
      rewrite E in A; injection A as <- <-.
    + cbn [apply_outcome] in C. injection C as C.
      unfold retry_or_fail in C.
      destruct (st_phase_retries st + 1 >? max_re)%Z; [|discriminate].
      injection C as <-. discriminate.
    + apply expected_return in C. rewrite C. cbn. lia.
  - intros st w o st' w1 R L B IH r H K.
    specialize (IH r H K).
    pose proof (AgentSpec.body_continue _ _ _ _ _ _ _ _ _ _ _ B) as I.
    apply AgentSpec.body_inv in B as [A C].
    destruct (obedient_outcome spec st w O) as (w2 & [(e & E)|(d & a & w0 & _ & E)]);
      rewrite E in A; injection A as <- <-.
    + cbn [apply_outcome] in C. injection C as C.
      apply retry_continue in C as [-> _]. cbn in IH. lia.
    + apply expected_continue in C. lia.
Qed.





End Run.

Lemma continuing_pass_witness :
  st_iteration
    (mkLocals FIX 4 0 "def f(): return 1" "def test_f(): assert f() == 1" ["c1"; "c2"])
  = (st_iteration evaluate_state + 1)%Z.
Proof.
  apply (continuing_pass Ref.py_repr default_config evaluate_state
           (ToolReturned "run_checks" (checks_dict false ["c1"; "c2"]))).
  reflexivity.
Defined.

Lemma HeaderLLM_obedient : obedient Ref.json_loads Ref.py_repr HeaderLLM.
Proof.
  intros spec st w.
  destruct (PromptMore.prompt_head_lines Ref.py_repr (snapshot_of spec st))
    as (middle & E).
  exists (action_text (expected_tool (st_phase st))), (S w),
    (mkAction (expected_tool (st_phase st)) []).
  split; [|split].
  - rewrite E. unfold HeaderLLM, generate, answer. do 2 f_equal.
    fold prompt_head.
    assert (D : forall x y, drop (String.length x) (x ++ y) = y).
    { induction x as [|c x IH]; intros y; [now destruct y | apply IH]. }
    rewrite D. cbn [snapshot_of phase].
    destruct (st_phase st); reflexivity.
  - destruct (st_phase st); vm_compute; reflexivity.
  - reflexivity.
Qed.


Lemma transition_ignores_phase_witness :
  loop_body Ref.json_loads Ref.py_repr EagerLLM PassingTools default_config
    demo_spec initial 0%nat
  = (Ok (ToolReturned "save_file"
           (paths_dict [("module", "generated/f.py"); ("tests", "generated/test_f.py")]),
         Return (mkAgentResult true "Generated code and tests successfully."
                   (Some [("module", "generated/f.py"); ("tests", "generated/test_f.py")])
                   1)), 1%nat).
Proof.
  destruct (transition_ignores_phase Ref.json_loads Ref.py_repr EagerLLM PassingTools
              default_config demo_spec) as [_ S].
  apply (S initial 0%nat (action_text "save_file") 1%nat (mkAction "save_file" []));
    vm_compute; reflexivity.
Defined.

Lemma missing_key_escapes_witness :
  run Ref.json_loads Ref.py_repr HeaderLLM KeylessTools default_config demo_spec 0%nat
  = mkRun [] 1 (Raised (mkExn "KeyError" "'code'")) 1%nat.
Proof.
  apply (missing_key_escapes Ref.json_loads Ref.py_repr HeaderLLM KeylessTools
           default_config demo_spec initial 0%nat (action_text "write_code") 1%nat
           (mkAction "write_code" []) empty_dict 1%nat 7%nat);
    vm_compute; reflexivity.
Defined.

Lemma success_needs_budget_witness :
  (0 + passes_to_export IMPLEMENT <= 8)%Z.
Proof.
  apply (success_needs_budget Ref.json_loads Ref.py_repr HeaderLLM PassingTools
           default_config demo_spec 8%nat initial 0%nat
           (mkAgentResult true "Generated code and tests successfully."
              (Some [("module", "generated/f.py"); ("tests", "generated/test_f.py")]) 5)
           HeaderLLM_obedient);
    [cbn; lia | vm_compute; reflexivity | reflexivity].
Defined.


End AgentMore.

(* ================================================================== *)
(** ** More on the tools *)
(* ================================================================== *)

Module ActionsMore.
Import parsing actions Notions StrFacts RegexFacts Scenarios.

(** *** Module names *)

Lemma every_sub_runs (keep : ascii -> bool) (b : bool) (s : string) :
  every is_name_char s = true ->
  every is_name_char (sub_runs keep b s) = true.
Proof.
  revert b; induction s as [|c s IH]; intros b H; [reflexivity|].
  cbn [every] in H. apply andb_true_iff in H as [Hc H]. cbn [sub_runs].
  destruct (keep c); [cbn [every]; now rewrite Hc, IH|].
  destruct b; [now apply IH|]. cbn [every]. now rewrite IH.
Qed.

Lemma every_sub_runs_keep (b : bool) (s : string) :
  every is_name_char (sub_runs is_name_char b s) = true.
Proof.
  revert b; induction s as [|c s IH]; intros b; [reflexivity|]. cbn [sub_runs].
  destruct (is_name_char c) eqn:K; [cbn [every]; now rewrite K, IH|].
  destruct b; [apply IH|]. cbn [every]. now rewrite IH.
Qed.

Lemma every_lstrip_char (p : ascii -> bool) (x : ascii) (s : string) :
  every p s = true -> every p (lstrip_char x s) = true.
Proof.
  induction s as [|c s IH]; intros H; [reflexivity|]. cbn [lstrip_char].
  destruct (Ascii.eqb c x); [|exact H].
  cbn [every] in H. apply andb_true_iff in H as [_ H]. now apply IH.
Qed.

Lemma every_rstrip_char (p : ascii -> bool) (x : ascii) (s : string) :
  every p s = true -> every p (rstrip_char x s) = true.
Proof.
  induction s as [|c s IH]; intros H; [reflexivity|].
  cbn [every] in H. apply andb_true_iff in H as [Hc H]. cbn [rstrip_char].
  specialize (IH H). destruct (rstrip_char x s) as [|d r].
  - destruct (Ascii.eqb c x); [reflexivity|]. cbn [every]. now rewrite Hc.
  - cbn [every] in *. now rewrite Hc, IH.
Qed.

(** X13.  Whatever the name given, [_sanitize_module_name] returns a
    name a module can have: not empty, made of lower-case letters, digits
    and underscores only, and not starting with a digit. *)
Theorem sanitized_name_ok (name : string) :
  module_name_ok (_sanitize_module_name name) = true.
Proof.
  unfold _sanitize_module_name.
  set (n2 := sub_runs is_name_char false (py_lower (strip name))).
  set (n4 := rstrip_char "_" (lstrip_char "_"
                                (sub_runs (fun c => negb (is_char "_" c)) false n2))).
  assert (E : every is_name_char n4 = true).
  { apply every_rstrip_char, every_lstrip_char, every_sub_runs, every_sub_runs_keep. }
  destruct n4 as [|c n4]; [reflexivity|].
  destruct (in_range 48 57 c) eqn:D.
  - cbn [append module_name_ok every] in *. now rewrite E.
  - unfold module_name_ok. now rewrite D, E.
Qed.

(** *** Imports *)

Lemma fold_push_filter (locals allow : list string) (l acc : list string) :
  fold_left
    (fun bad m =>
       let top := top_module m in
       if mem top locals then bad
       else if mem top allow then bad
       else push bad m) l acc
  = (acc ++ filter (fun m => negb (mem (top_module m) locals)
                             && negb (mem (top_module m) allow)) l)%list.
Proof.
  revert acc; induction l as [|m l IH]; intros acc; cbn [fold_left filter].
  - now rewrite List.app_nil_r.
  - rewrite IH. cbv zeta.
    destruct (mem (top_module m) locals); cbn [negb andb]; [reflexivity|].
    destruct (mem (top_module m) allow); cbn [negb]; [reflexivity|].
    unfold push. now rewrite <- List.app_assoc.
Qed.

(** X14.  [_detect_nonstdlib_imports] reports, in the order of the
    text, exactly the imports found whose top-level module is neither a
    local module nor on the list of standard modules: it never reports
    one of those, and drops no other. *)
Theorem nonstdlib_imports_filtered (code : string) (local_modules : list string) :
  _detect_nonstdlib_imports code local_modules
  = filter (fun m => negb (mem (top_module m) local_modules)
                     && negb (mem (top_module m) stdlib_allow))
      (_STD_IMPORT_RE_findall code)
  /\ forall m,
      In m (_detect_nonstdlib_imports code local_modules)
      <-> In m (_STD_IMPORT_RE_findall code)
          /\ mem (top_module m) local_modules = false
          /\ mem (top_module m) stdlib_allow = false.
Proof.
  assert (E : _detect_nonstdlib_imports code local_modules
              = filter (fun m => negb (mem (top_module m) local_modules)
                                 && negb (mem (top_module m) stdlib_allow))
                  (_STD_IMPORT_RE_findall code)).
  { unfold _detect_nonstdlib_imports. now rewrite fold_push_filter. }
  split; [exact E|]. intros m. rewrite E, filter_In.
  rewrite andb_true_iff, !negb_true_iff. tauto.
Qed.

(** *** Fenced code *)

Lemma lit3_starts (A : Type) (k : string -> option A) (s : string) (r : A) :
  lit_ci "```" k s = Some r -> starts3 s = true /\ exists y, k y = Some r.
Proof.
  destruct s as [|a [|b [|c s]]]; cbn [lit_ci]; try discriminate;
    rewrite ?eqb_lower_backtick.
  - destruct (is_backtick a); discriminate.
  - destruct (is_backtick a), (is_backtick b); discriminate.
  - unfold starts3.
    destruct (is_backtick a), (is_backtick b), (is_backtick c); try discriminate.
    intros H. split; [reflexivity | now exists s].
Qed.

Lemma lit_ci_cont (A : Type) (p : string) (k : string -> option A) (s : string) (r : A) :
  lit_ci p k s = Some r -> exists y, k y = Some r.
Proof.
  revert s; induction p as [|a p IH]; intros s; cbn [lit_ci].
  - intros H. now exists s.
  - destruct s as [|c s]; [discriminate|].
    destruct (Ascii.eqb (lower a) (lower c)); [apply IH | discriminate].
Qed.

Lemma code_match_inv (s b : string) :
  CODE_FENCE_match s = Some b ->
  starts3 s = true /\ exists u, any_lazy fence_close u = Some (b, tt).
Proof.
  unfold CODE_FENCE_match.
  destruct (lit_ci "```" _ s) as [[b0 []]|] eqn:L; [|discriminate].
  intros H. injection H as <-.
  apply lit3_starts in L as [S (y & O)]. split; [exact S|].
  unfold opt_ci in O.
  destruct (lit_ci "python" _ y) as [r|] eqn:P.
  - injection O as ->. apply lit_ci_cont in P as (y' & P).
    rewrite ws_any_lazy in P. now exists (lstrip y').
  - rewrite ws_any_lazy in O. now exists (lstrip y).
Qed.

Lemma code_search_inv (t b : string) :
  CODE_FENCE_search t = Some b ->
  has3 t = true /\ has3 b = false.
Proof.
  induction t as [|c t IH]; cbn [CODE_FENCE_search].
  - destruct (CODE_FENCE_match EmptyString) eqn:M; [|discriminate].
    apply code_match_inv in M as [S _]. discriminate.
  - destruct (CODE_FENCE_match (String c t)) as [b0|] eqn:M.
    + intros H. injection H as <-. apply code_match_inv in M as [S (u & A)].
      split; [rewrite has3_cons, S; reflexivity|].
      now apply ParsingMore.lazy_body_no_fence in A.
    + intros H. destruct (IH H) as [H3 Hb]. split; [|exact Hb].
      rewrite has3_cons, H3. apply orb_true_r.
Qed.

Lemma code_search_none (t : string) : has3 t = false -> CODE_FENCE_search t = None.
Proof.
  intros H. destruct (CODE_FENCE_search t) as [b|] eqn:S; [|reflexivity].
  apply code_search_inv in S as [S _]. congruence.
Qed.

(** X15.  What [_strip_code_fences] returns has no blank at either end;
    it is the text stripped when the text holds no fence of three
    backticks; when a fenced block is found, it is its body stripped,
    which holds no fence; and stripping fences twice changes nothing
    more. *)
Theorem strip_code_fences_shape (text : string) :
  strip (_strip_code_fences text) = _strip_code_fences text
  /\ (has3 text = false -> _strip_code_fences text = strip text)
  /\ (forall b, CODE_FENCE_search (strip text) = Some b ->
                _strip_code_fences text = strip b
                /\ has3 (_strip_code_fences text) = false)
  /\ _strip_code_fences (_strip_code_fences text) = _strip_code_fences text.
Proof.
  unfold _strip_code_fences at 1 2 3 4 5.
  destruct (CODE_FENCE_search (strip text)) as [b|] eqn:S.
  - pose proof (code_search_inv _ _ S) as [H3 Hb].
    pose proof (ParsingMore.has3_strip _ Hb) as Hs.
    split; [apply strip_idem|]. split; [|split].
    + intros N. apply ParsingMore.has3_strip in N. congruence.
    + intros b' E. injection E as <-. auto.
    + unfold _strip_code_fences. rewrite S, strip_idem.
      now rewrite (code_search_none _ Hs).
  - split; [apply strip_idem|]. split; [reflexivity|]. split; [discriminate|].
    unfold _strip_code_fences. rewrite S, strip_idem. now rewrite S.
Qed.

Lemma strip_code_fences_shape_witness :
  _strip_code_fences ("```python" ++ nl ++ "def foo(): return 1" ++ nl ++ "```")
  = "def foo(): return 1".
Proof.
  destruct (strip_code_fences_shape
              ("```python" ++ nl ++ "def foo(): return 1" ++ nl ++ "```"))
    as (_ & _ & F & _).
  destruct (F "def foo(): return 1" ltac:(vm_compute; reflexivity)) as [E _].
  rewrite E. reflexivity.
Defined.

(** *** A function entry that is no dict *)

Section WithOS.
Context {W : Type}.
Variable py_repr : PyVal -> string.
Variable os : OS W.
Variable mkdir : string -> M W unit.
Variable llm : agent.LLM W.

Lemma name_of_bad_function (d : list (string * PyVal)) (v : PyVal) :
  lookup "function" d = Some v ->
  (forall fd, v <> PyDict fd) ->
  _spec_get_function_name py_repr (PyDict d)
  = Raise (mkExn "AttributeError"
             ("'" ++ type_name v ++ "' object has no attribute 'get'")).
Proof.
  intros L N. unfold _spec_get_function_name. cbn [dict_get]. unfold get.
  rewrite L. destruct v; try reflexivity. now destruct (N items).
Qed.

(** X16.  When the ["function"] entry of the specification is present
    but is no dict, a null included, reading the function name raises an
    [AttributeError]: [run_checks], [write_tests] and [save_file] raise it
    before doing anything else, and leave the world as it was. *)
Theorem function_entry_must_be_dict (d : list (string * PyVal)) (v : PyVal)
    (code tests out : string) (strict : bool) (user_args : list (string * PyVal))
    (w : W) :
  lookup "function" d = Some v ->
  (forall fd, v <> PyDict fd) ->
  let e := mkExn "AttributeError"
             ("'" ++ type_name v ++ "' object has no attribute 'get'") in
  run_checks py_repr os (PyDict d) code tests strict user_args w = (Raise e, w)
  /\ write_tests py_repr llm (PyDict d) code user_args w = (Raise e, w)
  /\ save_file py_repr os mkdir (PyDict d) code tests out user_args w = (Raise e, w).
Proof.
  intros L N e.
  pose proof (name_of_bad_function d v L N) as E. fold e in E.
  split; [|split].
  - unfold run_checks, run_checks_body, bind, lift. now rewrite E.
  - unfold write_tests, bind, lift. now rewrite E.
  - unfold save_file, bind, lift. now rewrite E.
Qed.
End WithOS.

Lemma function_entry_must_be_dict_witness :
  run_checks Ref.py_repr StubOS null_function_spec "def f(): return 1"
    "def test_f(): pass" true [] 0%nat
  = (Raise (mkExn "AttributeError" "'NoneType' object has no attribute 'get'"), 0%nat).
Proof.
  apply (function_entry_must_be_dict Ref.py_repr StubOS no_mkdir CoderLLM
           [("id", PyStr "x"); ("function", PyNone); ("quality", PyNone)] PyNone
           "def f(): return 1" "def test_f(): pass" "generated" true [] 0%nat).
  - reflexivity.
  - intros fd. discriminate.
Defined.

End ActionsMore.

(* ================================================================== *)
(** ** More on [run_checks] *)
(* ================================================================== *)

Module ChecksMore.
Import parsing actions Notions StrFacts Scenarios.

Section WithOS.
Context {W : Type}.
Variable py_repr : PyVal -> string.
Variable os : OS W.

Local Open Scope py_scope.

(** *** Computations that only append *)

Lemma only_weaken {A : Type} (k k' : nat) (m : M (@St W) A) :
  (k <= k')%nat -> appends_at_most k m -> appends_at_most k' m.
Proof.
  intros L H s r s' E. destruct (H s r s' E) as (added & -> & N).
  exists added. split; [reflexivity | lia].
Qed.

Lemma only_ret {A : Type} (a : A) : appends_at_most 0 (ret a : M (@St W) A).
Proof.
  intros s r s' E. injection E as <- <-. exists []. now rewrite List.app_nil_r.
Qed.

Lemma only_lift {A : Type} (x : Result A) : appends_at_most 0 (lift x : M (@St W) A).
Proof.
  intros s r s' E. unfold lift in E. destruct x; injection E as <- <-;
    exists []; now rewrite List.app_nil_r.
Qed.

Lemma only_sys {A : Type} (m : M W A) : appends_at_most 0 (sys m).
Proof.
  intros s r s' E. unfold sys in E. destruct (m (fst s)) as [x w].
  injection E as <- <-. exists []. cbn. now rewrite List.app_nil_r.
Qed.

Lemma only_append (c : string) : appends_at_most 1 (@append_check W c).
Proof.
  intros s r s' E. injection E as <- <-. exists [c]. split; [reflexivity | cbn; lia].
Qed.

Lemma only_when (k : nat) (b : bool) (m : M (@St W) unit) :
  appends_at_most k m -> appends_at_most k (when b m).
Proof.
  intros H. destruct b; [exact H|]. apply (only_weaken 0); [lia | apply only_ret].
Qed.

Lemma only_bind {A B : Type} (k1 k2 : nat) (m : M (@St W) A) (f : A -> M (@St W) B) :
  appends_at_most k1 m -> (forall a, appends_at_most k2 (f a)) ->
  appends_at_most (k1 + k2) (bind m f).
Proof.
  intros Hm Hf s r s' E. unfold bind in E.
  destruct (m s) as [[a|e] s1] eqn:M1.
  - destruct (Hm s _ s1 M1) as (a1 & E1 & N1).
    destruct (Hf a s1 r s' E) as (a2 & E2 & N2).
    exists (a1 ++ a2)%list. rewrite E2, E1, List.app_assoc, List.length_app.
    split; [reflexivity | lia].
  - injection E as <- <-. destruct (Hm s _ s1 M1) as (a1 & E1 & N1).
    exists a1. split; [exact E1 | lia].
Qed.

Lemma only_try {A : Type} (k1 k2 : nat) (m : M (@St W) A) (h : Exn -> M (@St W) A) :
  appends_at_most k1 m -> (forall e, appends_at_most k2 (h e)) ->
  appends_at_most (k1 + k2) (try_except m h).
Proof.
  intros Hm Hh s r s' E. unfold try_except in E.
  destruct (m s) as [[a|e] s1] eqn:M1.
  - injection E as <- <-. destruct (Hm s _ s1 M1) as (a1 & E1 & N1).
    exists a1. split; [exact E1 | lia].
  - destruct (Hm s _ s1 M1) as (a1 & E1 & N1).
    destruct (Hh e s1 r s' E) as (a2 & E2 & N2).
    exists (a1 ++ a2)%list. rewrite E2, E1, List.app_assoc, List.length_app.
    split; [reflexivity | lia].
Qed.

Lemma only_with {A : Type} (k : nat) (body : string -> M (@St W) A) :
  (forall td, appends_at_most k (body td)) ->
  appends_at_most k (with_TemporaryDirectory os body).
Proof.
  intros Hb s r s' E. unfold with_TemporaryDirectory, bind in E.
  destruct (sys (tempdir_enter os) s) as [[td|e] s0] eqn:E0.
  - destruct (only_sys _ s _ s0 E0) as (a0 & X0 & N0).
    destruct a0; [|cbn in N0; lia]. rewrite List.app_nil_r in X0.
    destruct (body td s0) as [[a|e] s1] eqn:E1;
      destruct (Hb td s0 _ s1 E1) as (a1 & X1 & N1);
      destruct (sys (tempdir_exit os td) s1) as [[u|e'] s2] eqn:E2;
      destruct (only_sys _ s1 _ s2 E2) as (a2 & X2 & N2);
      (destruct a2; [|cbn in N2; lia]); rewrite List.app_nil_r in X2;
      injection E as <- <-; exists a1; (split; [congruence | exact N1]).
  - injection E as <- <-. destruct (only_sys _ s _ s0 E0) as (a0 & X0 & N0).
    exists a0. split; [exact X0 | lia].
Qed.

(** The guarded block of [run_checks] appends at most three messages. *)
Lemma guarded_block_only (code tests module_name : string) :
  appends_at_most 3
    (try_except
       (with_TemporaryDirectory os (fun td =>
          let td_path := td in
          let mod_path := path_join os td_path (module_name ++ ".py") in
          let test_path := path_join os td_path "test_generated.py" in
          _ <- sys (write_text os mod_path code) ;;
          _ <- sys (write_text os test_path tests) ;;
          proc_compile <- sys (subprocess_run os ["python"; "-m"; "py_compile"; mod_path] None) ;;
          _ <- when (negb (returncode proc_compile =? 0)%Z)
                 (let err := strip (or_str (stderr proc_compile)
                                      (or_str (stdout proc_compile) EmptyString)) in
                  append_check ("py_compile failed: " ++ or_str err "unknown compile error")) ;;
          proc_test <- sys (subprocess_run os ["python"; "-m"; "unittest"; "-q"] (Some td_path)) ;;
          when (negb (returncode proc_test =? 0)%Z)
            (let msg := strip (or_str (stdout proc_test) EmptyString ++ nl
                                 ++ or_str (stderr proc_test) EmptyString) in
             append_check ("unittest failed: " ++ or_str msg "unknown unittest error"))))
       (fun e => append_check ("Exception during checks: " ++ exn_type e ++ ": " ++ exn_msg e))).
Proof.
  apply (only_try 2 1); [|intros e; apply only_append].
  apply only_with. intros td. cbv zeta.
  apply (only_bind 0 2); [apply only_sys|]. intros _.
  apply (only_bind 0 2); [apply only_sys|]. intros _.
  apply (only_bind 0 2); [apply only_sys|]. intros pc.
  apply (only_bind 1 1); [apply only_when, only_append|]. intros _.
  apply (only_bind 0 1); [apply only_sys|]. intros pt.
  apply only_when, only_append.
Qed.

Lemma run_checks_body_only (spec : PyVal) (code tests : string) :
  appends_at_most 6 (run_checks_body py_repr os spec code tests).
Proof.
  unfold run_checks_body.
  apply (only_bind 0 6); [apply only_lift|]. intros fn.
  apply (only_bind 1 5); [apply only_when, only_append|]. intros _.
  apply (only_bind 0 5); [apply only_lift|]. intros v.
  apply (only_bind 1 4); [apply only_when, only_when, only_append|]. intros _.
  apply (only_bind 0 4); [apply only_lift|]. intros q. cbv zeta.
  apply (only_bind 0 4); [apply only_lift|]. intros m.
  apply (only_bind 0 4); [apply only_lift|]. intros n.
  apply (only_bind 1 3); [apply only_when, only_append|]. intros _.
  apply guarded_block_only.
Qed.

(** *** Reading a run that returned *)

Lemma bind_inv {S A B : Type} (m : M S A) (f : A -> M S B) (s s' : S) (b : B) :
  bind m f s = (Ok b, s') ->
  exists a s1, m s = (Ok a, s1) /\ f a s1 = (Ok b, s').
Proof.
  unfold bind. destruct (m s) as [[a|e] s1]; [|discriminate]. intros H.
  now exists a, s1.
Qed.

Lemma lift_inv {S A : Type} (x : Result A) (s s' : S) (a : A) :
  lift x s = (Ok a, s') -> x = Ok a /\ s' = s.
Proof.
  unfold lift. destruct x; [|discriminate]. intros H. injection H as -> ->. auto.
Qed.

Lemma when_append_inv (b : bool) (c : string) (s s' : @St W) (r : Result unit) :
  when b (append_check c) s = (r, s') ->
  s' = (fst s, if b then push (snd s) c else snd s).
Proof.
  destruct b; cbn; intros H; injection H as _ <-; [reflexivity | now destruct s].
Qed.

Lemma push_not_nil {A : Type} (xs : list A) (x : A) : push xs x <> [].
Proof. unfold push. now destruct xs. Qed.

(** What is known of a call of [run_checks] that returned: the three
    readings of the specification succeeded, and the checks returned are
    those of the three static tests, in this order, followed by at most
    three of the guarded block. *)
Lemma run_checks_inv (spec : PyVal) (code tests : string) (strict : bool)
    (user_args : list (string * PyVal)) (w w' : W) (r : ChecksDict) :
  run_checks py_repr os spec code tests strict user_args w = (Ok r, w') ->
  exists fn v q m n dyn,
    _spec_get_function_name py_repr spec = Ok fn
    /\ dict_get spec "stdlib_only" (PyBool false) = Ok v
    /\ dict_get spec "quality" (PyDict []) = Ok q
    /\ dict_get (or_else q (PyDict [])) "min_tests" (PyInt 3) = Ok m
    /\ py_int py_repr (or_else m (PyInt 3)) = Ok n
    /\ (List.length dyn <= 3)%nat
    /\ checks r
       = ((if negb (contains ("def " ++ fn ++ "(")%string code)
           then [("Function definition not found: def " ++ fn ++ "(...).")%string]
           else [])
          ++ (if truthy v
              then match _detect_nonstdlib_imports (code ++ nl ++ tests)%string
                           [_sanitize_module_name fn] with
                   | [] => []
                   | bad => [("Non-stdlib imports detected: "
                                ++ py_repr (PyList (map PyStr (sorted_set bad))))%string]
                   end
              else [])
          ++ (if (count_test_defs 0 tests <? n)%Z
              then [("Not enough tests: found " ++ str_of_int (count_test_defs 0 tests)
                       ++ ", expected >= " ++ str_of_int n ++ ".")%string]
              else [])
          ++ dyn)%list.
Proof.
  intros H. unfold run_checks in H.
  destruct (run_checks_body py_repr os spec code tests (w, [])) as [[[]|e] [w1 cs]] eqn:B;
    [|discriminate].
  injection H as <- <-. cbn [checks].
  unfold run_checks_body in B.
  apply bind_inv in B as (fn & s1 & L1 & B). apply lift_inv in L1 as [Hn ->].
  apply bind_inv in B as ([] & s1 & W1 & B). apply when_append_inv in W1.
  apply bind_inv in B as (v & s2 & L2 & B). apply lift_inv in L2 as [Hv ->].
  apply bind_inv in B as ([] & s2 & W2 & B).
  apply bind_inv in B as (q & s3 & L3 & B). apply lift_inv in L3 as [Hq ->].
  cbv zeta in B.
  apply bind_inv in B as (m & s3 & L4 & B). apply lift_inv in L4 as [Hm ->].
  apply bind_inv in B as (n & s3 & L5 & B). apply lift_inv in L5 as [Hi ->].
  apply bind_inv in B as ([] & s3 & W3 & B). apply when_append_inv in W3.
  destruct (guarded_block_only _ _ _ _ _ _ B) as (dyn & X & N).
  exists fn, v, q, m, n, dyn. do 5 (split; [assumption|]). split; [exact N|].
  cbn [snd] in X. rewrite X, W3. cbn [snd fst].
  assert (E2 : snd s2 = (snd s1 ++
            (if truthy v
              then match _detect_nonstdlib_imports (code ++ nl ++ tests)%string
                           [_sanitize_module_name fn] with
                   | [] => []
                   | bad => [("Non-stdlib imports detected: "
                                ++ py_repr (PyList (map PyStr (sorted_set bad))))%string]
                   end
              else []))%list).
  { destruct (truthy v); cbn [when] in W2.
    - cbv zeta in W2. apply when_append_inv in W2. rewrite W2. cbn [snd].
      destruct (_detect_nonstdlib_imports _ _); [now rewrite List.app_nil_r | reflexivity].
    - injection W2 as <-. now rewrite List.app_nil_r. }
  rewrite E2, W1. cbn [snd fst].
  destruct (negb (contains ("def " ++ fn ++ "(") code));
    destruct (count_test_defs 0 tests <? n)%Z; unfold push; cbn [List.app];
    rewrite <- ?List.app_assoc; reflexivity.
Qed.
End WithOS.

(** X17.  A call of [run_checks] that returns gives at most six
    diagnostics, so that the ten entries of the checks section of the
    next prompt hold them all. *)
Theorem run_checks_at_most_six {W : Type} (py_repr : PyVal -> string) (os : OS W)
    (spec : PyVal) (code tests : string) (strict : bool)
    (user_args : list (string * PyVal)) (w w' : W) (r : ChecksDict) :
  run_checks py_repr os spec code tests strict user_args w = (Ok r, w') ->
  (List.length (checks r) <= 6)%nat /\ firstn 10 (checks r) = checks r.
Proof.
  intros H. unfold run_checks in H.
  destruct (run_checks_body py_repr os spec code tests (w, [])) as [[[]|e] [w1 cs]] eqn:B;
    [|discriminate].
  injection H as <- <-. cbn [checks].
  destruct (run_checks_body_only py_repr os spec code tests _ _ _ B) as (added & X & N).
  cbn in X. subst cs. split; [exact N|]. apply firstn_all2. lia.
Qed.

Lemma run_checks_at_most_six_witness :
  exists r w',
    run_checks Ref.py_repr StubOS foo_spec "import requests" EmptyString true [] 0%nat
    = (Ok r, w')
    /\ List.length (checks r) = 4%nat
    /\ (List.length (checks r) <= 6)%nat.
Proof.
  eexists. eexists. split; [vm_compute; reflexivity|]. split; [reflexivity|].
  eapply run_checks_at_most_six
    with (py_repr := Ref.py_repr) (os := StubOS) (spec := foo_spec)
         (code := "import requests") (tests := EmptyString) (strict := true)
         (user_args := []) (w := 0%nat).
  vm_compute. reflexivity.
Defined.

(** X18.  When [run_checks] returns [ok] true, the three static tests
    passed: the code holds [def name(] for the function name of the
    specification, no import outside the standard modules was found if
    the specification asks for that, and the tests hold at least
    [min_tests] test definitions, three when that entry is absent or
    false. *)
Theorem ok_means_static_checks_pass {W : Type} (py_repr : PyVal -> string) (os : OS W)
    (spec : PyVal) (code tests : string) (strict : bool)
    (user_args : list (string * PyVal)) (w w' : W) (r : ChecksDict) :
  run_checks py_repr os spec code tests strict user_args w = (Ok r, w') ->
  ok r = true ->
  exists fn v q m n,
    _spec_get_function_name py_repr spec = Ok fn
    /\ contains ("def " ++ fn ++ "(") code = true
    /\ dict_get spec "stdlib_only" (PyBool false) = Ok v
    /\ (truthy v = true ->
        _detect_nonstdlib_imports (code ++ nl ++ tests) [_sanitize_module_name fn] = [])
    /\ dict_get spec "quality" (PyDict []) = Ok q
    /\ dict_get (or_else q (PyDict [])) "min_tests" (PyInt 3) = Ok m
    /\ py_int py_repr (or_else m (PyInt 3)) = Ok n
    /\ (n <= count_test_defs 0 tests)%Z.
Proof.
  intros H O.
  assert (E : checks r = []).
  { unfold run_checks in H.
    destruct (run_checks_body py_repr os spec code tests (w, [])) as [[[]|e] [w1 cs]];
      [|discriminate].
    injection H as <- <-. cbn in *. now destruct cs. }
  destruct (run_checks_inv py_repr os _ _ _ _ _ _ _ _ H)
    as (fn & v & q & m & n & dyn & Hn & Hv & Hq & Hm & Hi & _ & C).
  rewrite E in C. symmetry in C.
  apply List.app_eq_nil in C as [C1 C]. apply List.app_eq_nil in C as [C2 C].
  apply List.app_eq_nil in C as [C3 _].
  exists fn, v, q, m, n. split; [exact Hn|]. split.
  { destruct (contains ("def " ++ fn ++ "(") code); [reflexivity | discriminate]. }
  split; [exact Hv|]. split.
  { intros T. rewrite T in C2.
    destruct (_detect_nonstdlib_imports _ _); [reflexivity | discriminate]. }
  do 3 (split; [assumption|]).
  destruct (count_test_defs 0 tests <? n)%Z eqn:L; [discriminate|].
  apply Z.ltb_ge in L. exact L.
Qed.

Lemma ok_means_static_checks_pass_witness :
  contains "def foo(" "def foo(): return 1" = true
  /\ (1 <= count_test_defs 0 "def test_foo(): pass")%Z.
Proof.
  destruct (ok_means_static_checks_pass Ref.py_repr PassingOS foo_spec
              "def foo(): return 1" "def test_foo(): pass" true [] 0%nat
              0%nat (mkChecksDict true []))
    as (fn & v & q & m & n & Hn & C & _ & _ & Hq & Hm & Hi & L).
  - vm_compute. reflexivity.
  - reflexivity.
  - vm_compute in Hn. injection Hn as <-.
    vm_compute in Hq. injection Hq as <-.
    vm_compute in Hm. injection Hm as <-.
    vm_compute in Hi. injection Hi as <-.
    split; [exact C | exact L].
Defined.



End ChecksMore.

(* ================================================================== *)
(** ** The tools under the loop, and the command line *)
(* ================================================================== *)

Module CliMore.
Import parsing prompts agent Notions StrFacts Scenarios.

Section Main.
Context {W : Type}.
Variable json_loads : string -> JsonOutcome.
Variable py_repr : PyVal -> string.
Variable os : actions.OS W.
Variable mkdir : string -> M W unit.
Variable host : cli.Host W.
Variable llm : LLM W.

Local Open Scope py_scope.

Local Notation "'the_tools'" := (actions.as_tools py_repr os mkdir llm).
Local Notation "'the_main'" := (cli.main json_loads py_repr os mkdir host llm).
Local Notation "'the_agent'" := (cli.agent_run json_loads py_repr os mkdir llm).




(** [--strict] and [--no-strict] reach [run_checks] only, which does not
    read them. *)
Lemma loop_ignores_strict (mi mr : Z) (out : string) (s1 s2 : bool)
    (fuel : nat) (spec : PyVal) (st : Locals) (w : W) :
  run_loop json_loads py_repr llm the_tools (mkAgentConfig mi mr s1 out) fuel spec st w
  = run_loop json_loads py_repr llm the_tools (mkAgentConfig mi mr s2 out) fuel spec st w.
Proof.
  revert st w; induction fuel as [|fuel IH]; intros st w; [reflexivity|].
  cbn [run_loop max_iterations].
  destruct (st_iteration st <? mi)%Z; [|reflexivity].
  change (loop_body json_loads py_repr llm the_tools (mkAgentConfig mi mr s1 out) spec st w)
    with (loop_body json_loads py_repr llm the_tools (mkAgentConfig mi mr s2 out) spec st w).
  destruct (loop_body json_loads py_repr llm the_tools (mkAgentConfig mi mr s2 out) spec st w)
    as [[[o [st'|r]]|e] w1]; try reflexivity.
Qed.



(** X21.  The exit code of [main], for the command [run].  With both or
    neither of [--spec] and [--prompt] given (an empty one counts as not
    given), [main] prints the usage error and returns 2: the model is not
    called.  Otherwise a returned code is 0 or 1, according to [ok] of
    the result the agent returned on the specification and with the
    configuration of these arguments; [main] printed the summary of this
    result, to the output for 0 and to the error stream for 1. *)
Theorem main_exit_codes (args : cli.Namespace) (w : W) :
  cli.cmd args = "run" ->
  (cli.given (cli.spec args) = cli.given (cli.prompt args) ->
   forall c w', the_main args w = (Ok c, w') ->
     c = 2%Z
     /\ cli.print_err host "Error: provide exactly one of --spec or --prompt." w
        = (Ok tt, w'))
  /\ (cli.given (cli.spec args) <> cli.given (cli.prompt args) ->
      forall c w', the_main args w = (Ok c, w') ->
        exists spec w0 r w1,
          spec_of_args json_loads host args w = (Ok spec, w0)
          /\ the_agent (config_of_args args) spec w0 = (Ok r, w1)
          /\ c = (if ok r then 0 else 1)%Z
          /\ (ok r = true ->
              exists w2, cli.print_out host ("OK: " ++ summary r) w1 = (Ok tt, w2))
          /\ (ok r = false ->
              cli.print_err host ("FAILED: " ++ summary r) w1 = (Ok tt, w'))).
Proof.
  intros R. split.
  - intros G c w' H. unfold cli.main in H. rewrite R, String.eqb_refl, G in H.
    rewrite Bool.eqb_reflx in H.
    apply ChecksMore.bind_inv in H as ([] & w1 & P & H).
    injection H as <- <-. auto.
  - intros G c w' H. unfold cli.main in H. rewrite R, String.eqb_refl in H.
    destruct (Bool.eqb (cli.given (cli.spec args)) (cli.given (cli.prompt args))) eqn:E.
    { apply Bool.eqb_prop in E. contradiction. }
    apply ChecksMore.bind_inv in H as (spec & w0 & Sp & H). cbv zeta in H.
    apply ChecksMore.bind_inv in H as (r & w1 & A & H).
    exists spec, w0, r, w1. split; [exact Sp|]. split; [exact A|].
    destruct (ok r).
    + apply ChecksMore.bind_inv in H as ([] & w2 & Po & H).
      apply ChecksMore.bind_inv in H as ([] & w3 & _ & H).
      injection H as <- _. split; [reflexivity|]. split; [eauto | discriminate].
    + apply ChecksMore.bind_inv in H as ([] & w2 & Pe & H).
      injection H as <- <-. split; [reflexivity|]. split; [discriminate | auto].
Qed.


(** X23.  [--strict] and [--no-strict] change nothing: whatever the two
    flags, [main] does the same and returns the same. *)
Theorem strict_flags_change_nothing (args : cli.Namespace) (s ns : bool) (w : W) :
  the_main (set_strict args s ns) w = the_main args w.
Proof.
  assert (A : forall b1 b2 spec w0,
             the_agent (mkAgentConfig (cli.max_iters args) (cli.max_phase_retries args)
                          b1 (cli.out args)) spec w0
             = the_agent (mkAgentConfig (cli.max_iters args) (cli.max_phase_retries args)
                            b2 (cli.out args)) spec w0).
  { intros b1 b2 spec w0. unfold cli.agent_run, run. cbn [max_iterations].
    now rewrite (loop_ignores_strict _ _ _ b1 b2). }
  unfold cli.main, set_strict.
  cbn [cli.cmd cli.spec cli.prompt cli.name cli.no_stdlib_only cli.out cli.max_iters
       cli.max_phase_retries cli.strict cli.no_strict].
  destruct (cli.cmd args =? "run"); [|reflexivity].
  destruct (Bool.eqb _ _); [reflexivity|].
  unfold bind.
  match goal with
  | |- match ?m w with _ => _ end = _ => destruct (m w) as [[spec|e] w0]
  end; [|reflexivity].
  cbv zeta.
  rewrite (A (if ns then false else if s then true else true)
             (if cli.no_strict args then false
              else if cli.strict args then true else true) spec w0).
  reflexivity.
Qed.

(** X24.  When the generating model fails on every call, as it does
    without an API key, [main] with [--prompt] alone and a positive
    iteration budget raises that fault: no exit code is returned and
    nothing is printed. *)
Theorem model_fault_leaves_main (args : cli.Namespace) (e : Exn) (w : W) :
  always_raises llm e ->
  cli.cmd args = "run" ->
  cli.given (cli.spec args) = false ->
  cli.given (cli.prompt args) = true ->
  (0 < cli.max_iters args)%Z ->
  the_main args w = (Raise e, w).
Proof.
  intros D R S Q L. unfold cli.main. rewrite R, String.eqb_refl, S, Q.
  cbn [Bool.eqb]. unfold bind at 1. cbn [ret]. cbv zeta.
  match goal with
  | |- context [cli.agent_run _ _ _ _ _ ?c ?s] =>
      assert (X : run_loop json_loads py_repr llm the_tools c
                    (Z.to_nat (cli.max_iters args)) s initial w
                  = mkRun [] 1 (Raised e) w)
  end.
  { destruct (Z.to_nat (cli.max_iters args)) as [|fuel] eqn:F; [lia|].
    cbn [run_loop max_iterations st_iteration initial].
    apply Z.ltb_lt in L. rewrite L.
    unfold loop_body, attempt_action, bind. now rewrite D. }
  unfold bind, cli.agent_run, run. cbn [max_iterations]. now rewrite X.
Qed.

(** X25.  With [--spec] alone, a file that does not exist makes [main]
    raise [FileNotFoundError], and one whose text is no JSON makes it
    raise the decoder's error: in both cases no exit code is returned,
    and the run is not started. *)
Theorem spec_file_faults_leave_main (args : cli.Namespace) (path : string) (w w1 : W) :
  cli.cmd args = "run" ->
  cli.spec args = Some path ->
  cli.given (cli.spec args) = true ->
  cli.given (cli.prompt args) = false ->
  (cli.path_exists host path w = (Ok false, w1) ->
   the_main args w
   = (Raise (mkExn "FileNotFoundError" ("Spec file not found: " ++ path)), w1))
  /\ (forall text msg w2,
        cli.path_exists host path w = (Ok true, w1) ->
        cli.read_text host path w1 = (Ok text, w2) ->
        json_loads text = JSONDecodeError msg ->
        the_main args w = (Raise (mkExn "JSONDecodeError" msg), w2)).
Proof.
  intros R P S Q. unfold cli.main. rewrite R, String.eqb_refl, S, Q, P.
  cbn [Bool.eqb]. split.
  - intros E. unfold bind, cli._load_spec, bind. now rewrite E.
  - intros text msg w2 E T J. unfold bind, cli._load_spec, bind.
    rewrite E. cbn [negb]. now rewrite T, J.
Qed.

(** X26.  The specification built from [--prompt] and [--name] has the
    shape [run_checks] expects; the function name read back from it is
    the name stripped, or the name followed by [_v1] when the name is
    blank; and the number of tests read from it is 4. *)
Theorem spec_from_prompt_shape (prompt : option string) (name : string)
    (stdlib_only : bool) :
  let spec := cli._spec_from_prompt prompt name stdlib_only in
  well_formed_spec spec = true
  /\ actions._spec_get_function_name py_repr spec
     = Ok (if truthy_str (strip name) then strip name else name ++ "_v1")
  /\ actions.dict_get spec "stdlib_only" (PyBool false) = Ok (PyBool stdlib_only)
  /\ (exists q,
        actions.dict_get spec "quality" (PyDict []) = Ok q
        /\ actions.dict_get (actions.or_else q (PyDict [])) "min_tests" (PyInt 3) = Ok (PyInt 4)).
Proof.
  cbv zeta. split; [reflexivity|]. split; [|split].
  - unfold actions._spec_get_function_name, cli._spec_from_prompt.
    cbn [actions.dict_get get lookup String.eqb Ascii.eqb Bool.eqb].
    destruct (truthy_str (strip name)); reflexivity.
  - reflexivity.
  - eexists. split; reflexivity.
Qed.
End Main.





Lemma main_exit_codes_witness :
  cli.main Ref.json_loads Ref.py_repr StubOS no_mkdir StubHost HeaderLLM bare_args 0%nat
  = (Ok 2%Z, 0%nat).
Proof.
  destruct (main_exit_codes Ref.json_loads Ref.py_repr StubOS no_mkdir StubHost
              HeaderLLM bare_args 0%nat eq_refl) as (U & _).
  destruct (U eq_refl 2%Z 0%nat ltac:(reflexivity)) as [_ _].
  reflexivity.
Defined.


Lemma spec_file_faults_leave_main_witness :
  cli.main Ref.json_loads Ref.py_repr StubOS no_mkdir StubHost HeaderLLM
    (cli.mkNamespace "run" (Some "spec.json") None "f" false "generated" 8 2 false false)
    0%nat
  = (Raise (mkExn "FileNotFoundError" "Spec file not found: spec.json"), 0%nat).
Proof.
  destruct (spec_file_faults_leave_main Ref.json_loads Ref.py_repr StubOS no_mkdir
              StubHost HeaderLLM
              (cli.mkNamespace "run" (Some "spec.json") None "f" false "generated"
                 8 2 false false)
              "spec.json" 0%nat 0%nat) as [F _].
  - reflexivity.
  - reflexivity.
  - reflexivity.
  - reflexivity.
  - exact (F eq_refl).
Defined.

Lemma model_fault_leaves_main_witness :
  cli.main Ref.json_loads Ref.py_repr StubOS no_mkdir StubHost
    (mkLLM (fun _ => raise (mkExn "LLMError" "OPENAI_API_KEY is not set in environment.")))
    prompt_args 0%nat
  = (Raise (mkExn "LLMError" "OPENAI_API_KEY is not set in environment."), 0%nat).
Proof.
  apply (model_fault_leaves_main Ref.json_loads Ref.py_repr StubOS no_mkdir StubHost
           (mkLLM (fun _ => raise (mkExn "LLMError" "OPENAI_API_KEY is not set in environment.")))
           prompt_args).
  - intros prompt w. reflexivity.
  - reflexivity.
  - reflexivity.
  - reflexivity.
  - reflexivity.
Defined.

End CliMore.
